(** * E-skills store: cart, checkout, webhook and the Open edX client

    A shallow embedding of the parts of the store that carry its protocol
    logic:

    - [app/models/cart.py]      the cart aggregate ([Cart], [CartItem]);
    - [app/utils/edx_api.py]    the client of the remote LMS ([OpenEdxAPI]);
    - [app/routes/payment.py]   checkout and the payment webhook.

    Python values are a small inductive type, binary64 numbers are Rocq's
    primitive floats, exceptions are an explicit result type, and the
    objects the code mutates ([self] of the client, the tables of the
    store) are threaded as state.  The remote LMS, the payment processor
    and the key coercion of the object-relational mapper are not code of
    the store: they are variables of the sections that use them. *)

From Stdlib Require Import ZArith List String Ascii Bool Floats Lia.
Import ListNotations.

Set Warnings "-inexact-float,-register-all".

Local Open Scope string_scope.
Local Open Scope list_scope.
Local Open Scope Z_scope.

(* ===================================================================== *)
(** ** Python values, exceptions and the builtins the code relies on *)
(* ===================================================================== *)

Module Py.

(** What [json.loads] produces, which is also all the dynamic data the
    modelled functions handle.  A dict is an association list in
    insertion order whose keys are strings. *)
Inductive value : Type :=
| VNone
| VBool (b : bool)
| VInt (z : Z)
| VFloat (f : float)
| VStr (s : string)
| VList (l : list value)
| VDict (d : list (string * value)).

(** The exception classes that occur.  Every handler of the modelled
    code is [except Exception], but for the two of the webhook that tell
    [ValueError] and [SignatureVerificationError] apart. *)
Inductive exn : Type :=
| TransportError          (* requests.exceptions.RequestException *)
| JSONDecodeError         (* a subclass of ValueError *)
| ValueError
| TypeError
| AttributeError
| KeyError
| OverflowError
| SignatureVerificationError
| StripeError.

Definition is_ValueError (e : exn) : bool :=
  match e with
  | ValueError | JSONDecodeError => true
  | _ => false
  end.

Definition is_SignatureVerificationError (e : exn) : bool :=
  match e with
  | SignatureVerificationError => true
  | _ => false
  end.

(** The outcome of evaluating an expression that may raise. *)
Inductive result (A : Type) : Type :=
| Ok (a : A)
| Raise (e : exn).
Arguments Ok {A} a.
Arguments Raise {A} e.

Definition rbind {A B} (r : result A) (k : A -> result B) : result B :=
  match r with
  | Ok a => k a
  | Raise e => Raise e
  end.

(** [bool(x)]: the truth value of an object. *)
Definition truthy (v : value) : bool :=
  match v with
  | VNone => false
  | VBool b => b
  | VInt z => negb (z =? 0)
  | VFloat f => negb (f =? 0)%float
  | VStr s => negb (s =? "")%string
  | VList l => match l with [] => false | _ => true end
  | VDict d => match d with [] => false | _ => true end
  end.

(** Lookup in a dict's association list. *)
Fixpoint assoc {A} (k : string) (d : list (string * A)) : option A :=
  match d with
  | [] => None
  | (k', v) :: rest => if (k' =? k)%string then Some v else assoc k rest
  end.

(** [d[k] = v] on a dict: the value is replaced where the key is, a new
    key goes to the end. *)
Fixpoint assoc_set {A} (k : string) (v : A) (d : list (string * A))
  : list (string * A) :=
  match d with
  | [] => [(k, v)]
  | (k', v') :: rest =>
      if (k' =? k)%string then (k, v) :: rest
      else (k', v') :: assoc_set k v rest
  end.

(** [d.update(other)]. *)
Definition dict_update (d other : list (string * value))
  : list (string * value) :=
  fold_left (fun acc kv => assoc_set (fst kv) (snd kv) acc) other d.

(** [x.get(k, default)]: only a dict has the method. *)
Definition get (x : value) (k : string) (default : value) : result value :=
  match x with
  | VDict d => Ok (match assoc k d with Some v => v | None => default end)
  | _ => Raise AttributeError
  end.

(** [x[k]] with a string key. *)
Definition getitem (x : value) (k : string) : result value :=
  match x with
  | VDict d => match assoc k d with Some v => Ok v | None => Raise KeyError end
  | _ => Raise TypeError
  end.

(** [k in x] with a string key and a dict [x]. *)
Definition has_key (d : list (string * value)) (k : string) : bool :=
  match assoc k d with Some _ => true | None => false end.

Fixpoint chars (s : string) : list value :=
  match s with
  | EmptyString => []
  | String c rest => VStr (String c EmptyString) :: chars rest
  end.

(** What [for x in v] runs over: the elements of a list, the keys of a
    dict, the characters of a string; nothing else is iterable. *)
Definition iter (v : value) : result (list value) :=
  match v with
  | VList l => Ok l
  | VDict d => Ok (map (fun kv => VStr (fst kv)) d)
  | VStr s => Ok (chars s)
  | _ => Raise TypeError
  end.

(** [len(v)]. *)
Definition len (v : value) : result Z :=
  match v with
  | VList l => Ok (Z.of_nat (List.length l))
  | VDict d => Ok (Z.of_nat (List.length d))
  | VStr s => Ok (Z.of_nat (String.length s))
  | _ => Raise TypeError
  end.

(** [s.upper()] on the ASCII letters. *)
Definition upper_ascii (c : ascii) : ascii :=
  let n := nat_of_ascii c in
  if ((97 <=? n)%nat && (n <=? 122)%nat)%bool
  then ascii_of_nat (n - 32) else c.

Fixpoint upper (s : string) : string :=
  match s with
  | EmptyString => EmptyString
  | String c rest => String (upper_ascii c) (upper rest)
  end.

(** [v.upper()]: only a string has the method. *)
Definition call_upper (v : value) : result string :=
  match v with
  | VStr s => Ok (upper s)
  | _ => Raise AttributeError
  end.

(** [s.rstrip('/')]. *)
Fixpoint rstrip_slash (s : string) : string :=
  match s with
  | EmptyString => EmptyString
  | String c rest =>
      match rstrip_slash rest with
      | EmptyString => if (c =? "/")%char then EmptyString
                       else String c EmptyString
      | rest' => String c rest'
      end
  end.

(** *** Numbers *)

(** The binary64 nearest to an integer (ties to even), infinite when the
    integer is out of range. *)
Definition float_of_Z (z : Z) : float :=
  SF2Prim (binary_normalize 53 1024 z 0 false).

(** The integer part of a finite binary64, towards zero. *)
Definition trunc (f : float) : result Z :=
  match Prim2SF f with
  | S754_zero _ => Ok 0
  | S754_finite s m e =>
      let mag := match e with
                 | Z0 => Zpos m
                 | Zpos p => Z.shiftl (Zpos m) (Zpos p)
                 | Zneg p => Z.shiftr (Zpos m) (Zpos p)
                 end in
      Ok (if s then - mag else mag)
  | S754_infinity _ => Raise OverflowError
  | S754_nan => Raise ValueError
  end.

Section Float.
(** [float(s)] on a string is the interpreter's parser; [None] is its
    [ValueError]. *)
Variable float_of_str : string -> option float.

(** [float(v)]. *)
Definition to_float (v : value) : result float :=
  match v with
  | VFloat f => Ok f
  | VInt z =>
      let f := float_of_Z z in
      if is_infinity f then Raise OverflowError else Ok f
  | VBool b => Ok (if b then 1%float else 0%float)
  | VStr s =>
      match float_of_str s with
      | Some f => Ok f
      | None => Raise ValueError
      end
  | VNone | VList _ | VDict _ => Raise TypeError
  end.
End Float.

(** The two numeric types arithmetic yields here. *)
Inductive number : Type :=
| NInt (z : Z)
| NFloat (f : float).

(** [n + f] with a float [f]: an int operand is converted first. *)
Definition add_float (n : number) (f : float) : number :=
  match n with
  | NInt z => NFloat (float_of_Z z + f)
  | NFloat g => NFloat (g + f)
  end.

(** [sum(fs)] over floats: a left fold from the integer [0].  (An
    interpreter that compensates the rounding of a long sum agrees with
    it on one float, which is all the runs below add.) *)
Definition sum (fs : list float) : number :=
  fold_left add_float fs (NInt 0).

(** [n * k] with an int literal [k]. *)
Definition mul_int (n : number) (k : Z) : number :=
  match n with
  | NInt z => NInt (z * k)
  | NFloat f => NFloat (f * float_of_Z k)
  end.

(** [int(n)]. *)
Definition int (n : number) : result Z :=
  match n with
  | NInt z => Ok z
  | NFloat f => trunc f
  end.

End Py.

Import Py.

Declare Scope result_scope.
Delimit Scope result_scope with result.
Notation "x <~ r ;; k" := (rbind r (fun x => k))
  (at level 100, r at next level, right associativity) : result_scope.

(* ===================================================================== *)
(** ** The store: users, carts and cart lines ([app/models]) *)
(* ===================================================================== *)

Module Store.

(** A row of [users]; only the columns the modelled code reads. *)
Record user : Type := {
  user_id : Z;
  username : string;
  email : string
}.

(** A row of [carts]. *)
Record cart : Type := {
  cart_id : Z;
  cart_user_id : Z
}.

(** A row of [cart_items] ([CartItem]); [created_at] is left out, nothing
    reads it.  [price] is a nullable [Float] column. *)
Record cart_item : Type := {
  item_id : Z;
  item_cart_id : Z;
  course_id : string;
  mode : string;
  price : option float;
  currency : string;
  course : value
}.

(** The committed state of the three tables.  Every method of [Cart]
    commits before it returns, so sessions are not modelled apart. *)
Record db : Type := {
  users : list user;
  carts : list cart;
  cart_items : list cart_item
}.

Definition with_cart_items (d : db) (l : list cart_item) : db :=
  {| users := users d; carts := carts d; cart_items := l |}.

(** The [items] backref: the lines whose [cart_id] is the cart's,
    in table order. *)
Definition items (d : db) (c : cart) : list cart_item :=
  filter (fun i => item_cart_id i =? cart_id c) (cart_items d).

(** [CartItem.query.filter_by(cart_id=self.id, course_id=course_id)]. *)
Definition line_of (c : cart) (cid : string) (i : cart_item) : bool :=
  (item_cart_id i =? cart_id c) && (course_id i =? cid)%string.

(** [Cart.has_item]. *)
Definition has_item (d : db) (c : cart) (cid : string) : bool :=
  match find (line_of c cid) (cart_items d) with
  | Some _ => true
  | None => false
  end.

(** The key an autoincrement column gives the next row. *)
Definition next_id (l : list cart_item) : Z :=
  1 + fold_right (fun i m => Z.max (item_id i) m) 0 l.

(** [Cart.add_item]: the returned flag and the store after the call. *)
Definition add_item (d : db) (c : cart) (cid : string) (crs : value)
  (md : string) (pr : option float) (cur : string) : bool * db :=
  if negb (has_item d c cid) then
    let item := {| item_id := next_id (cart_items d);
                   item_cart_id := cart_id c;
                   course_id := cid;
                   mode := md;
                   price := pr;
                   currency := cur;
                   course := crs |} in
    (true, with_cart_items d (cart_items d ++ [item]))
  else (false, d).

Fixpoint remove_first {A} (p : A -> bool) (l : list A) : list A :=
  match l with
  | [] => []
  | x :: rest => if p x then rest else x :: remove_first p rest
  end.

(** [Cart.remove_item]. *)
Definition remove_item (d : db) (c : cart) (cid : string) : bool * db :=
  match find (line_of c cid) (cart_items d) with
  | Some _ => (true, with_cart_items d (remove_first (line_of c cid) (cart_items d)))
  | None => (false, d)
  end.

(** [Cart.clear]. *)
Definition clear (d : db) (c : cart) : db :=
  with_cart_items d
    (filter (fun i => negb (item_cart_id i =? cart_id c)) (cart_items d)).

(** [item.price for item in items if item.price is not None]. *)
Fixpoint prices (l : list cart_item) : list float :=
  match l with
  | [] => []
  | i :: rest =>
      match price i with
      | Some p => p :: prices rest
      | None => prices rest
      end
  end.

(** [Cart.total]. *)
Definition total (d : db) (c : cart) : number :=
  Py.sum (prices (items d c)).

(** The number of lines of the cart that are for a course. *)
Definition lines_for (d : db) (c : cart) (cid : string) : nat :=
  List.length (filter (fun i => (course_id i =? cid)%string) (items d c)).

End Store.

(* ===================================================================== *)
(** ** HTTP as the client sees it ([requests]) *)
(* ===================================================================== *)

Module Http.

Inductive method : Type := GET | POST.

(** An f-string, kept as its parts: literal text and interpolated
    values.  [f"jwt {token}"] is [[Lit "jwt "; Fmt token]]. *)
Inductive piece : Type :=
| Lit (s : string)
| Fmt (v : value).

Definition fstring : Type := list piece.

(** The [data=] (form) or [json=] argument of a request. *)
Inductive payload : Type :=
| NoBody
| Form (d : list (string * value))
| Json (v : value).

(** A call of [session.get] or [session.post]; the timeout is left out. *)
Record request : Type := {
  meth : method;
  url : fstring;
  headers : list (string * fstring);
  params : list (string * value);
  body : payload
}.

(** What the code reads of a response.  [json] is the result of
    [response.json()], [None] when the body does not parse. *)
Record response : Type := {
  status_code : Z;
  text : string;
  json : option value;
  cookies : list (string * string);
  resp_headers : list (string * string)
}.

(** A call returns a response or raises. *)
Inductive reply : Type :=
| Answer (r : response)
| Failure (e : exn).

(** The remote side: its reply to a request may depend on all the
    requests made before it (oldest first). *)
Definition remote : Type := list request -> request -> reply.

(** [response.json()]. *)
Definition json_of (r : response) : result value :=
  match json r with
  | Some v => Ok v
  | None => Raise JSONDecodeError
  end.

Definition of_option (o : option string) : value :=
  match o with
  | Some s => VStr s
  | None => VNone
  end.

(** [response.cookies.get(name)]. *)
Definition cookie_get (r : response) (name : string) : value :=
  of_option (assoc name (cookies r)).

(** [response.headers.get(name)]: header names compare without case. *)
Definition header_get (r : response) (name : string) : value :=
  of_option (assoc (upper name)
               (map (fun kv => (upper (fst kv), snd kv)) (resp_headers r))).

End Http.

Import Http.

(* ===================================================================== *)
(** ** The client of the remote LMS ([app/utils/edx_api.py]) *)
(* ===================================================================== *)

Module Edx.

(** The attributes of an [OpenEdxAPI] instance. *)
Record api : Type := {
  base_url : string;
  client_id : string;
  client_secret : string;
  access_token : value;
  csrf_token : value
}.

(** The instance together with what it has done so far: [sent] lists the
    requests issued through its session, oldest first, and [enrolled]
    the invocations of [enroll] with their arguments.  [enrolled] is an
    observation added to the model, the code keeps no such list. *)
Record state : Type := {
  self : api;
  sent : list request;
  enrolled : list (string * string * string)
}.

(** A method of the client: it may change the instance, issue requests
    and raise. *)
Definition M (A : Type) : Type := state -> result A * state.

Definition ret {A} (a : A) : M A := fun st => (Ok a, st).

Definition bind {A B} (m : M A) (k : A -> M B) : M B :=
  fun st =>
    match m st with
    | (Ok a, st') => k a st'
    | (Raise e, st') => (Raise e, st')
    end.

(** An expression that may raise but touches no state. *)
Definition lift {A} (r : result A) : M A := fun st => (r, st).

(** [try: m  except Exception as e: h e]. *)
Definition try_except {A} (m : M A) (h : exn -> M A) : M A :=
  fun st =>
    match m st with
    | (Ok a, st') => (Ok a, st')
    | (Raise e, st') => h e st'
    end.

Definition get_self : M api := fun st => (Ok (self st), st).

Definition set_access_token (v : value) : M unit :=
  fun st =>
    (Ok tt,
     {| self := {| base_url := base_url (self st);
                   client_id := client_id (self st);
                   client_secret := client_secret (self st);
                   access_token := v;
                   csrf_token := csrf_token (self st) |};
        sent := sent st;
        enrolled := enrolled st |}).

Definition set_csrf_token (v : value) : M unit :=
  fun st =>
    (Ok tt,
     {| self := {| base_url := base_url (self st);
                   client_id := client_id (self st);
                   client_secret := client_secret (self st);
                   access_token := access_token (self st);
                   csrf_token := v |};
        sent := sent st;
        enrolled := enrolled st |}).

Definition note_enroll (user cid md : string) : M unit :=
  fun st =>
    (Ok tt,
     {| self := self st;
        sent := sent st;
        enrolled := enrolled st ++ [(user, cid, md)] |}).

End Edx.

Declare Scope edx_scope.
Delimit Scope edx_scope with edx.
Notation "x <- m ;; k" := (Edx.bind m (fun x => k))
  (at level 100, m at next level, right associativity) : edx_scope.
Notation "m ;;; k" := (Edx.bind m (fun _ => k))
  (at level 100, right associativity) : edx_scope.

Module OpenEdxAPI.

Import Edx.
Local Open Scope edx_scope.
Local Open Scope result_scope.

(** *** Scanning a list of modes for a price (pure) *)

(** [name in ['professional', 'verified']]. *)
Definition named (name : value) : bool :=
  match name with
  | VStr s => ((s =? "professional") || (s =? "verified"))%string
  | _ => false
  end.

(** The dict the pricing code builds: [{'price': .., 'currency': ..,
    'source': ..}]. *)
Definition price_info (p : value) (cur src : string) : list (string * value) :=
  [("price", p); ("currency", VStr cur); ("source", VStr src)].

Definition default_info : list (string * value) :=
  price_info (VInt 0) "USD" "default".

Definition error_info : list (string * value) :=
  price_info (VInt 0) "USD" "error".

Section Scan.
Variable float_of_str : string -> option float.

(** [float(mode.get('price', 0))]. *)
Definition price_of (mode : value) : result float :=
  p <~ get mode "price" (VInt 0) ;;
  to_float float_of_str p.

(** [mode.get('currency', 'USD').upper()]. *)
Definition currency_of (mode : value) : result string :=
  c <~ get mode "currency" (VStr "USD") ;;
  call_upper c.

(** The first loop of each pricing block: the first mode named
    professional or verified decides, whatever its price.  [src] is the
    ['source'] the block writes. *)
Fixpoint scan_named (src : string) (modes : list value)
  : result (option (list (string * value))) :=
  match modes with
  | [] => Ok None
  | mode :: rest =>
      name <~ get mode "name" VNone ;;
      if named name then
        price <~ price_of mode ;;
        cur <~ currency_of mode ;;
        Ok (Some (price_info (VFloat price) cur src))
      else scan_named src rest
  end.

(** The second loop: the first mode whose price is above zero. *)
Fixpoint scan_positive (src : string) (modes : list value)
  : result (option (list (string * value))) :=
  match modes with
  | [] => Ok None
  | mode :: rest =>
      price <~ price_of mode ;;
      if (0 <? price)%float then
        cur <~ currency_of mode ;;
        Ok (Some (price_info (VFloat price) cur src))
      else scan_positive src rest
  end.

(** Both loops over the same container, as [get_course_price] runs them:
    the second loop only when the first returned nothing. *)
Definition two_pass (src : string) (container : value)
  : result (option (list (string * value))) :=
  ms <~ iter container ;;
  hit <~ scan_named src ms ;;
  match hit with
  | Some p => Ok (Some p)
  | None =>
      ms' <~ iter container ;;
      scan_positive src ms'
  end.

(** [course.update(p)] when a loop found [p]. *)
Definition apply_hit (c : list (string * value))
  (hit : option (list (string * value))) : list (string * value) :=
  match hit with
  | Some p => dict_update c p
  | None => c
  end.

(** Both loops as [get_courses] runs them on a course record: the second
    loop only while the record has no ['price'] key. *)
Definition price_from (src : string) (container : value)
  (c : list (string * value)) : result (list (string * value)) :=
  ms <~ iter container ;;
  hit <~ scan_named src ms ;;
  let c1 := apply_hit c hit in
  if negb (has_key c1 "price") then
    ms' <~ iter container ;;
    hit' <~ scan_positive src ms' ;;
    Ok (apply_hit c1 hit')
  else Ok c1.

End Scan.

(** *** The methods *)

Section Client.
Variable lms : remote.
Variable float_of_str : string -> option float.

(** [self.session.get(..)] and [self.session.post(..)]: the request is
    recorded, the LMS replies. *)
Definition http (rq : request) : M response :=
  fun st =>
    let st' := {| self := self st;
                  sent := sent st ++ [rq];
                  enrolled := enrolled st |} in
    match lms (sent st) rq with
    | Answer r => (Ok r, st')
    | Failure e => (Raise e, st')
    end.

Definition token_request (s : api) : request :=
  {| meth := POST;
     url := [Lit (base_url s); Lit "/oauth2/access_token/"];
     headers := [("Accept", [Lit "application/json"]);
                 ("Content-Type", [Lit "application/x-www-form-urlencoded"])];
     params := [];
     body := Form [("grant_type", VStr "client_credentials");
                   ("client_id", VStr (client_id s));
                   ("client_secret", VStr (client_secret s));
                   ("token_type", VStr "jwt")] |}.

(** [OpenEdxAPI._get_access_token]. *)
Definition _get_access_token : M value :=
  s <- get_self ;;
  if negb (truthy (access_token s)) then
    try_except
      (response <- http (token_request s) ;;
       (if status_code response =? 200 then
          token_data <- lift (json_of response) ;;
          token <- lift (get token_data "access_token" VNone) ;;
          set_access_token token
        else ret tt) ;;;
       s' <- get_self ;;
       ret (access_token s'))
      (fun _ => ret VNone)
  else ret (access_token s).

Definition csrf_request (s : api) : request :=
  {| meth := GET;
     url := [Lit (base_url s)];
     headers := [("Accept", [Lit "application/json"])];
     params := [];
     body := NoBody |}.

(** [OpenEdxAPI._get_csrf_token]. *)
Definition _get_csrf_token : M value :=
  s <- get_self ;;
  (if negb (truthy (csrf_token s)) then
     try_except
       (response <- http (csrf_request s) ;;
        set_csrf_token (cookie_get response "csrftoken") ;;;
        s1 <- get_self ;;
        if negb (truthy (csrf_token s1)) then
          set_csrf_token (header_get response "X-CSRFToken")
        else ret tt)
       (fun _ => ret tt)
   else ret tt) ;;;
  s2 <- get_self ;;
  ret (csrf_token s2).

Definition csrf_headers (csrf : value) : list (string * fstring) :=
  if truthy csrf then
    [("X-CSRFToken", [Fmt csrf]); ("Cookie", [Lit "csrftoken="; Fmt csrf])]
  else [].

(** [OpenEdxAPI._get_auth_headers].  The token is asked for twice: once
    for the log line, once for the header. *)
Definition _get_auth_headers (include_csrf : bool)
  : M (list (string * fstring)) :=
  _get_access_token ;;;
  token <- _get_access_token ;;
  let headers := [("Accept", [Lit "application/json"]);
                  ("Content-Type", [Lit "application/json"]);
                  ("User-Agent", [Lit "EDXStore/1.0"]);
                  ("Authorization", [Lit "jwt "; Fmt token])] in
  if include_csrf then
    csrf <- _get_csrf_token ;;
    ret (headers ++ csrf_headers csrf)
  else ret headers.

Definition commerce_url (s : api) (course_id : value) : fstring :=
  [Lit (base_url s); Lit "/api/commerce/v1/courses/"; Fmt course_id; Lit "/"].

Definition modes_url (s : api) (course_id : value) : fstring :=
  [Lit (base_url s); Lit "/api/enrollment/v1/course/"; Fmt course_id;
   Lit "/modes"].

Definition get_request (u : fstring) (hd : list (string * fstring))
  (ps : list (string * value)) : request :=
  {| meth := GET; url := u; headers := hd; params := ps; body := NoBody |}.

(** The commerce call of [get_course_price], with the headers it builds
    for it. *)
Definition fetch_commerce (course_id : string) : M response :=
  s <- get_self ;;
  hd <- _get_auth_headers true ;;
  http (get_request (commerce_url s (VStr course_id)) hd []).

(** The course-modes call of [get_course_price]. *)
Definition fetch_modes (course_id : string) : M response :=
  s <- get_self ;;
  hd <- _get_auth_headers true ;;
  http (get_request (modes_url s (VStr course_id)) hd []).

(** What [get_course_price] makes of the commerce response. *)
Definition commerce_quote (r : response)
  : result (option (list (string * value))) :=
  if status_code r =? 200 then
    commerce_data <~ json_of r ;;
    modes <~ get commerce_data "modes" (VList []) ;;
    two_pass float_of_str "commerce_api" modes
  else Ok None.

(** What it makes of the course-modes response. *)
Definition modes_quote (r : response)
  : result (option (list (string * value))) :=
  if status_code r =? 200 then
    modes_data <~ json_of r ;;
    two_pass float_of_str "course_modes_api" modes_data
  else Ok None.

(** The [try] block of [get_course_price]. *)
Definition get_course_price_body (course_id : string) : M value :=
  commerce_response <- fetch_commerce course_id ;;
  found <- lift (commerce_quote commerce_response) ;;
  match found with
  | Some p => ret (VDict p)
  | None =>
      modes_response <- fetch_modes course_id ;;
      found' <- lift (modes_quote modes_response) ;;
      match found' with
      | Some p => ret (VDict p)
      | None => ret (VDict default_info)
      end
  end.

(** [OpenEdxAPI.get_course_price]. *)
Definition get_course_price (course_id : string) : M value :=
  try_except (get_course_price_body course_id)
    (fun _ => ret (VDict error_info)).

(** The body of the [for course in courses] loop of [get_courses]:
    the record it leaves for one course.  [headers] are those built once
    before the catalog call. *)
Definition price_course (hd : list (string * fstring)) (course : value)
  : M value :=
  course_id <- lift (get course "id" VNone) ;;
  match course with
  | VDict c =>
      if truthy course_id then
        s <- get_self ;;
        commerce_response <-
          http (get_request (commerce_url s course_id) hd []) ;;
        c1 <- (if status_code commerce_response =? 200 then
                 lift (commerce_data <~ json_of commerce_response ;;
                       modes <~ get commerce_data "modes" (VList []) ;;
                       price_from float_of_str "commerce_api" modes c)
               else ret c) ;;
        c2 <- (if negb (has_key c1 "price") then
                 modes_response <-
                   http (get_request (modes_url s course_id) hd []) ;;
                 if status_code modes_response =? 200 then
                   lift (modes_data <~ json_of modes_response ;;
                         price_from float_of_str "course_modes_api"
                           modes_data c1)
                 else ret c1
               else ret c1) ;;
        ret (VDict c2)
      else ret course
  | _ => ret course
  end.

(** The loop itself: the records after it, in order. *)
Fixpoint price_courses (hd : list (string * fstring)) (cs : list value)
  : M (list value) :=
  match cs with
  | [] => ret []
  | course :: rest =>
      course' <- price_course hd course ;;
      rest' <- price_courses hd rest ;;
      ret (course' :: rest')
  end.

(** The object [courses] after the loop: a list holds the updated
    records; anything else the loop can get through is empty and stays
    as it is. *)
Definition after_loop (courses : value) (updated : list value) : value :=
  match courses with
  | VList _ => VList updated
  | _ => courses
  end.

Definition catalog_url (s : api) : fstring :=
  [Lit (base_url s); Lit "/api/courses/v1/courses/"].

(** The [try] block of [get_courses]. *)
Definition get_courses_body (page page_size : Z) : M value :=
  s <- get_self ;;
  let ps := [("page", VInt page); ("page_size", VInt page_size)] in
  hd <- _get_auth_headers true ;;
  response <- http (get_request (catalog_url s) hd ps) ;;
  if status_code response =? 200 then
    data <- lift (json_of response) ;;
    courses <- lift (get data "results" (VList [])) ;;
    lift (len courses) ;;;
    cs <- lift (iter courses) ;;
    updated <- price_courses hd cs ;;
    count <- lift (get data "count" (VInt 0)) ;;
    ret (VDict [("results", after_loop courses updated);
                ("pagination", VDict [("page", VInt page);
                                      ("page_size", VInt page_size);
                                      ("total", count)])])
  else ret VNone.

(** [OpenEdxAPI.get_courses]. *)
Definition get_courses (page page_size : Z) : M value :=
  try_except (get_courses_body page page_size) (fun _ => ret VNone).

(** The second component of what [enroll] returns: a value (the parsed
    body, or the message) or [str(e)] of the exception caught. *)
Inductive detail : Type :=
| Data (v : value)
| Text (e : exn).

Definition enrollment_data (email course_id mode : string) : value :=
  VDict [("user", VStr email);
         ("course_details", VDict [("course_id", VStr course_id)]);
         ("mode", VStr mode)].

Definition enroll_request (s : api) (access_token csrf : value)
  (email course_id mode : string) : request :=
  {| meth := POST;
     url := [Lit (base_url s); Lit "/api/enrollment/v1/enrollment"];
     headers := [("Accept", [Lit "application/json"]);
                 ("Content-Type", [Lit "application/json"]);
                 ("Authorization", [Lit "jwt "; Fmt access_token])]
                ++ csrf_headers csrf;
     params := [];
     body := Json (enrollment_data email course_id mode) |}.

(** What [enroll] makes of the response to its request. *)
Definition enroll_outcome (response : response) : result (bool * detail) :=
  if (status_code response =? 200) || (status_code response =? 201) then
    data <~ json_of response ;;
    Ok (true, Data data)
  else
    error_data <~ (if negb (text response =? "")%string
                   then json_of response else Ok (VDict [])) ;;
    error_message <~ get error_data "message"
                       (VStr "Unknown error occurred") ;;
    Ok (false, Data error_message).

(** The [try] block of [enroll]. *)
Definition enroll_body (email course_id mode : string) : M (bool * detail) :=
  access_token <- _get_access_token ;;
  if negb (truthy access_token) then
    ret (false, Data (VStr "Authentication failed"))
  else
    csrf <- _get_csrf_token ;;
    s <- get_self ;;
    response <-
      http (enroll_request s access_token csrf email course_id mode) ;;
    lift (enroll_outcome response).

(** [OpenEdxAPI.enroll]. *)
Definition enroll (email course_id mode : string) : M (bool * detail) :=
  note_enroll email course_id mode ;;;
  try_except (enroll_body email course_id mode)
    (fun e => ret (false, Text e)).

(** [OpenEdxAPI.authenticate_user]: the password grant for a user of the
    store.  What it obtains is returned, not kept. *)
Definition authenticate_request (s : api) (username password : string)
  : request :=
  {| meth := POST;
     url := [Lit (base_url s); Lit "/oauth2/access_token"];
     headers := [("Content-Type", [Lit "application/x-www-form-urlencoded"]);
                 ("Accept", [Lit "application/json"])];
     params := [];
     body := Form [("grant_type", VStr "password");
                   ("username", VStr username);
                   ("password", VStr password);
                   ("client_id", VStr (client_id s));
                   ("client_secret", VStr (client_secret s));
                   ("scope", VStr "read write")] |}.

Definition authenticate_user (username password : string) : M value :=
  try_except
    (s <- get_self ;;
     response <- http (authenticate_request s username password) ;;
     if status_code response =? 200 then
       token_data <- lift (json_of response) ;;
       ret token_data
     else ret VNone)
    (fun _ => ret VNone).

(** [response.raise_for_status()]: a 4xx or 5xx status raises. *)
Definition raise_for_status (r : response) : result unit :=
  if (400 <=? status_code r) && (status_code r <? 600)
  then Raise TransportError else Ok tt.

Definition enrollments_request (s : api) (token : value) (username : string)
  : request :=
  {| meth := GET;
     url := [Lit (base_url s); Lit "/api/enrollment/v1/enrollment"];
     headers := [("Authorization", [Lit "jwt "; Fmt token])];
     params := [("user", VStr username)];
     body := NoBody |}.

(** [OpenEdxAPI.get_user_enrollments].  The call is [requests.get], not
    the session's; it reaches the same LMS and is recorded with the
    others. *)
Definition get_user_enrollments (username : string) : M value :=
  try_except
    (s <- get_self ;;
     token <- _get_access_token ;;
     response <- http (enrollments_request s token username) ;;
     lift (raise_for_status response) ;;;
     lift (json_of response))
    (fun _ => ret (VList [])).

(** The dict [get_course_mode] returns. *)
Definition mode_info (name p : value) (cur : string) : list (string * value) :=
  [("name", name); ("price", p); ("currency", VStr cur)].

(** The first loop of [get_course_mode]: the first mode whose
    [mode_slug] is professional or verified. *)
Fixpoint scan_slug (modes : list value)
  : result (option (list (string * value))) :=
  match modes with
  | [] => Ok None
  | mode :: rest =>
      slug <~ get mode "mode_slug" VNone ;;
      if named slug then
        name <~ get mode "mode_slug" VNone ;;
        price <~ price_of float_of_str mode ;;
        cur <~ currency_of mode ;;
        Ok (Some (mode_info name (VFloat price) cur))
      else scan_slug rest
  end.

(** Its second loop: the first mode with a price above zero, under its
    [name]. *)
Fixpoint scan_paid (modes : list value)
  : result (option (list (string * value))) :=
  match modes with
  | [] => Ok None
  | mode :: rest =>
      price <~ price_of float_of_str mode ;;
      if (0 <? price)%float then
        name <~ get mode "name" VNone ;;
        cur <~ currency_of mode ;;
        Ok (Some (mode_info name (VFloat price) cur))
      else scan_paid rest
  end.

(** What [get_course_mode] makes of a 200 response. *)
Definition mode_of_response (r : response) : result value :=
  modes_data <~ json_of r ;;
  ms <~ iter modes_data ;;
  hit <~ scan_slug ms ;;
  match hit with
  | Some m => Ok (VDict m)
  | None =>
      ms' <~ iter modes_data ;;
      hit' <~ scan_paid ms' ;;
      match hit' with
      | Some m => Ok (VDict m)
      | None => Ok (VDict (mode_info (VStr "audit") (VInt 0) "USD"))
      end
  end.

(** The course id [get_course_mode] asks about. *)
Definition course_key (course_id : string) : string :=
  if negb (String.prefix "course-v1:" course_id)
  then ("course-v1:" ++ course_id)%string else course_id.

Definition course_modes_url (s : api) (key : string) : fstring :=
  [Lit (base_url s); Lit "/api/course_modes/v1/courses/"; Fmt (VStr key);
   Lit "/"].

(** [OpenEdxAPI.get_course_mode]. *)
Definition get_course_mode (course_id : string) : M value :=
  try_except
    (let key := course_key course_id in
     s <- get_self ;;
     hd <- _get_auth_headers true ;;
     response <- http (get_request (course_modes_url s key) hd []) ;;
     if status_code response =? 200 then lift (mode_of_response response)
     else ret VNone)
    (fun _ => ret VNone).

(** [x.update(other)]: only a dict has the method. *)
Definition update (x : value) (other : list (string * value)) : result value :=
  match x with
  | VDict d => Ok (VDict (dict_update d other))
  | _ => Raise AttributeError
  end.

(** The keys [get_course_details] makes sure of, each with the value the
    course has for it or with its default. *)
Definition defaults : list (string * value) :=
  [("name", VStr "Course");
   ("short_description", VStr "No description available.");
   ("overview", VStr "No overview available.");
   ("prerequisites", VStr "No prerequisites.");
   ("org", VStr "Organization");
   ("number", VStr "Course Number");
   ("start_display", VStr "Not specified");
   ("pacing", VStr "Self-paced");
   ("effort", VStr "Not specified");
   ("media", VDict []);
   ("price", VInt 0);
   ("currency", VStr "USD");
   ("mobile_available", VBool true)].

(** [k: course.get(k, default)] for each of them, in order. *)
Fixpoint filled (course : value) (ds : list (string * value))
  : result (list (string * value)) :=
  match ds with
  | [] => Ok []
  | (k, dflt) :: rest =>
      v <~ get course k dflt ;;
      vs <~ filled course rest ;;
      Ok ((k, v) :: vs)
  end.

(** The second [course.update] of [get_course_details]: the id asked
    for, the keys above and the name of the mode. *)
Definition with_required (course_id : string) (course course_mode : value)
  : result value :=
  fields <~ filled course defaults ;;
  mode_name <~ get course_mode "name" (VStr "Not specified") ;;
  update course
    ([("id", VStr course_id)] ++ fields ++ [("mode", mode_name)]).

(** What [get_course_details] does with a 200 from either endpoint. *)
Definition details_of (course_id : string) (response : response) : M value :=
  course <- lift (json_of response) ;;
  price_info <- get_course_price course_id ;;
  priced <- lift (match price_info with
                  | VDict p => update course p
                  | _ => Raise TypeError
                  end) ;;
  course_mode <- get_course_mode course_id ;;
  lift (with_required course_id priced course_mode).

Definition details_url (s : api) (course_id : string) : fstring :=
  [Lit (base_url s); Lit "/api/courses/v1/courses/"; Fmt (VStr course_id)].

Definition legacy_url (s : api) (course_id : string) : fstring :=
  [Lit (base_url s); Lit "/api/mobile/v0.5/course_info/";
   Fmt (VStr course_id)].

(** [OpenEdxAPI.get_course_details]. *)
Definition get_course_details (course_id : string) : M value :=
  try_except
    (s <- get_self ;;
     hd <- _get_auth_headers true ;;
     response <- http (get_request (details_url s course_id) hd []) ;;
     if status_code response =? 200 then details_of course_id response
     else
       response' <- http (get_request (legacy_url s course_id) hd []) ;;
       if status_code response' =? 200 then details_of course_id response'
       else ret VNone)
    (fun _ => ret VNone).

End Client.

(** [OpenEdxAPI()]: a fresh instance, nothing sent yet.  The arguments
    are the three configuration values [__init__] reads. *)
Definition init (openedx_url cid secret : string) : state :=
  {| self := {| base_url := rstrip_slash openedx_url;
                client_id := cid;
                client_secret := secret;
                access_token := VStr "";
                csrf_token := VNone |};
     sent := [];
     enrolled := [] |}.

End OpenEdxAPI.

(* ===================================================================== *)
(** ** Checkout and the payment webhook ([app/routes/payment.py]) *)
(* ===================================================================== *)

Module Payment.

Import Store Edx.

(** The configuration values the routes read ([app/config.py]); those
    taken from the environment without a default may be [None]. *)
Record config : Type := {
  OPENEDX_URL : string;
  OPENEDX_CLIENT_ID : string;
  OPENEDX_CLIENT_SECRET : string;
  STRIPE_SECRET_KEY : option string;
  STRIPE_WEBHOOK_SECRET : option string;
  STRIPE_CURRENCY : string
}.

(** What a view returns: [jsonify(body), status].  [Error e] is the
    body [{'error': str(e)}]. *)
Inductive reply_body : Type :=
| Body (v : value)
| Error (e : exn).

Record flask_response : Type := {
  status : Z;
  content : reply_body
}.

Definition json_reply (st : Z) (v : value) : flask_response :=
  {| status := st; content := Body v |}.

(** The arguments of one [stripe.PaymentIntent.create], with the API key
    set just before it. *)
Record intent_request : Type := {
  api_key : option string;
  amount : Z;
  intent_currency : string;
  metadata : list (string * value)
}.

Section Routes.
(** The payment processor's library: the verification of a webhook
    (payload, signature header, secret) and the creation of a payment
    intent, which returns its client secret. *)
Variable construct_event :
  string -> option string -> option string -> result value.
Variable payment_intent_create : intent_request -> result value.
(** The coercion of a key handed to [Model.query.get] to the integer
    primary key, [None] when no row can match. *)
Variable pk_of : value -> option Z.
Variable lms : remote.

(** [User.query.get(key)] and [Cart.query.get(key)]. *)
Definition user_get (d : db) (key : value) : option user :=
  match pk_of key with
  | Some k => find (fun u => user_id u =? k) (users d)
  | None => None
  end.

Definition cart_get (d : db) (key : value) : option cart :=
  match pk_of key with
  | Some k => find (fun c => cart_id c =? k) (carts d)
  | None => None
  end.

(** [current_user.shopping_cart]. *)
Definition shopping_cart (d : db) (u : user) : option cart :=
  find (fun c => cart_user_id c =? user_id u) (carts d).

(** [int(total * 100)], the amount [create_payment_intent] asks for. *)
Definition amount_of (total : number) : result Z :=
  Py.int (mul_int total 100).

(** [create_payment_intent]: the response and the intents asked of the
    processor. *)
Definition create_payment_intent (cfg : config) (d : db)
  (current_user : user) : flask_response * list intent_request :=
  match shopping_cart d current_user with
  | None => (json_reply 400 (VDict [("error", VStr "Cart is empty")]), [])
  | Some cart =>
      match items d cart with
      | [] => (json_reply 400 (VDict [("error", VStr "Cart is empty")]), [])
      | _ :: _ =>
          let total := Py.sum (prices (items d cart)) in
          match amount_of total with
          | Raise e => ({| status := 500; content := Error e |}, [])
          | Ok cents =>
              let rq := {| api_key := STRIPE_SECRET_KEY cfg;
                           amount := cents;
                           intent_currency := STRIPE_CURRENCY cfg;
                           metadata := [("user_id", VInt (user_id current_user));
                                        ("cart_id", VInt (cart_id cart))] |} in
              match payment_intent_create rq with
              | Ok secret =>
                  (json_reply 200 (VDict [("clientSecret", secret)]), [rq])
              | Raise e => ({| status := 500; content := Error e |}, [rq])
              end
          end
      end
  end.

(** [event['type'] == 'payment_intent.succeeded']. *)
Definition is_succeeded (ty : value) : bool :=
  match ty with
  | VStr s => (s =? "payment_intent.succeeded")%string
  | _ => false
  end.

(** [cart_id] and [user_id] as the handler reads them from the metadata
    of the payment intent. *)
Definition settlement_keys (event : value) : result (value * value) :=
  (data <~ getitem event "data" ;;
   payment_intent <~ getitem data "object" ;;
   md <~ getitem payment_intent "metadata" ;;
   cart_key <~ getitem md "cart_id" ;;
   md' <~ getitem payment_intent "metadata" ;;
   user_key <~ getitem md' "user_id" ;;
   Ok (cart_key, user_key))%result.

(** The [for item in cart.items] loop.  [user.username] raises when no
    user was found; what [enroll] returns is only logged. *)
Fixpoint enroll_items (u : option user) (its : list cart_item) : M unit :=
  match its with
  | [] => ret tt
  | item :: rest =>
      (username <- lift (match u with
                         | Some usr => Ok (username usr)
                         | None => Raise AttributeError
                         end) ;;
       OpenEdxAPI.enroll lms username (course_id item) (mode item) ;;;
       enroll_items u rest)%edx
  end.

(** The handling of a verified event: the response, or the exception
    that reaches the outer handler, with the store and the client as
    they are left. *)
Definition handle_event (event : value) (d : db) (st : state)
  : result flask_response * db * state :=
  match getitem event "type" with
  | Raise e => (Raise e, d, st)
  | Ok ty =>
      if is_succeeded ty then
        match settlement_keys event with
        | Raise e => (Raise e, d, st)
        | Ok (cart_key, user_key) =>
            let u := user_get d user_key in
            match cart_get d cart_key with
            | None =>
                (Ok (json_reply 404 (VDict [("error", VStr "Cart not found")])),
                 d, st)
            | Some cart =>
                match enroll_items u (items d cart) st with
                | (Raise e, st') => (Raise e, d, st')
                | (Ok _, st') =>
                    (Ok (json_reply 200 (VDict [("status", VStr "success")])),
                     clear d cart, st')
                end
            end
        end
      else (Ok (json_reply 200 (VDict [("status", VStr "success")])), d, st)
  end.

(** [webhook]: the response, the store after the request and the client
    the request created, with all it sent. *)
Definition webhook (cfg : config) (payload : string)
  (sig_header : option string) (d : db) : flask_response * db * state :=
  let webhook_secret := STRIPE_WEBHOOK_SECRET cfg in
  let edx_api := OpenEdxAPI.init (OPENEDX_URL cfg) (OPENEDX_CLIENT_ID cfg)
                   (OPENEDX_CLIENT_SECRET cfg) in
  match construct_event payload sig_header webhook_secret with
  | Raise e =>
      if is_ValueError e then
        (json_reply 400 (VDict [("error", VStr "Invalid payload")]), d, edx_api)
      else if is_SignatureVerificationError e then
        (json_reply 400 (VDict [("error", VStr "Invalid signature")]), d, edx_api)
      else ({| status := 500; content := Error e |}, d, edx_api)
  | Ok event =>
      match handle_event event d edx_api with
      | (Ok r, d', st') => (r, d', st')
      | (Raise e, d', st') => ({| status := 500; content := Error e |}, d', st')
      end
  end.

End Routes.

(** The spec's [round(total * 100)]: the nearest integer, a tie going to
    the even one. *)
Definition round_half_even (f : float) : result Z :=
  match Prim2SF f with
  | S754_zero _ => Ok 0
  | S754_finite s m e =>
      let mag := match e with
                 | Z0 => Zpos m
                 | Zpos p => Z.shiftl (Zpos m) (Zpos p)
                 | Zneg p =>
                     let q := Z.shiftr (Zpos m) (Zpos p) in
                     let r := Zpos m - Z.shiftl q (Zpos p) in
                     let half := Z.shiftl 1 (Zpos p - 1) in
                     if (half <? r) || ((r =? half) && Z.odd q)
                     then q + 1 else q
                 end in
      Ok (if s then - mag else mag)
  | S754_infinity _ => Raise OverflowError
  | S754_nan => Raise ValueError
  end.

Definition rounded_amount_of (total : number) : result Z :=
  match mul_int total 100 with
  | NInt z => Ok z
  | NFloat f => round_half_even f
  end.

End Payment.

(* ===================================================================== *)
(** ** Properties of the cart *)
(* ===================================================================== *)

Module CartFacts.

Import Store.

Lemma has_item_false_filter d c cid :
  has_item d c cid = false ->
  filter (fun i => (course_id i =? cid)%string) (items d c) = [].
Proof.
  unfold has_item, items.
  induction (cart_items d) as [|i l IH]; simpl; [reflexivity|].
  unfold line_of at 1.
  destruct (item_cart_id i =? cart_id c) eqn:Hc; simpl.
  - destruct (course_id i =? cid)%string eqn:Hs; simpl.
    + discriminate.
    + exact IH.
  - exact IH.
Qed.

Lemma items_app d c l :
  items (with_cart_items d (cart_items d ++ l)) c
  = items d c ++ filter (fun i => item_cart_id i =? cart_id c) l.
Proof. unfold items; simpl. apply filter_app. Qed.

Lemma find_snoc_hit {A} (p : A -> bool) (l : list A) (x : A) :
  p x = true -> exists y, find p (l ++ [x]) = Some y.
Proof.
  intros Hx. induction l as [|a l IH]; simpl.
  - rewrite Hx. eauto.
  - destruct (p a); eauto.
Qed.

Lemma has_item_after_add d c cid crs md pr cur :
  has_item (snd (add_item d c cid crs md pr cur)) c cid = true.
Proof.
  unfold add_item.
  destruct (has_item d c cid) eqn:H; simpl; [exact H|].
  unfold has_item; simpl.
  match goal with
  | |- context [find ?p (?l ++ [?x])] =>
      destruct (find_snoc_hit p l x) as [y Hy]
  end.
  - unfold line_of; simpl. rewrite Z.eqb_refl, String.eqb_refl. reflexivity.
  - rewrite Hy. reflexivity.
Qed.

(** C7. On a cart that holds no line for a course, [add_item] for that
    course returns [True]; a second [add_item] for the same course,
    whatever its other arguments, returns [False] and leaves the store as
    it was: the cart holds exactly one line for the course, one line
    more than at the start, and its total is the one after the first
    call. *)
Theorem add_item_twice d c cid crs1 md1 pr1 cur1 crs2 md2 pr2 cur2 :
  has_item d c cid = false ->
  let first := add_item d c cid crs1 md1 pr1 cur1 in
  let second := add_item (snd first) c cid crs2 md2 pr2 cur2 in
  fst first = true /\
  fst second = false /\
  snd second = snd first /\
  lines_for (snd second) c cid = 1%nat /\
  List.length (items (snd second) c) = S (List.length (items d c)) /\
  total (snd second) c = total (snd first) c.
Proof.
  intros Hno first second.
  assert (Hsec : second = (false, snd first)).
  { unfold second. unfold add_item at 1.
    unfold first. rewrite has_item_after_add. reflexivity. }
  rewrite Hsec; simpl.
  assert (Hfst : first = (true, with_cart_items d (cart_items d ++
            [{| item_id := next_id (cart_items d); item_cart_id := cart_id c;
                course_id := cid; mode := md1; price := pr1;
                currency := cur1; course := crs1 |}]))).
  { unfold first, add_item. rewrite Hno. reflexivity. }
  rewrite Hfst; simpl.
  repeat split.
  - unfold lines_for. rewrite items_app, filter_app.
    rewrite (has_item_false_filter _ _ _ Hno). simpl.
    rewrite Z.eqb_refl. simpl. rewrite String.eqb_refl. reflexivity.
  - rewrite items_app, length_app. simpl. rewrite Z.eqb_refl. simpl. lia.
Qed.

(** A cart with one line for another course, to run the theorem on. *)
Definition sample_cart : cart := {| cart_id := 7; cart_user_id := 3 |}.

Definition sample_db : db :=
  {| users := [{| user_id := 3; username := "amal"; email := "amal@example.org" |}];
     carts := [sample_cart];
     cart_items := [{| item_id := 1; item_cart_id := 7;
                       course_id := "course-v1:ESL+B1+2024";
                       mode := "verified"; price := Some 49.5%float;
                       currency := "USD"; course := VNone |}] |}.

Lemma add_item_twice_witness :
  has_item sample_db sample_cart "course-v1:ESL+A1+2024" = false /\
  let first := add_item sample_db sample_cart "course-v1:ESL+A1+2024"
                 VNone "verified" (Some 19.99%float) "USD" in
  let second := add_item (snd first) sample_cart "course-v1:ESL+A1+2024"
                  VNone "audit" None "EUR" in
  fst first = true /\
  fst second = false /\
  snd second = snd first /\
  lines_for (snd second) sample_cart "course-v1:ESL+A1+2024" = 1%nat /\
  List.length (items (snd second) sample_cart)
  = S (List.length (items sample_db sample_cart)) /\
  total (snd second) sample_cart = total (snd first) sample_cart.
Proof.
  split.
  - reflexivity.
  - apply (add_item_twice sample_db sample_cart "course-v1:ESL+A1+2024").
    reflexivity.
Defined.

End CartFacts.

(* ===================================================================== *)
(** ** Properties of the credential cache *)
(* ===================================================================== *)

Module CredentialFacts.

Import Edx OpenEdxAPI.

(** The requests of a list that go to the token endpoint. *)
Definition is_token_request (rq : request) : bool :=
  match meth rq, url rq with
  | POST, [Lit _; Lit p] => (p =? "/oauth2/access_token/")%string
  | _, _ => false
  end.

Definition token_fetches (l : list request) : nat :=
  List.length (filter is_token_request l).

(** The requests of a list that fetch the site root for a CSRF token. *)
Definition is_csrf_request (rq : request) : bool :=
  match meth rq, url rq with
  | GET, [Lit _] => true
  | _, _ => false
  end.

Definition csrf_fetches (l : list request) : nat :=
  List.length (filter is_csrf_request l).

Section Cache.
Variable lms : remote.

Lemma access_token_cached st :
  truthy (access_token (self st)) = true ->
  _get_access_token lms st = (Ok (access_token (self st)), st).
Proof.
  intros H. unfold _get_access_token, bind, get_self.
  rewrite H. reflexivity.
Qed.

Lemma csrf_token_cached st :
  truthy (csrf_token (self st)) = true ->
  _get_csrf_token lms st = (Ok (csrf_token (self st)), st).
Proof.
  intros H. unfold _get_csrf_token, bind, get_self.
  rewrite H. reflexivity.
Qed.

(** [_get_csrf_token] never raises and returns the attribute it leaves. *)
Lemma csrf_token_returns st r st1 :
  _get_csrf_token lms st = (r, st1) ->
  r = Ok (csrf_token (self st1)) /\
  base_url (self st1) = base_url (self st) /\
  access_token (self st1) = access_token (self st) /\
  enrolled st1 = enrolled st /\
  (sent st1 = sent st \/ sent st1 = sent st ++ [csrf_request (self st)]).
Proof.
  unfold _get_csrf_token, bind, get_self.
  destruct (truthy (csrf_token (self st))) eqn:Hc; simpl.
  - intros H; injection H as <- <-. auto 6.
  - unfold try_except, bind, http, set_csrf_token, get_self, ret.
    destruct (lms (sent st) (csrf_request (self st))) as [rp|e]; simpl.
    + destruct (truthy (cookie_get rp "csrftoken")); simpl;
        intros H; injection H as <- <-; simpl; auto 6.
    + intros H; injection H as <- <-; simpl; auto 6.
Qed.

(** A call that starts without a token issues exactly one fetch. *)
Lemma csrf_token_fetches_when_empty st :
  truthy (csrf_token (self st)) = false ->
  exists tok st1, _get_csrf_token lms st = (Ok tok, st1) /\
                  sent st1 = sent st ++ [csrf_request (self st)].
Proof.
  intros Hc.
  unfold _get_csrf_token, bind, get_self. rewrite Hc; simpl.
  unfold try_except, bind, http, set_csrf_token, get_self, ret.
  destruct (lms (sent st) (csrf_request (self st))) as [r|e]; simpl.
  - destruct (truthy (cookie_get r "csrftoken")); simpl;
      do 2 eexists; split; reflexivity.
  - do 2 eexists; split; reflexivity.
Qed.

(** C8, as the code has it.  After a call of [_get_csrf_token] that
    returned a token, the next call returns that token, issues no request
    and leaves the instance as it is; after a call that returned none
    (or an empty one), the next call fetches the site root again. *)
Theorem csrf_token_caching st tok st1 :
  _get_csrf_token lms st = (Ok tok, st1) ->
  if truthy tok
  then _get_csrf_token lms st1 = (Ok tok, st1)
  else exists tok2 st2,
         _get_csrf_token lms st1 = (Ok tok2, st2) /\
         sent st2 = sent st1 ++ [csrf_request (self st1)].
Proof.
  intros H.
  destruct (csrf_token_returns _ _ _ H) as (Hr & _).
  injection Hr as ->.
  destruct (truthy (csrf_token (self st1))) eqn:Ht.
  - apply csrf_token_cached, Ht.
  - apply csrf_token_fetches_when_empty, Ht.
Qed.

End Cache.

(** A site root that sets no CSRF cookie and sends no CSRF header. *)
Definition bare_response : response :=
  {| status_code := 200; text := "<html></html>"; json := None;
     cookies := []; resp_headers := [("Content-Type", "text/html")] |}.

Definition tokenless_lms : remote := fun _ _ => Answer bare_response.

(** A site root that sets the cookie. *)
Definition cookie_lms : remote :=
  fun _ _ => Answer {| status_code := 200; text := ""; json := None;
                       cookies := [("csrftoken", "k3y")];
                       resp_headers := [] |}.

Definition fresh : state :=
  init "https://lms.example.org/" "id" "secret".

Lemma csrf_token_caching_witness :
  _get_csrf_token cookie_lms fresh
  = (Ok (VStr "k3y"), snd (_get_csrf_token cookie_lms fresh)) /\
  _get_csrf_token cookie_lms (snd (_get_csrf_token cookie_lms fresh))
  = (Ok (VStr "k3y"), snd (_get_csrf_token cookie_lms fresh)).
Proof.
  split.
  - reflexivity.
  - apply (csrf_token_caching cookie_lms fresh (VStr "k3y")
             (snd (_get_csrf_token cookie_lms fresh))).
    reflexivity.
Defined.

(** C8 as the spec states it fails: when the site root yields no token,
    two calls on one instance fetch it twice. *)
Lemma csrf_none_is_not_cached :
  let first := _get_csrf_token tokenless_lms fresh in
  let second := _get_csrf_token tokenless_lms (snd first) in
  fst first = Ok VNone /\
  fst second = Ok VNone /\
  csrf_fetches (sent (snd first)) = 1%nat /\
  csrf_fetches (sent (snd second)) = 2%nat /\
  ~ (csrf_fetches (sent (snd second)) <= 1)%nat.
Proof.
  cbv zeta. repeat split; try reflexivity.
  vm_compute. lia.
Qed.

End CredentialFacts.

(* ===================================================================== *)
(** ** Properties of [enroll] *)
(* ===================================================================== *)

Module EnrollFacts.

Import Edx OpenEdxAPI CredentialFacts.

Section Enroll.
Variable lms : remote.


(** What [enroll] returns, seen from the response to its request. *)
Definition verdict (rp : reply) : bool * detail :=
  match rp with
  | Answer r =>
      match enroll_outcome r with
      | Ok out => out
      | Raise e => (false, Text e)
      end
  | Failure e => (false, Text e)
  end.


(** [enroll] with a bearer token in the cache: the token is used as it
    is, the CSRF token is looked up, one request is posted, and the
    response to it decides. *)
Lemma enroll_with_token st email cid md :
  truthy (access_token (self st)) = true ->
  exists st1 rq,
    rq = enroll_request (self st1) (access_token (self st))
           (csrf_token (self st1)) email cid md /\
    access_token (self st1) = access_token (self st) /\
    (sent st1 = sent st \/ sent st1 = sent st ++ [csrf_request (self st)]) /\
    enroll lms email cid md st
    = (Ok (verdict (lms (sent st1) rq)),
       {| self := self st1; sent := sent st1 ++ [rq];
          enrolled := enrolled st ++ [(email, cid, md)] |}).
Proof.
  intros Htok.
  unfold enroll, bind, note_enroll, try_except, enroll_body, bind.
  rewrite access_token_cached by exact Htok. simpl. rewrite Htok. simpl.
  match goal with
  | |- context [_get_csrf_token lms ?s] =>
      destruct (_get_csrf_token lms s) as [r st1] eqn:E
  end.
  destruct (csrf_token_returns _ _ _ _ E) as (-> & _ & Hat & Hen & Hsent).
  simpl in Hat, Hen, Hsent.
  exists st1. eexists. split; [reflexivity|].
  split; [exact Hat|]. split; [exact Hsent|].
  unfold get_self, http, lift, ret. rewrite Hen.
  match goal with
  | |- context [lms ?h ?q] => destruct (lms h q) as [rp|e]
  end; simpl.
  - destruct (enroll_outcome rp); reflexivity.
  - reflexivity.
Qed.





End Enroll.

(** An LMS that issues a token and a CSRF cookie and then answers every
    other request with a 401. *)
Definition unauthorized : response :=
  {| status_code := 401;
     text := "Token expired";
     json := Some (VDict [("detail", VStr "Token expired")]);
     cookies := []; resp_headers := [] |}.

Definition expiring_lms : remote :=
  fun _ rq =>
    if is_token_request rq then
      Answer {| status_code := 200; text := "";
                json := Some (VDict [("access_token", VStr "tok-1")]);
                cookies := []; resp_headers := [] |}
    else if is_csrf_request rq then
      Answer {| status_code := 200; text := ""; json := None;
                cookies := [("csrftoken", "k3y")]; resp_headers := [] |}
    else Answer unauthorized.

(** The instance of [CredentialFacts.fresh] once it has its token. *)
Definition signed_in : state := snd (_get_access_token expiring_lms fresh).


(** An LMS that issues a token, sets no CSRF cookie on its site root and
    answers every other request with a 401. *)
Definition cookieless_lms : remote :=
  fun _ rq =>
    if is_token_request rq then
      Answer {| status_code := 200; text := "";
                json := Some (VDict [("access_token", VStr "tok-1")]);
                cookies := []; resp_headers := [] |}
    else if is_csrf_request rq then Answer bare_response
    else Answer unauthorized.

(** Without a CSRF token to cache, each [enroll] fetches the site root
    before its request: the lazy lookup of [_get_csrf_token], made
    before the 401 is seen.  The bearer token is fetched once. *)
Lemma enroll_without_csrf_token :
  let rq := enroll_request (self fresh) (VStr "tok-1") VNone
              "amal" "course-v1:ESL+A1+2024" "verified" in
  let run := enroll cookieless_lms "amal" "course-v1:ESL+A1+2024" "verified"
               fresh in
  let again := enroll cookieless_lms "amal" "course-v1:ESL+A1+2024" "verified"
                 (snd run) in
  sent (snd run) = [token_request (self fresh); csrf_request (self fresh); rq] /\
  sent (snd again) = sent (snd run) ++ [csrf_request (self fresh); rq] /\
  access_token (self (snd again)) = VStr "tok-1" /\
  csrf_token (self (snd again)) = VNone /\
  token_fetches (sent (snd again)) = 1%nat /\
  csrf_fetches (sent (snd again)) = 2%nat.
Proof.
  cbv zeta. repeat split; vm_compute; reflexivity.
Qed.


End EnrollFacts.

(* ===================================================================== *)
(** ** Properties of the pricing resolver *)
(* ===================================================================== *)

Module PricingFacts.

Import Edx OpenEdxAPI.
Local Open Scope result_scope.

Section Scans.
Variable float_of_str : string -> option float.

(** A mode the first loop passes over: an object whose name is neither
    professional nor verified. *)
Definition skipped (m : value) : bool :=
  match get m "name" VNone with
  | Ok n => negb (named n)
  | Raise _ => false
  end.

(** A mode the first loop stops at. *)
Definition chosen (m : value) : bool :=
  match get m "name" VNone with
  | Ok n => named n
  | Raise _ => false
  end.

(** A mode neither loop stops at: it is passed over by the first, and
    its price converts to a number that is not above zero. *)
Definition priceless (m : value) : bool :=
  skipped m &&
  match price_of float_of_str m with
  | Ok p => negb (0 <? p)%float
  | Raise _ => false
  end.

Lemma scan_named_skip src pre rest :
  forallb skipped pre = true ->
  scan_named float_of_str src (pre ++ rest) = scan_named float_of_str src rest.
Proof.
  induction pre as [|m pre IH]; simpl; intros H; [reflexivity|].
  apply andb_prop in H as [Hm Hpre].
  unfold skipped in Hm.
  destruct (get m "name" VNone) as [n|e]; [|discriminate]. simpl.
  destruct (named n); [discriminate|]. apply IH, Hpre.
Qed.

Lemma scan_named_stop src m rest p c :
  chosen m = true ->
  price_of float_of_str m = Ok p ->
  currency_of m = Ok c ->
  scan_named float_of_str src (m :: rest)
  = Ok (Some (price_info (VFloat p) c src)).
Proof.
  unfold chosen. simpl. intros Hn Hp Hc.
  destruct (get m "name" VNone) as [n|e]; [|discriminate]. simpl.
  rewrite Hn, Hp. simpl. rewrite Hc. reflexivity.
Qed.

Lemma scan_named_priceless src ms :
  forallb priceless ms = true ->
  scan_named float_of_str src ms = Ok None.
Proof.
  induction ms as [|m ms IH]; simpl; intros H; [reflexivity|].
  apply andb_prop in H as [Hm Hms].
  apply andb_prop in Hm as [Hs _]. unfold skipped in Hs.
  destruct (get m "name" VNone) as [n|e]; [|discriminate]. simpl.
  destruct (named n); [discriminate|]. apply IH, Hms.
Qed.

Lemma scan_positive_priceless src ms :
  forallb priceless ms = true ->
  scan_positive float_of_str src ms = Ok None.
Proof.
  induction ms as [|m ms IH]; simpl; intros H; [reflexivity|].
  apply andb_prop in H as [Hm Hms].
  apply andb_prop in Hm as [_ Hp].
  destruct (price_of float_of_str m) as [p|e]; [|discriminate]. simpl.
  destruct (0 <? p)%float; [discriminate|]. apply IH, Hms.
Qed.

(** The second loop only ever returns a price above zero. *)
Lemma scan_positive_sound src ms info :
  scan_positive float_of_str src ms = Ok (Some info) ->
  exists p c, info = price_info (VFloat p) c src /\ (0 <? p)%float = true.
Proof.
  induction ms as [|m ms IH]; simpl; intros H; [discriminate|].
  destruct (price_of float_of_str m) as [p|e]; [|discriminate]. simpl in H.
  destruct (0 <? p)%float eqn:Hp.
  - destruct (currency_of m) as [c|e]; [|discriminate]. simpl in H.
    injection H as <-. eauto.
  - apply IH, H.
Qed.

(** The first named mode decides both loops, whatever its price. *)
Lemma two_pass_named src pre m post p c :
  forallb skipped pre = true ->
  chosen m = true ->
  price_of float_of_str m = Ok p ->
  currency_of m = Ok c ->
  two_pass float_of_str src (VList (pre ++ m :: post))
  = Ok (Some (price_info (VFloat p) c src)).
Proof.
  intros Hpre Hm Hp Hc. unfold two_pass. simpl.
  rewrite (scan_named_skip _ _ _ Hpre).
  rewrite (scan_named_stop _ _ _ _ _ Hm Hp Hc). reflexivity.
Qed.

Lemma two_pass_priceless src ms :
  forallb priceless ms = true ->
  two_pass float_of_str src (VList ms) = Ok None.
Proof.
  intros H. unfold two_pass. simpl.
  rewrite (scan_named_priceless _ _ H). simpl.
  apply scan_positive_priceless, H.
Qed.

(** A commerce response from which no price can come: not a 200, or a
    200 whose modes are all priceless. *)
Definition commerce_has_no_offer (r : response) : bool :=
  if status_code r =? 200 then
    match json r with
    | Some (VDict d) =>
        match assoc "modes" d with
        | Some (VList ms) => forallb priceless ms
        | Some _ => false
        | None => true
        end
    | _ => false
    end
  else true.

(** The same for a course-modes response, whose body is the list. *)
Definition modes_has_no_offer (r : response) : bool :=
  if status_code r =? 200 then
    match json r with
    | Some (VList ms) => forallb priceless ms
    | _ => false
    end
  else true.

Lemma commerce_no_offer_quote r :
  commerce_has_no_offer r = true ->
  commerce_quote float_of_str r = Ok None.
Proof.
  unfold commerce_has_no_offer, commerce_quote, json_of.
  destruct (status_code r =? 200); [|reflexivity].
  destruct (json r) as [[| | | | | |d]|]; try discriminate. simpl.
  destruct (assoc "modes" d) as [[| | | | |ms|]|]; try discriminate.
  - apply two_pass_priceless.
  - reflexivity.
Qed.

Lemma modes_no_offer_quote r :
  modes_has_no_offer r = true ->
  modes_quote float_of_str r = Ok None.
Proof.
  unfold modes_has_no_offer, modes_quote, json_of.
  destruct (status_code r =? 200); [|reflexivity].
  destruct (json r) as [[| | | | |ms|]|]; try discriminate. simpl.
  apply two_pass_priceless.
Qed.

End Scans.

Section Resolver.
Variable lms : remote.
Variable float_of_str : string -> option float.

Lemma price_from_commerce course_id st r st1 p :
  fetch_commerce lms course_id st = (Ok r, st1) ->
  commerce_quote float_of_str r = Ok (Some p) ->
  get_course_price lms float_of_str course_id st = (Ok (VDict p), st1).
Proof.
  intros Hf Hq.
  unfold get_course_price, try_except, get_course_price_body, bind, lift.
  rewrite Hf, Hq. reflexivity.
Qed.

(** The first mode of the commerce response that is named professional
    or verified decides the price, whatever the price is, and the
    course-modes endpoint is not asked. *)
Lemma named_mode_decides course_id st r st1 d pre m post p c :
  fetch_commerce lms course_id st = (Ok r, st1) ->
  status_code r = 200 ->
  json r = Some (VDict d) ->
  assoc "modes" d = Some (VList (pre ++ m :: post)) ->
  forallb skipped pre = true ->
  chosen m = true ->
  price_of float_of_str m = Ok p ->
  currency_of m = Ok c ->
  get_course_price lms float_of_str course_id st
  = (Ok (VDict (price_info (VFloat p) c "commerce_api")), st1).
Proof.
  intros Hf Hs Hj Hm Hpre Hch Hp Hc.
  apply (price_from_commerce _ _ _ _ _ Hf).
  unfold commerce_quote, json_of. rewrite Hs, Hj. simpl. rewrite Hm.
  apply two_pass_named; assumption.
Qed.

(** C5, as the code has it.  When the first mode of the commerce
    response that is named professional or verified has a price above
    zero, [get_course_price] returns exactly that price, the mode's
    currency in upper case (USD when it has none) and the source
    commerce_api, whatever modes with other names come before it and
    whatever modes come after it. *)
Theorem first_named_mode_price course_id st r st1 d pre md post p cur :
  fetch_commerce lms course_id st = (Ok r, st1) ->
  status_code r = 200 ->
  json r = Some (VDict d) ->
  assoc "modes" d = Some (VList (pre ++ VDict md :: post)) ->
  forallb skipped pre = true ->
  chosen (VDict md) = true ->
  price_of float_of_str (VDict md) = Ok p ->
  (0 <? p)%float = true ->
  match assoc "currency" md with
  | Some v => v = VStr cur
  | None => cur = "USD"
  end ->
  get_course_price lms float_of_str course_id st
  = (Ok (VDict [("price", VFloat p); ("currency", VStr (upper cur));
                ("source", VStr "commerce_api")]), st1).
Proof.
  intros Hf Hs Hj Hm Hpre Hch Hp _ Hcur.
  apply (named_mode_decides _ _ _ _ _ _ _ _ _ _ Hf Hs Hj Hm Hpre Hch Hp).
  unfold currency_of. simpl.
  destruct (assoc "currency" md) as [v|]; subst; reflexivity.
Qed.

(** C10.  When the first mode of the commerce response that is named
    professional or verified has no price, or the price 0,
    [get_course_price] returns the price 0.0 with that mode's currency
    and the source commerce_api, and stops there (nothing more is sent),
    whatever the prices of the modes after it; the second loop, which
    runs when no mode has such a name, only ever returns a price above
    zero. *)
Theorem named_mode_without_price course_id st r st1 d pre md post c :
  fetch_commerce lms course_id st = (Ok r, st1) ->
  status_code r = 200 ->
  json r = Some (VDict d) ->
  assoc "modes" d = Some (VList (pre ++ VDict md :: post)) ->
  forallb skipped pre = true ->
  chosen (VDict md) = true ->
  (assoc "price" md = None \/ assoc "price" md = Some (VInt 0) \/
   assoc "price" md = Some (VFloat 0)) ->
  currency_of (VDict md) = Ok c ->
  get_course_price lms float_of_str course_id st
  = (Ok (VDict [("price", VFloat 0); ("currency", VStr c);
                ("source", VStr "commerce_api")]), st1) /\
  forall src ms info,
    scan_positive float_of_str src ms = Ok (Some info) ->
    exists p cur, info = price_info (VFloat p) cur src /\ (0 <? p)%float = true.
Proof.
  intros Hf Hs Hj Hm Hpre Hch Hprice Hc. split.
  - apply (named_mode_decides _ _ _ _ _ _ _ _ _ _ Hf Hs Hj Hm Hpre Hch);
      [|exact Hc].
    unfold price_of. simpl.
    destruct Hprice as [-> | [-> | ->]]; reflexivity.
  - intros src ms info. apply scan_positive_sound.
Qed.

Lemma try_except_total {A} (m : M A) (v : A) st :
  exists a st', try_except m (fun _ => ret v) st = (Ok a, st').
Proof.
  unfold try_except, ret. destruct (m st) as [[a|e] st']; eauto.
Qed.

(** C2, as the code has it.  [get_course_price] never raises.  It
    returns the default (0, USD, default) when neither response can
    yield a price: each is not a 200, or holds only modes that are not
    named professional or verified and whose price is not above zero.
    It returns the error value (0, USD, error) when the commerce call
    raises, when the course-modes call raises, and when a 200 response
    of either does not parse. *)
Theorem get_course_price_fallbacks course_id st :
  (exists v st',
      get_course_price lms float_of_str course_id st = (Ok v, st')) /\
  (forall r1 st1 r2 st2,
      fetch_commerce lms course_id st = (Ok r1, st1) ->
      commerce_has_no_offer float_of_str r1 = true ->
      fetch_modes lms course_id st1 = (Ok r2, st2) ->
      modes_has_no_offer float_of_str r2 = true ->
      get_course_price lms float_of_str course_id st
      = (Ok (VDict [("price", VInt 0); ("currency", VStr "USD");
                    ("source", VStr "default")]), st2)) /\
  (forall e st1,
      fetch_commerce lms course_id st = (Raise e, st1) ->
      get_course_price lms float_of_str course_id st
      = (Ok (VDict [("price", VInt 0); ("currency", VStr "USD");
                    ("source", VStr "error")]), st1)) /\
  (forall r1 st1,
      fetch_commerce lms course_id st = (Ok r1, st1) ->
      status_code r1 = 200 -> json r1 = None ->
      get_course_price lms float_of_str course_id st
      = (Ok (VDict error_info), st1)) /\
  (forall r1 st1 e st2,
      fetch_commerce lms course_id st = (Ok r1, st1) ->
      commerce_has_no_offer float_of_str r1 = true ->
      fetch_modes lms course_id st1 = (Raise e, st2) ->
      get_course_price lms float_of_str course_id st
      = (Ok (VDict error_info), st2)) /\
  (forall r1 st1 r2 st2,
      fetch_commerce lms course_id st = (Ok r1, st1) ->
      commerce_has_no_offer float_of_str r1 = true ->
      fetch_modes lms course_id st1 = (Ok r2, st2) ->
      status_code r2 = 200 -> json r2 = None ->
      get_course_price lms float_of_str course_id st
      = (Ok (VDict error_info), st2)).
Proof.
  split; [apply try_except_total|].
  unfold get_course_price, try_except, get_course_price_body, bind, lift.
  repeat split.
  - intros r1 st1 r2 st2 H1 Hq1 H2 Hq2.
    rewrite H1, (commerce_no_offer_quote _ _ Hq1), H2,
      (modes_no_offer_quote _ _ Hq2). reflexivity.
  - intros e st1 H1. rewrite H1. reflexivity.
  - intros r1 st1 H1 Hs Hj. rewrite H1.
    unfold commerce_quote, json_of. rewrite Hs, Hj. reflexivity.
  - intros r1 st1 e st2 H1 Hq1 H2.
    rewrite H1, (commerce_no_offer_quote _ _ Hq1), H2. reflexivity.
  - intros r1 st1 r2 st2 H1 Hq1 H2 Hs Hj.
    rewrite H1, (commerce_no_offer_quote _ _ Hq1), H2.
    unfold modes_quote, json_of. rewrite Hs, Hj. reflexivity.
Qed.

End Resolver.

(** *** Runs on concrete responses *)

Definition json_response (code : Z) (v : value) : response :=
  {| status_code := code; text := "json"; json := Some v;
     cookies := []; resp_headers := [] |}.

Definition not_found : response :=
  {| status_code := 404; text := ""; json := None;
     cookies := []; resp_headers := [] |}.

(** An LMS that issues a token and a CSRF cookie, and answers the
    commerce and the course-modes endpoints as given. *)
Definition priced_lms (commerce modes : reply) : remote :=
  fun _ rq =>
    if CredentialFacts.is_token_request rq then
      Answer (json_response 200 (VDict [("access_token", VStr "tok-1")]))
    else if CredentialFacts.is_csrf_request rq then
      Answer {| status_code := 200; text := ""; json := None;
                cookies := [("csrftoken", "k3y")]; resp_headers := [] |}
    else
      match url rq with
      | [_; Lit path; _; _] =>
          if (path =? "/api/commerce/v1/courses/")%string then commerce
          else if (path =? "/api/enrollment/v1/course/")%string then modes
          else Answer not_found
      | _ => Answer not_found
      end.

Definition no_parse : string -> option float := fun _ => None.

Definition mode_entry (name : string) (p : value) (cur : string) : value :=
  VDict [("name", VStr name); ("price", p); ("currency", VStr cur)].

Definition audit_mode : value :=
  VDict [("name", VStr "audit"); ("price", VInt 0); ("currency", VStr "usd")].

Definition fresh : state := CredentialFacts.fresh.

(** Commerce lists audit, then verified at 49.5 eur, then honor. *)
Definition verified_lms : remote :=
  priced_lms
    (Answer (json_response 200
       (VDict [("modes", VList [audit_mode;
                                mode_entry "verified" (VFloat 49.5) "eur";
                                mode_entry "honor" (VInt 10) "usd"])])))
    (Answer not_found).

Lemma first_named_mode_price_witness :
  get_course_price verified_lms no_parse "course-v1:ESL+A1+2024" fresh
  = (Ok (VDict [("price", VFloat 49.5); ("currency", VStr "EUR");
                ("source", VStr "commerce_api")]),
     snd (fetch_commerce verified_lms "course-v1:ESL+A1+2024" fresh)).
Proof.
  apply (first_named_mode_price verified_lms no_parse
           "course-v1:ESL+A1+2024" fresh
           (json_response 200
              (VDict [("modes", VList [audit_mode;
                                       mode_entry "verified" (VFloat 49.5) "eur";
                                       mode_entry "honor" (VInt 10) "usd"])]))
           (snd (fetch_commerce verified_lms "course-v1:ESL+A1+2024" fresh))
           [("modes", VList [audit_mode;
                             mode_entry "verified" (VFloat 49.5) "eur";
                             mode_entry "honor" (VInt 10) "usd"])]
           [audit_mode]
           [("name", VStr "verified"); ("price", VFloat 49.5);
            ("currency", VStr "eur")]
           [mode_entry "honor" (VInt 10) "usd"]
           49.5%float "eur"); reflexivity.
Defined.

(** Commerce lists verified without a price worth the name, then
    professional at 100. *)
Definition zero_first_lms : remote :=
  priced_lms
    (Answer (json_response 200
       (VDict [("modes", VList [mode_entry "verified" (VInt 0) "eur";
                                mode_entry "professional" (VInt 100) "usd"])])))
    (Answer not_found).

Lemma named_mode_without_price_witness :
  get_course_price zero_first_lms no_parse "course-v1:ESL+A1+2024" fresh
  = (Ok (VDict [("price", VFloat 0); ("currency", VStr "EUR");
                ("source", VStr "commerce_api")]),
     snd (fetch_commerce zero_first_lms "course-v1:ESL+A1+2024" fresh)).
Proof.
  refine (proj1 (named_mode_without_price zero_first_lms no_parse
           "course-v1:ESL+A1+2024" fresh
           (json_response 200
              (VDict [("modes", VList [mode_entry "verified" (VInt 0) "eur";
                                       mode_entry "professional" (VInt 100) "usd"])]))
           (snd (fetch_commerce zero_first_lms "course-v1:ESL+A1+2024" fresh))
           [("modes", VList [mode_entry "verified" (VInt 0) "eur";
                             mode_entry "professional" (VInt 100) "usd"])]
           []
           [("name", VStr "verified"); ("price", VInt 0);
            ("currency", VStr "eur")]
           [mode_entry "professional" (VInt 100) "usd"]
           "EUR" _ _ _ _ _ _ _ _)); try reflexivity.
  right; left; reflexivity.
Defined.

Lemma float_neq_0_100 : 0%float <> 100%float.
Proof.
  intros H. apply (f_equal (fun f => (0 <? f)%float)) in H.
  vm_compute in H. discriminate H.
Qed.

(** C5 as the spec states it fails: the commerce response holds a mode
    named professional with the price 100, above zero, and
    [get_course_price] returns the price 0.0 and the currency of the
    verified mode listed before it. *)
Lemma later_named_mode_is_ignored :
  let modes := [mode_entry "verified" (VInt 0) "eur";
                mode_entry "professional" (VInt 100) "usd"] in
  let run := get_course_price zero_first_lms no_parse
               "course-v1:ESL+A1+2024" fresh in
  fetch_commerce zero_first_lms "course-v1:ESL+A1+2024" fresh
  = (Ok (json_response 200 (VDict [("modes", VList modes)])),
     snd (fetch_commerce zero_first_lms "course-v1:ESL+A1+2024" fresh)) /\
  chosen (mode_entry "professional" (VInt 100) "usd") = true /\
  price_of no_parse (mode_entry "professional" (VInt 100) "usd") = Ok 100%float /\
  (0 <? 100)%float = true /\
  fst run = Ok (VDict [("price", VFloat 0); ("currency", VStr "EUR");
                       ("source", VStr "commerce_api")]) /\
  fst run <> Ok (VDict [("price", VFloat 100); ("currency", VStr "USD");
                        ("source", VStr "commerce_api")]).
Proof.
  cbv zeta. repeat split; try reflexivity.
  intros H. vm_compute in H.
  apply (f_equal (fun r => match r with
                           | Ok (VDict ((_, VFloat f) :: _)) => f
                           | _ => 0%float
                           end)) in H.
  exact (float_neq_0_100 H).
Qed.

(** Commerce lists verified at 0 eur and nothing else; the course-modes
    endpoint is a 404. *)
Definition zero_only_lms : remote :=
  priced_lms
    (Answer (json_response 200
       (VDict [("modes", VList [mode_entry "verified" (VInt 0) "eur"])])))
    (Answer not_found).

(** C2 as the spec states it fails: neither source yields a price above
    zero (the second loop finds nothing in the commerce response, the
    course-modes response is a 404) and [get_course_price] returns
    (0.0, EUR, commerce_api), not the default. *)
Lemma free_named_mode_is_not_default :
  let run := get_course_price zero_only_lms no_parse
               "course-v1:ESL+A1+2024" fresh in
  (forall info,
      scan_positive no_parse "commerce_api"
        [mode_entry "verified" (VInt 0) "eur"] <> Ok (Some info)) /\
  modes_quote no_parse not_found = Ok None /\
  fst run = Ok (VDict [("price", VFloat 0); ("currency", VStr "EUR");
                       ("source", VStr "commerce_api")]) /\
  fst run <> Ok (VDict [("price", VInt 0); ("currency", VStr "USD");
                        ("source", VStr "default")]).
Proof.
  cbv zeta. repeat split; try reflexivity.
  - intros info H. vm_compute in H. discriminate H.
  - intros H. vm_compute in H. discriminate H.
Qed.

(** The two fallbacks of C2 on runs: unpriced endpoints give the
    default, a commerce call that raises gives the error value. *)
Lemma default_price_run :
  fst (get_course_price
         (priced_lms (Answer (json_response 200 (VDict [("modes", VList [audit_mode])])))
                     (Answer not_found))
         no_parse "course-v1:ESL+A1+2024" fresh)
  = Ok (VDict [("price", VInt 0); ("currency", VStr "USD");
               ("source", VStr "default")]).
Proof. reflexivity. Qed.

Lemma error_price_run :
  fst (get_course_price
         (priced_lms (Failure TransportError) (Answer not_found))
         no_parse "course-v1:ESL+A1+2024" fresh)
  = Ok (VDict [("price", VInt 0); ("currency", VStr "USD");
               ("source", VStr "error")]).
Proof. reflexivity. Qed.

End PricingFacts.

(* ===================================================================== *)
(** ** Properties of the webhook *)
(* ===================================================================== *)

Module WebhookFacts.

Import Store Edx OpenEdxAPI Payment.

(** A method that leaves the record of [enroll] invocations alone. *)
Definition quiet {A} (m : M A) : Prop :=
  forall st r st', m st = (r, st') -> enrolled st' = enrolled st.

Lemma quiet_ret {A} (a : A) : quiet (ret a).
Proof. intros st r st' H. injection H as _ <-. reflexivity. Qed.

Lemma quiet_lift {A} (x : result A) : quiet (lift x).
Proof. intros st r st' H. injection H as _ <-. reflexivity. Qed.

Lemma quiet_get_self : quiet get_self.
Proof. intros st r st' H. injection H as _ <-. reflexivity. Qed.

Lemma quiet_set_access_token v : quiet (set_access_token v).
Proof. intros st r st' H. injection H as _ <-. reflexivity. Qed.

Lemma quiet_set_csrf_token v : quiet (set_csrf_token v).
Proof. intros st r st' H. injection H as _ <-. reflexivity. Qed.

Lemma quiet_bind {A B} (m : M A) (k : A -> M B) :
  quiet m -> (forall a, quiet (k a)) -> quiet (bind m k).
Proof.
  intros Hm Hk st r st'. unfold bind.
  destruct (m st) as [[a|e] st1] eqn:E; intros H.
  - rewrite (Hk a _ _ _ H). apply (Hm _ _ _ E).
  - injection H as _ <-. apply (Hm _ _ _ E).
Qed.

Lemma quiet_try_except {A} (m : M A) (h : exn -> M A) :
  quiet m -> (forall e, quiet (h e)) -> quiet (try_except m h).
Proof.
  intros Hm Hh st r st'. unfold try_except.
  destruct (m st) as [[a|e] st1] eqn:E; intros H.
  - injection H as _ <-. apply (Hm _ _ _ E).
  - rewrite (Hh e _ _ _ H). apply (Hm _ _ _ E).
Qed.

Create HintDb quiet.

#[local] Hint Resolve quiet_ret quiet_lift quiet_get_self
  quiet_set_access_token quiet_set_csrf_token : quiet.

Ltac quiet_step :=
  first [ apply quiet_bind; [|intros ?]
        | apply quiet_try_except; [|intros ?]
        | match goal with
          | |- quiet (if ?b then _ else _) => destruct b
          end
        | solve [auto with quiet] ].

Section Settlement.
Variable construct_event :
  string -> option string -> option string -> result value.
Variable pk_of : value -> option Z.
Variable lms : remote.

Lemma quiet_http rq : quiet (http lms rq).
Proof.
  intros st r st'. unfold http.
  destruct (lms (sent st) rq); intros H; injection H as _ <-; reflexivity.
Qed.

Lemma quiet_get_access_token : quiet (_get_access_token lms).
Proof.
  unfold _get_access_token.
  repeat first [apply quiet_http | quiet_step].
Qed.

Lemma quiet_get_csrf_token : quiet (_get_csrf_token lms).
Proof.
  unfold _get_csrf_token.
  repeat first [apply quiet_http | quiet_step].
Qed.

Lemma quiet_enroll_body email cid md : quiet (enroll_body lms email cid md).
Proof.
  unfold enroll_body.
  repeat first [apply quiet_http | apply quiet_get_access_token
               | apply quiet_get_csrf_token | quiet_step].
Qed.

(** [enroll] never raises, and is recorded once. *)
Lemma enroll_returns email cid md st :
  exists out st',
    enroll lms email cid md st = (Ok out, st') /\
    enrolled st' = enrolled st ++ [(email, cid, md)].
Proof.
  unfold enroll, bind, note_enroll, try_except.
  match goal with
  | |- context [enroll_body lms email cid md ?s] =>
      destruct (enroll_body lms email cid md s) as [[out|e] st1] eqn:E;
      pose proof (quiet_enroll_body _ _ _ _ _ _ E) as Hq; simpl in Hq
  end.
  - exists out, st1. split; [reflexivity | exact Hq].
  - eexists _, st1. split; [reflexivity | exact Hq].
Qed.

(** The loop enrolls line by line, in order, and gets to the end
    whatever the calls return. *)
Lemma enroll_items_all u its st :
  exists st',
    enroll_items lms (Some u) its st = (Ok tt, st') /\
    enrolled st'
    = enrolled st ++ map (fun i => (username u, course_id i, mode i)) its.
Proof.
  revert st. induction its as [|item rest IH]; intros st; simpl.
  - exists st. split; [reflexivity|]. rewrite app_nil_r. reflexivity.
  - unfold bind, lift.
    destruct (enroll_returns (username u) (course_id item) (mode item) st)
      as (out & st1 & Hrun & Hen).
    rewrite Hrun. destruct (IH st1) as (st2 & Hrest & Hen2).
    exists st2. split; [exact Hrest|].
    rewrite Hen2, Hen, <- app_assoc. reflexivity.
Qed.

Lemma items_clear d c : items (clear d c) c = [].
Proof.
  unfold items, clear. simpl.
  induction (cart_items d) as [|i l IH]; simpl; [reflexivity|].
  destruct (item_cart_id i =? cart_id c) eqn:E; simpl.
  - exact IH.
  - rewrite E. exact IH.
Qed.

(** C1.  On a verified payment_intent.succeeded event whose metadata
    leads to a cart and a user, [webhook] answers 200, has invoked
    [enroll] once per line of the cart, in order, each time with the
    user's name and the line's course and mode, and leaves the cart
    without lines; this holds for every LMS, so whatever each [enroll]
    returned. *)
Theorem webhook_settles cfg payload sig_header d event cart_key user_key c u :
  construct_event payload sig_header (STRIPE_WEBHOOK_SECRET cfg) = Ok event ->
  getitem event "type" = Ok (VStr "payment_intent.succeeded") ->
  settlement_keys event = Ok (cart_key, user_key) ->
  cart_get pk_of d cart_key = Some c ->
  user_get pk_of d user_key = Some u ->
  exists st',
    webhook construct_event pk_of lms cfg payload sig_header d
    = (json_reply 200 (VDict [("status", VStr "success")]), clear d c, st') /\
    enrolled st'
    = map (fun i => (username u, course_id i, mode i)) (items d c) /\
    List.length (enrolled st') = List.length (items d c) /\
    items (clear d c) c = [].
Proof.
  intros Hev Hty Hkeys Hcart Huser.
  unfold webhook. rewrite Hev.
  unfold handle_event. rewrite Hty. simpl. rewrite Hkeys, Hcart, Huser.
  match goal with
  | |- context [enroll_items lms (Some u) ?its ?s] =>
      destruct (enroll_items_all u its s) as (st' & Hrun & Hen)
  end.
  rewrite Hrun. exists st'. simpl in Hen.
  split; [reflexivity|]. split; [exact Hen|].
  split; [rewrite Hen; apply length_map | apply items_clear].
Qed.

(** C3.  When the verification of the payload raises a [ValueError]
    (the payload does not parse) or a [SignatureVerificationError],
    [webhook] answers 400 with the matching error, the store is the one
    before the request, [enroll] was not invoked and nothing was sent to
    the LMS. *)
Theorem webhook_rejects_unverified cfg payload sig_header d e :
  construct_event payload sig_header (STRIPE_WEBHOOK_SECRET cfg) = Raise e ->
  is_ValueError e || is_SignatureVerificationError e = true ->
  exists st',
    webhook construct_event pk_of lms cfg payload sig_header d
    = (json_reply 400
         (VDict [("error", VStr (if is_ValueError e then "Invalid payload"
                                 else "Invalid signature"))]),
       d, st') /\
    enrolled st' = [] /\
    sent st' = [].
Proof.
  intros Hev Hkind. unfold webhook. rewrite Hev.
  destruct (is_ValueError e); simpl.
  - eexists. repeat split.
  - simpl in Hkind. rewrite Hkind. eexists. repeat split.
Qed.

End Settlement.

(** *** A settlement run *)

Definition sample_config : config :=
  {| OPENEDX_URL := "https://lms.example.org/";
     OPENEDX_CLIENT_ID := "id";
     OPENEDX_CLIENT_SECRET := "secret";
     STRIPE_SECRET_KEY := Some "sk_test";
     STRIPE_WEBHOOK_SECRET := Some "whsec_test";
     STRIPE_CURRENCY := "usd" |}.

(** The event of a succeeded payment for cart 7 of user 3; the
    processor hands metadata back as strings. *)
Definition sample_event : value :=
  VDict [("type", VStr "payment_intent.succeeded");
         ("data", VDict [("object",
            VDict [("metadata", VDict [("user_id", VStr "3");
                                       ("cart_id", VStr "7")])])])].

(** A verification that accepts the signature "good" on a payload that
    is not empty. *)
Definition sample_construct_event (payload : string)
  (sig_header secret : option string) : result value :=
  if (payload =? "")%string then Raise ValueError
  else match sig_header with
       | Some s => if (s =? "good")%string then Ok sample_event
                   else Raise SignatureVerificationError
       | None => Raise SignatureVerificationError
       end.

Definition sample_pk_of (key : value) : option Z :=
  match key with
  | VInt z => Some z
  | VStr s => if (s =? "3")%string then Some 3
              else if (s =? "7")%string then Some 7 else None
  | _ => None
  end.

Definition the_cart : cart := {| cart_id := 7; cart_user_id := 3 |}.

Definition the_user : user :=
  {| user_id := 3; username := "amal"; email := "amal@example.org" |}.

Definition line (n : Z) (owner : Z) (cid md : string) : cart_item :=
  {| item_id := n; item_cart_id := owner; course_id := cid; mode := md;
     price := Some 19.99%float; currency := "USD"; course := VNone |}.

(** Two lines in cart 7 and one in another cart. *)
Definition two_line_db : db :=
  {| users := [the_user];
     carts := [{| cart_id := 5; cart_user_id := 2 |}; the_cart];
     cart_items := [line 1 7 "course-v1:ESL+A1+2024" "verified";
                    line 2 5 "course-v1:ESL+C1+2024" "audit";
                    line 3 7 "course-v1:ESL+B1+2024" "audit"] |}.

Lemma webhook_settles_witness :
  exists st',
    webhook sample_construct_event sample_pk_of EnrollFacts.expiring_lms
      sample_config "payload" (Some "good") two_line_db
    = (json_reply 200 (VDict [("status", VStr "success")]),
       clear two_line_db the_cart, st') /\
    enrolled st'
    = map (fun i => (username the_user, course_id i, mode i))
        (items two_line_db the_cart) /\
    List.length (enrolled st') = List.length (items two_line_db the_cart) /\
    items (clear two_line_db the_cart) the_cart = [].
Proof.
  apply (webhook_settles sample_construct_event sample_pk_of
           EnrollFacts.expiring_lms sample_config "payload" (Some "good")
           two_line_db sample_event (VStr "7") (VStr "3") the_cart the_user);
    reflexivity.
Defined.

(** The same run, computed: both enrollments were answered with a 401,
    both were attempted, and only the lines of cart 7 are gone. *)
Lemma settlement_run :
  let run := webhook sample_construct_event sample_pk_of
               EnrollFacts.expiring_lms sample_config "payload" (Some "good")
               two_line_db in
  status (fst (fst run)) = 200 /\
  enrolled (snd run)
  = [("amal", "course-v1:ESL+A1+2024", "verified");
     ("amal", "course-v1:ESL+B1+2024", "audit")] /\
  cart_items (snd (fst run)) = [line 2 5 "course-v1:ESL+C1+2024" "audit"] /\
  List.length (sent (snd run)) = 4%nat.
Proof. cbv zeta. repeat split; vm_compute; reflexivity. Qed.

Lemma webhook_rejects_unverified_witness :
  exists st',
    webhook sample_construct_event sample_pk_of EnrollFacts.expiring_lms
      sample_config "payload" (Some "forged") two_line_db
    = (json_reply 400
         (VDict [("error",
                  VStr (if is_ValueError SignatureVerificationError
                        then "Invalid payload" else "Invalid signature"))]),
       two_line_db, st') /\
    enrolled st' = [] /\
    sent st' = [].
Proof.
  apply (webhook_rejects_unverified sample_construct_event sample_pk_of
           EnrollFacts.expiring_lms sample_config "payload" (Some "forged")
           two_line_db SignatureVerificationError); reflexivity.
Defined.

End WebhookFacts.

(* ===================================================================== *)
(** ** Properties of checkout *)
(* ===================================================================== *)

Module CheckoutFacts.

Import Store Payment.

Section Checkout.
Variable payment_intent_create : intent_request -> result value.

(** Without a cart, or with a cart without lines, checkout answers 400
    and asks the processor for nothing. *)
Lemma empty_cart_rejected cfg d u :
  match shopping_cart d u with
  | Some c => items d c = []
  | None => True
  end ->
  create_payment_intent payment_intent_create cfg d u
  = (json_reply 400 (VDict [("error", VStr "Cart is empty")]), []).
Proof.
  unfold create_payment_intent.
  destruct (shopping_cart d u) as [c|]; [|reflexivity].
  intros ->. reflexivity.
Qed.

(** With lines, the one intent asked for has the amount
    [int(total * 100)]: the integer part, not the nearest integer. *)
Lemma intent_amount cfg d u c cents :
  shopping_cart d u = Some c ->
  items d c <> [] ->
  amount_of (total d c) = Ok cents ->
  map amount (snd (create_payment_intent payment_intent_create cfg d u))
  = [cents].
Proof.
  intros Hc Hne Ha. unfold create_payment_intent. rewrite Hc.
  destruct (items d c) as [|i l] eqn:Hi; [congruence|].
  unfold total in Ha. rewrite Hi in Ha. rewrite Ha.
  destruct (payment_intent_create _); reflexivity.
Qed.

End Checkout.

Definition the_user : user :=
  {| user_id := 3; username := "amal"; email := "amal@example.org" |}.

Definition the_cart : cart := {| cart_id := 7; cart_user_id := 3 |}.

(** One line at 19.99. *)
Definition one_line_db : db :=
  {| users := [the_user];
     carts := [the_cart];
     cart_items := [{| item_id := 1; item_cart_id := 7;
                       course_id := "course-v1:ESL+A1+2024";
                       mode := "verified"; price := Some 19.99%float;
                       currency := "USD"; course := VNone |}] |}.

Definition accepting : intent_request -> result value :=
  fun _ => Ok (VStr "pi_1_secret_2").

Definition checkout_config : config :=
  {| OPENEDX_URL := "https://lms.example.org/";
     OPENEDX_CLIENT_ID := "id";
     OPENEDX_CLIENT_SECRET := "secret";
     STRIPE_SECRET_KEY := Some "sk_test";
     STRIPE_WEBHOOK_SECRET := Some "whsec_test";
     STRIPE_CURRENCY := "usd" |}.

(** C6, where the code departs from it.  For a cart with one line at
    19.99 the total is 19.99; checkout asks the processor for 1998 minor
    units, while [round(total * 100)] is 1999: [int] cuts the product
    1998.9999999999998 down. *)
Theorem checkout_truncates_amount :
  total one_line_db the_cart = NFloat 19.99 /\
  create_payment_intent accepting checkout_config one_line_db the_user
  = (json_reply 200 (VDict [("clientSecret", VStr "pi_1_secret_2")]),
     [{| api_key := Some "sk_test"; amount := 1998;
         intent_currency := "usd";
         metadata := [("user_id", VInt 3); ("cart_id", VInt 7)] |}]) /\
  rounded_amount_of (total one_line_db the_cart) = Ok 1999 /\
  amount_of (total one_line_db the_cart) = Ok 1998.
Proof. repeat split; vm_compute; reflexivity. Qed.

End CheckoutFacts.

(* ===================================================================== *)
(** ** Properties of the course listing *)
(* ===================================================================== *)

Module ListingFacts.

Import Edx OpenEdxAPI.

(** An LMS whose catalog lists one course and whose two pricing
    endpoints answer as given. *)
Definition listed_course : value :=
  VDict [("id", VStr "course-v1:ESL+A1+2024"); ("name", VStr "English A1")].

Definition catalog_lms (commerce modes : reply) : remote :=
  fun before rq =>
    match url rq with
    | [_; Lit path] =>
        if (path =? "/api/courses/v1/courses/")%string then
          Answer (PricingFacts.json_response 200
                    (VDict [("results", VList [listed_course]);
                            ("count", VInt 1)]))
        else PricingFacts.priced_lms commerce modes before rq
    | _ => PricingFacts.priced_lms commerce modes before rq
    end.

Definition listing (courses : list value) : value :=
  VDict [("results", VList courses);
         ("pagination", VDict [("page", VInt 1); ("page_size", VInt 12);
                               ("total", VInt 1)])].

(** C4, where the code departs from it.  After a 200 from the catalog:
    when both pricing endpoints answer 404, [get_courses] returns the
    course as the catalog sent it, with no price and no currency at all;
    when the commerce call raises, [get_courses] returns [None], the
    whole listing is lost.  [get_course_price] on the same two LMS
    returns (0, USD, default) and (0, USD, error). *)
Theorem listing_on_pricing_failure :
  let unpriced := catalog_lms (Answer PricingFacts.not_found)
                    (Answer PricingFacts.not_found) in
  let broken := catalog_lms (Failure TransportError)
                  (Answer PricingFacts.not_found) in
  fst (get_courses unpriced PricingFacts.no_parse 1 12 PricingFacts.fresh)
  = Ok (listing [listed_course]) /\
  get listed_course "price" VNone = Ok VNone /\
  get listed_course "currency" VNone = Ok VNone /\
  fst (get_courses broken PricingFacts.no_parse 1 12 PricingFacts.fresh)
  = Ok VNone /\
  fst (get_course_price unpriced PricingFacts.no_parse
         "course-v1:ESL+A1+2024" PricingFacts.fresh)
  = Ok (VDict default_info) /\
  fst (get_course_price broken PricingFacts.no_parse
         "course-v1:ESL+A1+2024" PricingFacts.fresh)
  = Ok (VDict error_info).
Proof. cbv zeta. repeat split; vm_compute; reflexivity. Qed.

End ListingFacts.

(* ===================================================================== *)
(** ** More on the cart: the one-line-per-course invariant, removal,
       clearing and the total *)
(* ===================================================================== *)

Module CartInvariant.

Import Store.

(** Two lines of the same cart for the same course. *)
Definition same_line (i j : cart_item) : bool :=
  (item_cart_id i =? item_cart_id j) && (course_id i =? course_id j)%string.

(** No two rows of a list are lines of one cart for one course. *)
Fixpoint uniqueb (l : list cart_item) : bool :=
  match l with
  | [] => true
  | i :: rest => negb (existsb (same_line i) rest) && uniqueb rest
  end.

(** The invariant of the cart table: at most one line per cart and
    course.  No constraint of the table states it. *)
Definition unique_lines (d : db) : Prop := uniqueb (cart_items d) = true.

Lemma find_none_iff {A} (p : A -> bool) (l : list A) :
  find p l = None <-> existsb p l = false.
Proof.
  induction l as [|a l IH]; simpl; [tauto|].
  destruct (p a); simpl; [split; discriminate | exact IH].
Qed.

Lemma has_item_existsb d c cid :
  has_item d c cid = existsb (line_of c cid) (cart_items d).
Proof.
  unfold has_item.
  destruct (find (line_of c cid) (cart_items d)) eqn:E.
  - destruct (existsb (line_of c cid) (cart_items d)) eqn:X; [reflexivity|].
    apply find_none_iff in X. congruence.
  - symmetry. apply find_none_iff, E.
Qed.

Lemma existsb_snoc {A} (p : A -> bool) l x :
  existsb p (l ++ [x]) = existsb p l || p x.
Proof. rewrite existsb_app. simpl. rewrite orb_false_r. reflexivity. Qed.

Lemma same_line_sym i j : same_line i j = same_line j i.
Proof.
  unfold same_line. rewrite Z.eqb_sym, String.eqb_sym. reflexivity.
Qed.

Lemma uniqueb_snoc l x :
  uniqueb (l ++ [x]) = uniqueb l && negb (existsb (same_line x) l).
Proof.
  induction l as [|i l IH]; simpl; [reflexivity|].
  rewrite IH, existsb_snoc, (same_line_sym x i).
  destruct (same_line i x), (existsb (same_line i) l), (uniqueb l),
    (existsb (same_line x) l); reflexivity.
Qed.

Lemma existsb_filter_le {A} (p q : A -> bool) l :
  existsb p l = false -> existsb p (filter q l) = false.
Proof.
  induction l as [|a l IH]; simpl; [auto|].
  intros H. apply orb_false_elim in H as [Ha Hl].
  destruct (q a); simpl; [rewrite Ha|]; auto.
Qed.

Lemma existsb_remove_first_le {A} (p q : A -> bool) l :
  existsb p l = false -> existsb p (remove_first q l) = false.
Proof.
  induction l as [|a l IH]; simpl; [auto|].
  intros H. apply orb_false_elim in H as [Ha Hl].
  destruct (q a); simpl; [|rewrite Ha]; auto.
Qed.

Lemma uniqueb_filter q l : uniqueb l = true -> uniqueb (filter q l) = true.
Proof.
  induction l as [|i l IH]; simpl; [auto|].
  intros H. apply andb_prop in H as [Hi Hl].
  destruct (q i); simpl; [|auto].
  rewrite (IH Hl), andb_true_r.
  apply negb_true_iff in Hi. apply negb_true_iff.
  apply existsb_filter_le, Hi.
Qed.

Lemma uniqueb_remove_first q l :
  uniqueb l = true -> uniqueb (remove_first q l) = true.
Proof.
  induction l as [|i l IH]; simpl; [auto|].
  intros H. apply andb_prop in H as [Hi Hl].
  destruct (q i); simpl; [exact Hl|].
  rewrite (IH Hl), andb_true_r.
  apply negb_true_iff in Hi. apply negb_true_iff.
  apply existsb_remove_first_le, Hi.
Qed.

Lemma existsb_same {A} (p q : A -> bool) l :
  (forall a, p a = q a) -> existsb p l = existsb q l.
Proof.
  intros H. induction l as [|a l IH]; simpl; [reflexivity|].
  rewrite H, IH. reflexivity.
Qed.

Lemma same_line_new c cid l n crs md pr cur :
  existsb (same_line {| item_id := n; item_cart_id := cart_id c;
                        course_id := cid; mode := md; price := pr;
                        currency := cur; course := crs |}) l
  = existsb (line_of c cid) l.
Proof.
  apply existsb_same. intros i. unfold same_line, line_of. simpl.
  rewrite (Z.eqb_sym (cart_id c)), (String.eqb_sym cid). reflexivity.
Qed.

(** X1.  The three operations of [Cart] keep the invariant: when no two
    rows of the table are lines of one cart for one course, the same
    holds after [add_item], after [remove_item] and after [clear],
    whatever their arguments. *)
Theorem cart_operations_keep_lines_unique d c cid crs md pr cur :
  unique_lines d ->
  unique_lines (snd (add_item d c cid crs md pr cur)) /\
  unique_lines (snd (remove_item d c cid)) /\
  unique_lines (clear d c).
Proof.
  unfold unique_lines. intros H. repeat split.
  - unfold add_item. rewrite has_item_existsb.
    destruct (existsb (line_of c cid) (cart_items d)) eqn:E; simpl; [exact H|].
    rewrite uniqueb_snoc, H, same_line_new, E. reflexivity.
  - unfold remove_item.
    destruct (find (line_of c cid) (cart_items d)); simpl; [|exact H].
    apply uniqueb_remove_first, H.
  - unfold clear. simpl. apply uniqueb_filter, H.
Qed.

Lemma cart_operations_keep_lines_unique_witness :
  unique_lines CartFacts.sample_db /\
  unique_lines (snd (add_item CartFacts.sample_db CartFacts.sample_cart
                       "course-v1:ESL+A1+2024" VNone "audit" None "USD")) /\
  unique_lines (snd (remove_item CartFacts.sample_db CartFacts.sample_cart
                       "course-v1:ESL+A1+2024")) /\
  unique_lines (clear CartFacts.sample_db CartFacts.sample_cart).
Proof.
  split.
  - reflexivity.
  - apply (cart_operations_keep_lines_unique CartFacts.sample_db
             CartFacts.sample_cart "course-v1:ESL+A1+2024").
    reflexivity.
Defined.

Lemma remove_first_snoc {A} (p : A -> bool) l x :
  existsb p l = false -> p x = true ->
  find p (l ++ [x]) = Some x /\ remove_first p (l ++ [x]) = l.
Proof.
  intros Hl Hx. induction l as [|a l IH]; simpl.
  - rewrite Hx. auto.
  - simpl in Hl. apply orb_false_elim in Hl as [Ha Hl].
    rewrite Ha. destruct (IH Hl) as [-> ->]. auto.
Qed.

Lemma with_cart_items_same d : with_cart_items d (cart_items d) = d.
Proof. destruct d; reflexivity. Qed.

(** X2.  Adding a course the cart does not hold and removing it again
    gives back the store as it was: [add_item] returns [True],
    [remove_item] returns [True], and every table is the one before. *)
Theorem add_then_remove_restores d c cid crs md pr cur :
  has_item d c cid = false ->
  let added := add_item d c cid crs md pr cur in
  let removed := remove_item (snd added) c cid in
  fst added = true /\ fst removed = true /\ snd removed = d.
Proof.
  intros Hno added removed. unfold removed, added, add_item.
  rewrite Hno. simpl. unfold remove_item. simpl.
  rewrite has_item_existsb in Hno.
  match goal with
  | |- context [find ?p (?l ++ [?x])] =>
      destruct (remove_first_snoc p l x Hno) as [Hf Hr]
  end.
  { unfold line_of. simpl. rewrite Z.eqb_refl, String.eqb_refl. reflexivity. }
  rewrite Hf, Hr. simpl. repeat split.
  unfold with_cart_items. simpl. destruct d; reflexivity.
Qed.

Lemma add_then_remove_restores_witness :
  has_item CartFacts.sample_db CartFacts.sample_cart "course-v1:ESL+A1+2024"
  = false /\
  snd (remove_item
         (snd (add_item CartFacts.sample_db CartFacts.sample_cart
                 "course-v1:ESL+A1+2024" VNone "verified"
                 (Some 19.99%float) "USD"))
         CartFacts.sample_cart "course-v1:ESL+A1+2024")
  = CartFacts.sample_db.
Proof.
  split.
  - reflexivity.
  - apply (add_then_remove_restores CartFacts.sample_db CartFacts.sample_cart
             "course-v1:ESL+A1+2024" VNone "verified" (Some 19.99%float) "USD").
    reflexivity.
Defined.

Lemma find_some_holds {A} (p : A -> bool) l x :
  find p l = Some x -> p x = true /\ existsb p l = true.
Proof.
  induction l as [|a l IH]; simpl; [discriminate|].
  destruct (p a) eqn:E.
  - intros H; injection H as <-. auto.
  - intros H. destruct (IH H); auto.
Qed.

Lemma unique_after_first c cid l :
  uniqueb l = true ->
  existsb (line_of c cid) (remove_first (line_of c cid) l) = false.
Proof.
  induction l as [|i l IH]; simpl; [reflexivity|].
  intros H. apply andb_prop in H as [Hi Hl].
  destruct (line_of c cid i) eqn:E; simpl.
  - apply negb_true_iff in Hi.
    destruct (existsb (line_of c cid) l) eqn:X; [|reflexivity].
    apply existsb_exists in X as (j & Hin & Hj).
    assert (Hs : existsb (same_line i) l = true).
    { apply existsb_exists. exists j. split; [exact Hin|].
      unfold line_of in E, Hj. unfold same_line.
      apply andb_prop in E as [E1 E2]. apply andb_prop in Hj as [J1 J2].
      apply Z.eqb_eq in E1, J1. apply String.eqb_eq in E2, J2.
      rewrite E1, J1, E2, J2, Z.eqb_refl, String.eqb_refl. reflexivity. }
    congruence.
  - rewrite E. simpl. apply IH, Hl.
Qed.

Lemma remove_first_length {A} (p : A -> bool) l :
  S (List.length (remove_first p l))
  = (if existsb p l then List.length l else S (List.length l)).
Proof.
  induction l as [|a l IH]; simpl; [reflexivity|].
  destruct (p a); simpl; [reflexivity|].
  rewrite IH. destruct (existsb p l); reflexivity.
Qed.

Lemma existsb_remove_first_other {A} (p q : A -> bool) l :
  (forall a, p a = true -> q a = false) ->
  existsb q (remove_first p l) = existsb q l.
Proof.
  intros H. induction l as [|a l IH]; simpl; [reflexivity|].
  destruct (p a) eqn:E; simpl.
  - rewrite (H a E). reflexivity.
  - rewrite IH. reflexivity.
Qed.

(** X3.  [remove_item] returns whether the cart held the course.  On a
    table that keeps the invariant the cart does not hold the course
    afterwards, the table has lost one row exactly when [True] was
    returned, and what the cart holds of any other course, and what any
    other cart holds, is as before. *)
Theorem remove_item_removes_the_line d c cid :
  unique_lines d ->
  let removed := remove_item d c cid in
  fst removed = has_item d c cid /\
  has_item (snd removed) c cid = false /\
  List.length (cart_items (snd removed))
  = (List.length (cart_items d) - (if has_item d c cid then 1 else 0))%nat /\
  forall c' cid',
    (cart_id c' =? cart_id c) && (cid' =? cid)%string = false ->
    has_item (snd removed) c' cid' = has_item d c' cid'.
Proof.
  intros Hu removed. unfold unique_lines in Hu.
  unfold removed, remove_item.
  rewrite !has_item_existsb.
  destruct (find (line_of c cid) (cart_items d)) as [x|] eqn:E; simpl.
  - destruct (find_some_holds _ _ _ E) as [_ Hex]. rewrite Hex.
    repeat split.
    + apply unique_after_first, Hu.
    + pose proof (remove_first_length (line_of c cid) (cart_items d)) as L.
      rewrite Hex in L. lia.
    + intros c' cid' Hd. rewrite !has_item_existsb. simpl.
      apply existsb_remove_first_other. intros a Ha.
      unfold line_of in *. apply andb_prop in Ha as [A1 A2].
      apply Z.eqb_eq in A1. apply String.eqb_eq in A2. rewrite A1, A2.
      rewrite Z.eqb_sym, String.eqb_sym. exact Hd.
  - apply find_none_iff in E. rewrite E. repeat split; try exact E. lia.
Qed.

Lemma remove_item_removes_the_line_witness :
  unique_lines CartFacts.sample_db /\
  has_item (snd (remove_item CartFacts.sample_db CartFacts.sample_cart
                   "course-v1:ESL+B1+2024"))
    CartFacts.sample_cart "course-v1:ESL+B1+2024" = false.
Proof.
  split.
  - reflexivity.
  - apply (remove_item_removes_the_line CartFacts.sample_db
             CartFacts.sample_cart "course-v1:ESL+B1+2024").
    reflexivity.
Defined.

Lemma filter_filter_disjoint {A} (p q : A -> bool) l :
  (forall a, p a = true -> q a = true) ->
  filter p (filter q l) = filter p l.
Proof.
  intros H. induction l as [|a l IH]; simpl; [reflexivity|].
  destruct (q a) eqn:Q; simpl.
  - rewrite IH. reflexivity.
  - destruct (p a) eqn:P; [rewrite (H a P) in Q; discriminate | exact IH].
Qed.

Lemma filter_idem {A} (q : A -> bool) l : filter q (filter q l) = filter q l.
Proof. apply filter_filter_disjoint. auto. Qed.

Lemma clear_twice d c : clear (clear d c) c = clear d c.
Proof. unfold clear, with_cart_items. simpl. rewrite filter_idem. reflexivity. Qed.

(** X4.  [clear] empties the cart and nothing else: the cart has no
    lines and the total 0 afterwards, every other cart holds what it
    held, users and carts are untouched, and clearing again changes
    nothing. *)
Theorem clear_empties_only_that_cart d c :
  items (clear d c) c = [] /\
  total (clear d c) c = NInt 0 /\
  (forall c', cart_id c' <> cart_id c -> items (clear d c) c' = items d c') /\
  users (clear d c) = users d /\
  carts (clear d c) = carts d /\
  clear (clear d c) c = clear d c.
Proof.
  assert (He : items (clear d c) c = []) by apply WebhookFacts.items_clear.
  repeat split.
  - exact He.
  - unfold total. rewrite He. reflexivity.
  - intros c' Hne. unfold items, clear. simpl.
    apply filter_filter_disjoint. intros a Ha.
    apply Z.eqb_eq in Ha. apply negb_true_iff, Z.eqb_neq. congruence.
  - unfold clear, with_cart_items. simpl. rewrite filter_idem. reflexivity.
Qed.

Lemma prices_app l1 l2 : prices (l1 ++ l2) = prices l1 ++ prices l2.
Proof.
  induction l1 as [|i l1 IH]; simpl; [reflexivity|].
  destruct (price i); simpl; rewrite IH; reflexivity.
Qed.

(** X5.  How [add_item] moves what [total] sums.  A call that returns
    [False] and a line without a price leave the summed prices, and so
    the total, as they were.  An accepted line with a price (a number,
    not a NaN) puts that price after the earlier terms, which are kept
    in order; on a cart without a priced line the total is then
    [0 + price]. *)
Theorem total_after_add_item d c cid crs md pr cur :
  let added := snd (add_item d c cid crs md pr cur) in
  (has_item d c cid = true \/ pr = None ->
   prices (items added c) = prices (items d c) /\
   total added c = total d c) /\
  (forall p,
      has_item d c cid = false -> pr = Some p -> is_nan p = false ->
      prices (items added c) = prices (items d c) ++ [p] /\
      (prices (items d c) = [] -> total added c = add_float (NInt 0) p)).
Proof.
  cbv zeta. unfold add_item. split.
  - intros Hsame.
    assert (Hp : prices (items (snd (if negb (has_item d c cid)
                   then (true, with_cart_items d
                           (cart_items d ++
                            [{| item_id := next_id (cart_items d);
                                item_cart_id := cart_id c;
                                course_id := cid; mode := md; price := pr;
                                currency := cur; course := crs |}]))
                   else (false, d))) c) = prices (items d c)).
    { destruct (has_item d c cid); simpl; [reflexivity|].
      destruct Hsame as [Hh | ->]; [discriminate|].
      rewrite CartFacts.items_app. simpl.
      rewrite Z.eqb_refl, prices_app. simpl. apply app_nil_r. }
    split; [exact Hp|]. unfold total. rewrite Hp. reflexivity.
  - intros p Hh -> _. rewrite Hh. simpl.
    assert (Hp : prices (items (with_cart_items d
                   (cart_items d ++
                    [{| item_id := next_id (cart_items d);
                        item_cart_id := cart_id c;
                        course_id := cid; mode := md; price := Some p;
                        currency := cur; course := crs |}])) c)
                 = prices (items d c) ++ [p]).
    { rewrite CartFacts.items_app. simpl.
      rewrite Z.eqb_refl, prices_app. reflexivity. }
    split; [exact Hp|].
    intros He. unfold total. rewrite Hp, He. reflexivity.
Qed.

Lemma total_after_add_item_witness :
  prices (items (snd (add_item CartFacts.sample_db CartFacts.sample_cart
                        "course-v1:ESL+A1+2024" VNone "verified"
                        (Some 19.99%float) "USD"))
            CartFacts.sample_cart)
  = [49.5%float; 19.99%float].
Proof.
  apply (proj1 (proj2 (total_after_add_item CartFacts.sample_db
                         CartFacts.sample_cart "course-v1:ESL+A1+2024"
                         VNone "verified" (Some 19.99%float) "USD")
                  19.99%float eq_refl eq_refl eq_refl)).
Defined.

(** X6.  [add_item] touches one cart and one course: every other cart
    holds the lines it held, and whether the cart holds any other course
    is as before. *)
Theorem add_item_touches_one_line d c cid crs md pr cur :
  let added := snd (add_item d c cid crs md pr cur) in
  (forall c', cart_id c' <> cart_id c -> items added c' = items d c') /\
  (forall c' cid',
      (cart_id c' =? cart_id c) && (cid' =? cid)%string = false ->
      has_item added c' cid' = has_item d c' cid') /\
  users added = users d /\
  carts added = carts d.
Proof.
  cbv zeta. unfold add_item.
  destruct (has_item d c cid); simpl; [auto|].
  repeat split.
  - intros c' Hne. rewrite CartFacts.items_app. simpl.
    apply Z.eqb_neq in Hne. rewrite Z.eqb_sym, Hne. apply app_nil_r.
  - intros c' cid' Hd. rewrite !has_item_existsb. simpl.
    rewrite existsb_snoc. unfold line_of at 2. simpl.
    rewrite Z.eqb_sym, String.eqb_sym, Hd. apply orb_false_r.
Qed.

End CartInvariant.

(* ===================================================================== *)
(** ** More on the credentials and the headers *)
(* ===================================================================== *)

Module HeaderFacts.

Import Edx OpenEdxAPI CredentialFacts.

(** The state after one more request. *)
Definition after (st : state) (rqs : list request) : state :=
  {| self := self st; sent := sent st ++ rqs; enrolled := enrolled st |}.

(** A reply from which [_get_access_token] gets no token: the call
    raised, or the status is not 200. *)
Definition refused (rp : reply) : bool :=
  match rp with
  | Failure _ => true
  | Answer r => negb (status_code r =? 200)
  end.

Section Headers.
Variable lms : remote.

(** What a call of [_get_access_token] can do. *)
Lemma access_token_returns st r st' :
  _get_access_token lms st = (r, st') ->
  exists v,
    r = Ok v /\
    (truthy v = true -> access_token (self st') = v) /\
    base_url (self st') = base_url (self st) /\
    client_id (self st') = client_id (self st) /\
    client_secret (self st') = client_secret (self st) /\
    csrf_token (self st') = csrf_token (self st) /\
    enrolled st' = enrolled st /\
    sent st' = (if truthy (access_token (self st)) then sent st
                else sent st ++ [token_request (self st)]).
Proof.
  unfold _get_access_token, bind, get_self.
  destruct (truthy (access_token (self st))) eqn:Ht; simpl.
  - intros H; injection H as <- <-. eexists. repeat split.
  - unfold try_except, bind, http, lift, set_access_token, get_self, ret.
    destruct (lms (sent st) (token_request (self st))) as [rp|e]; simpl;
      [destruct (status_code rp =? 200); simpl;
       [destruct (json_of rp) as [data|e]; simpl;
        [destruct (get data "access_token" VNone) as [tok|e]; simpl|]|]|];
      intros H; injection H as <- <-; eexists;
      (split; [reflexivity|]); simpl;
      (split; [first [reflexivity | discriminate | rewrite Ht; discriminate]|]);
      repeat split.
Qed.

(** X7.  [_get_access_token] never raises and sends at most one request,
    the client-credentials request, and only when no token is cached.
    A token it returns is the one it left in the cache, so the next call
    returns it again without a request.  The CSRF token is not
    touched. *)
Theorem access_token_is_fetched_once st r st' :
  _get_access_token lms st = (r, st') ->
  exists v,
    r = Ok v /\
    sent st' = (if truthy (access_token (self st)) then sent st
                else sent st ++ [token_request (self st)]) /\
    csrf_token (self st') = csrf_token (self st) /\
    (truthy v = true -> _get_access_token lms st' = (Ok v, st')).
Proof.
  intros H.
  destruct (access_token_returns _ _ _ H)
    as (v & -> & Hc & _ & _ & _ & Hcsrf & _ & Hs).
  exists v. repeat split; auto.
  intros Hv. rewrite <- (Hc Hv). apply access_token_cached.
  rewrite (Hc Hv). exact Hv.
Qed.

Lemma access_token_refused st :
  truthy (access_token (self st)) = false ->
  refused (lms (sent st) (token_request (self st))) = true ->
  exists v,
    _get_access_token lms st = (Ok v, after st [token_request (self st)]) /\
    truthy v = false.
Proof.
  intros Ht Hr.
  unfold _get_access_token, bind, get_self. rewrite Ht. simpl.
  unfold try_except, bind, http, lift, set_access_token, get_self, ret, after.
  destruct (lms (sent st) (token_request (self st))) as [rp|e]; simpl in *.
  - apply negb_true_iff in Hr. rewrite Hr. simpl.
    exists (access_token (self st)). split; [reflexivity | exact Ht].
  - exists VNone. split; reflexivity.
Qed.

(** X8.  A token request that raises or is answered with a status other
    than 200 leaves the instance as it was: the call returns no token,
    nothing is cached, and the next call asks the token endpoint
    again. *)
Theorem refused_token_is_asked_again st :
  truthy (access_token (self st)) = false ->
  refused (lms (sent st) (token_request (self st))) = true ->
  exists v st1 r2 st2,
    _get_access_token lms st = (Ok v, st1) /\
    truthy v = false /\
    self st1 = self st /\
    sent st1 = sent st ++ [token_request (self st)] /\
    _get_access_token lms st1 = (r2, st2) /\
    sent st2 = sent st ++ [token_request (self st); token_request (self st)].
Proof.
  intros Ht Hr.
  destruct (access_token_refused st Ht Hr) as (v & Hrun & Hv).
  destruct (_get_access_token lms (after st [token_request (self st)]))
    as [r2 st2] eqn:E2.
  exists v, (after st [token_request (self st)]), r2, st2.
  repeat split; auto.
  destruct (access_token_returns _ _ _ E2) as (_ & _ & _ & _ & _ & _ & _ & _ & Hs).
  simpl in Hs. rewrite Ht in Hs. rewrite Hs, <- app_assoc. reflexivity.
Qed.

Lemma token_fetches_app l rqs :
  token_fetches (l ++ rqs) = (token_fetches l + token_fetches rqs)%nat.
Proof. unfold token_fetches. rewrite filter_app, length_app. reflexivity. Qed.

Lemma csrf_fetches_app l rqs :
  csrf_fetches (l ++ rqs) = (csrf_fetches l + csrf_fetches rqs)%nat.
Proof. unfold csrf_fetches. rewrite filter_app, length_app. reflexivity. Qed.

Lemma token_fetches_token s : token_fetches [token_request s] = 1%nat.
Proof. reflexivity. Qed.

Lemma csrf_fetches_token s : csrf_fetches [token_request s] = 0%nat.
Proof. reflexivity. Qed.

Lemma token_fetches_csrf s : token_fetches [csrf_request s] = 0%nat.
Proof. reflexivity. Qed.

Lemma csrf_fetches_csrf s : csrf_fetches [csrf_request s] = 1%nat.
Proof. reflexivity. Qed.

Ltac count_requests :=
  rewrite ?token_fetches_app, ?csrf_fetches_app, ?token_fetches_token,
    ?csrf_fetches_token, ?token_fetches_csrf, ?csrf_fetches_csrf;
  lia.

(** A token the instance holds after [_get_access_token] is the one the
    call returned. *)
Lemma access_token_held st v st' :
  _get_access_token lms st = (Ok v, st') ->
  truthy (access_token (self st')) = true ->
  v = access_token (self st').
Proof.
  unfold _get_access_token, bind, get_self.
  destruct (truthy (access_token (self st))) eqn:Ht; simpl.
  - intros H _. apply (f_equal fst) in H as Hv. apply (f_equal snd) in H.
    simpl in Hv, H. subst st'. congruence.
  - unfold try_except, bind, http, lift, set_access_token, get_self, ret.
    destruct (lms (sent st) (token_request (self st))) as [rp|e]; simpl;
      [destruct (status_code rp =? 200); simpl;
       [destruct (json_of rp) as [data|e]; simpl;
        [destruct (get data "access_token" VNone) as [tok|e]; simpl|]|]|];
      intros H Hh; apply (f_equal fst) in H as Hv; apply (f_equal snd) in H;
      simpl in Hv, H; subst st'; simpl in Hh.
    all: try (rewrite Ht in Hh; discriminate).
    all: try discriminate.
    simpl. congruence.
Qed.

(** X9.  [_get_auth_headers] never raises.  The headers always hold
    [Authorization: jwt <token>].  A token that was cached before the
    call is the one the header carries, and then nothing is asked of the
    token endpoint; a token the instance holds after the call is the
    one the header carries; and a header token that is not empty is the
    one the instance holds.  The headers hold [X-CSRFToken] and the
    [csrftoken] cookie exactly when the CSRF token was asked for and one
    is known.  At most two requests go to the token endpoint, and none
    to the site root when the CSRF token was not asked for. *)
Theorem auth_headers_shape include_csrf st r st' :
  _get_auth_headers lms include_csrf st = (r, st') ->
  exists token hd,
    r = Ok hd /\
    assoc "Authorization" hd = Some [Lit "jwt "; Fmt token] /\
    (truthy token = true -> token = access_token (self st')) /\
    assoc "X-CSRFToken" hd
    = (if include_csrf && truthy (csrf_token (self st'))
       then Some [Fmt (csrf_token (self st'))] else None) /\
    assoc "Cookie" hd
    = (if include_csrf && truthy (csrf_token (self st'))
       then Some [Lit "csrftoken="; Fmt (csrf_token (self st'))] else None) /\
    (token_fetches (sent st') <= token_fetches (sent st) + 2)%nat /\
    (include_csrf = false -> csrf_fetches (sent st') = csrf_fetches (sent st)) /\
    (truthy (access_token (self st)) = true ->
     token = access_token (self st) /\
     access_token (self st') = access_token (self st) /\
     token_fetches (sent st') = token_fetches (sent st)) /\
    (truthy (access_token (self st')) = true ->
     token = access_token (self st')).
Proof.
  unfold _get_auth_headers, bind.
  destruct (_get_access_token lms st) as [r1 st1] eqn:E1.
  destruct (access_token_returns _ _ _ E1)
    as (v1 & -> & _ & _ & _ & _ & _ & _ & Hs1).
  destruct (_get_access_token lms st1) as [r2 st2] eqn:E2.
  destruct (access_token_returns _ _ _ E2)
    as (v2 & -> & Hc2 & _ & _ & _ & Hcsrf2 & _ & Hs2).
  assert (Htok : (token_fetches (sent st2) <= token_fetches (sent st) + 2)%nat).
  { rewrite Hs2, Hs1.
    destruct (truthy (access_token (self st)));
      destruct (truthy (access_token (self st1)));
      count_requests. }
  assert (Hcs : csrf_fetches (sent st2) = csrf_fetches (sent st)).
  { rewrite Hs2, Hs1.
    destruct (truthy (access_token (self st)));
      destruct (truthy (access_token (self st1)));
      count_requests. }
  assert (Hheld : truthy (access_token (self st2)) = true ->
                  v2 = access_token (self st2))
    by exact (access_token_held _ _ _ E2).
  assert (Hcached : truthy (access_token (self st)) = true ->
                    v2 = access_token (self st) /\
                    access_token (self st2) = access_token (self st) /\
                    sent st2 = sent st).
  { intros Ht. rewrite (access_token_cached lms st Ht) in E1.
    apply (f_equal snd) in E1. simpl in E1. subst st1.
    rewrite (access_token_cached lms st Ht) in E2.
    apply (f_equal fst) in E2 as Ev. apply (f_equal snd) in E2.
    simpl in Ev, E2. subst st2. split; [congruence | auto]. }
  destruct include_csrf.
  - destruct (_get_csrf_token lms st2) as [r3 st3] eqn:E3.
    destruct (csrf_token_returns _ _ _ _ E3) as (-> & _ & Hat3 & _ & Hs3).
    unfold ret. intros H; injection H as <- <-.
    exists v2. eexists. split; [reflexivity|]. simpl.
    split; [reflexivity|].
    split; [intros Hv; rewrite Hat3; symmetry; exact (Hc2 Hv)|].
    assert (Hlast :
      (truthy (access_token (self st)) = true ->
       v2 = access_token (self st) /\
       access_token (self st3) = access_token (self st) /\
       token_fetches (sent st3) = token_fetches (sent st)) /\
      (truthy (access_token (self st3)) = true ->
       v2 = access_token (self st3))).
    { split.
      - intros Ht. destruct (Hcached Ht) as (Hv & Ha & Hs).
        split; [exact Hv|]. split; [rewrite Hat3; exact Ha|].
        destruct Hs3 as [-> | ->]; rewrite Hs; count_requests.
      - rewrite Hat3. exact Hheld. }
    unfold csrf_headers.
    destruct (truthy (csrf_token (self st3))); simpl;
      (split; [reflexivity|]); (split; [reflexivity|]);
      (split; [|split; [discriminate | exact Hlast]]);
      destruct Hs3 as [-> | ->]; count_requests.
  - unfold ret. intros H; injection H as <- <-.
    exists v2. eexists. split; [reflexivity|]. simpl.
    split; [reflexivity|].
    split; [intros Hv; symmetry; exact (Hc2 Hv)|].
    split; [reflexivity|]. split; [reflexivity|].
    split; [exact Htok|]. split; [intros _; exact Hcs|].
    split; [|exact Hheld].
    intros Ht. destruct (Hcached Ht) as (Hv & Ha & Hs).
    rewrite Hs. auto.
Qed.

(** X10.  While the token endpoint refuses, [_get_auth_headers] asks it
    twice per call (once for its log line, once for the header) and
    still returns headers, whose [Authorization] carries no token. *)
Theorem auth_headers_without_token st :
  truthy (access_token (self st)) = false ->
  (forall h, refused (lms h (token_request (self st))) = true) ->
  exists token,
    truthy token = false /\
    _get_auth_headers lms false st
    = (Ok [("Accept", [Lit "application/json"]);
           ("Content-Type", [Lit "application/json"]);
           ("User-Agent", [Lit "EDXStore/1.0"]);
           ("Authorization", [Lit "jwt "; Fmt token])],
       after st [token_request (self st); token_request (self st)]).
Proof.
  intros Ht Hr.
  destruct (access_token_refused st Ht (Hr _)) as (v1 & E1 & _).
  destruct (access_token_refused (after st [token_request (self st)]) Ht (Hr _))
    as (v2 & E2 & Hv2).
  exists v2. split; [exact Hv2|].
  unfold _get_auth_headers, bind. rewrite E1, E2. unfold ret, after. simpl.
  rewrite <- app_assoc. reflexivity.
Qed.

End Headers.

(** An LMS that cannot be reached. *)
Definition down_lms : remote := fun _ _ => Failure TransportError.

Lemma access_token_is_fetched_once_witness :
  exists v,
    Ok (VStr "tok-1") = Ok v /\
    sent (snd (_get_access_token EnrollFacts.expiring_lms fresh))
    = (if truthy (access_token (self fresh)) then sent fresh
       else sent fresh ++ [token_request (self fresh)]) /\
    csrf_token (self (snd (_get_access_token EnrollFacts.expiring_lms fresh)))
    = csrf_token (self fresh) /\
    (truthy v = true ->
     _get_access_token EnrollFacts.expiring_lms
       (snd (_get_access_token EnrollFacts.expiring_lms fresh))
     = (Ok v, snd (_get_access_token EnrollFacts.expiring_lms fresh))).
Proof.
  apply (access_token_is_fetched_once EnrollFacts.expiring_lms fresh
           (Ok (VStr "tok-1"))
           (snd (_get_access_token EnrollFacts.expiring_lms fresh))).
  reflexivity.
Defined.

Lemma refused_token_is_asked_again_witness :
  exists v st1 r2 st2,
    _get_access_token down_lms fresh = (Ok v, st1) /\
    truthy v = false /\
    self st1 = self fresh /\
    sent st1 = sent fresh ++ [token_request (self fresh)] /\
    _get_access_token down_lms st1 = (r2, st2) /\
    sent st2
    = sent fresh ++ [token_request (self fresh); token_request (self fresh)].
Proof.
  apply (refused_token_is_asked_again down_lms fresh); reflexivity.
Defined.

Lemma auth_headers_shape_witness :
  exists hd,
    fst (_get_auth_headers EnrollFacts.expiring_lms true fresh) = Ok hd /\
    assoc "Authorization" hd = Some [Lit "jwt "; Fmt (VStr "tok-1")] /\
    assoc "X-CSRFToken" hd = Some [Fmt (VStr "k3y")].
Proof.
  destruct (auth_headers_shape EnrollFacts.expiring_lms true fresh
              (fst (_get_auth_headers EnrollFacts.expiring_lms true fresh))
              (snd (_get_auth_headers EnrollFacts.expiring_lms true fresh))
              eq_refl)
    as (token & hd & H1 & H2 & _ & H4 & _ & _ & _ & _ & H9).
  exists hd. split; [exact H1|]. split; [|exact H4].
  rewrite H2, (H9 eq_refl). reflexivity.
Defined.

Lemma auth_headers_without_token_witness :
  exists token,
    truthy token = false /\
    _get_auth_headers down_lms false fresh
    = (Ok [("Accept", [Lit "application/json"]);
           ("Content-Type", [Lit "application/json"]);
           ("User-Agent", [Lit "EDXStore/1.0"]);
           ("Authorization", [Lit "jwt "; Fmt token])],
       after fresh [token_request (self fresh); token_request (self fresh)]).
Proof.
  apply (auth_headers_without_token down_lms fresh).
  - reflexivity.
  - intros h. reflexivity.
Defined.

End HeaderFacts.

(* ===================================================================== *)
(** ** More on [enroll] *)
(* ===================================================================== *)

Module EnrollOutcomes.

Import Edx OpenEdxAPI CredentialFacts HeaderFacts EnrollFacts.

Section Outcomes.
Variable lms : remote.

(** X11.  Without a token, [enroll] gives up at once: when none is
    cached and the token request raises or is not answered with a 200,
    it returns [(False, "Authentication failed")] having sent that one
    request only: no CSRF token is fetched and no enrollment is
    posted. *)
Theorem enroll_fails_fast st email cid md :
  truthy (access_token (self st)) = false ->
  refused (lms (sent st) (token_request (self st))) = true ->
  enroll lms email cid md st
  = (Ok (false, Data (VStr "Authentication failed")),
     {| self := self st;
        sent := sent st ++ [token_request (self st)];
        enrolled := enrolled st ++ [(email, cid, md)] |}).
Proof.
  intros Ht Hr.
  unfold enroll, bind, note_enroll, try_except, enroll_body, bind.
  match goal with
  | |- context [_get_access_token lms ?s] =>
      destruct (access_token_refused lms s Ht Hr) as (v & E & Hv)
  end.
  rewrite E, Hv. reflexivity.
Qed.

(** The reading of a response by [enroll], case by case. *)
Definition reading (rp : reply) : bool * detail :=
  match rp with
  | Failure e => (false, Text e)
  | Answer r =>
      if (status_code r =? 200) || (status_code r =? 201) then
        match json r with
        | Some body => (true, Data body)
        | None => (false, Text JSONDecodeError)
        end
      else if (text r =? "")%string then
        (false, Data (VStr "Unknown error occurred"))
      else
        match json r with
        | Some (VDict d) =>
            (false, Data (match assoc "message" d with
                          | Some m => m
                          | None => VStr "Unknown error occurred"
                          end))
        | Some _ => (false, Text AttributeError)
        | None => (false, Text JSONDecodeError)
        end
  end.

Lemma verdict_reading rp : verdict rp = reading rp.
Proof.
  destruct rp as [r|e]; [|reflexivity].
  unfold verdict, reading, enroll_outcome, json_of.
  destruct ((status_code r =? 200) || (status_code r =? 201)).
  - destruct (json r); reflexivity.
  - destruct (text r =? "")%string; simpl; [reflexivity|].
    destruct (json r) as [[| | | | | |d]|]; reflexivity.
Qed.

(** X12.  With both tokens cached, [enroll] posts one request, carrying
    them and the JSON body (user, course_details.course_id, mode), and
    reads the reply: a 200 or 201 whose body parses gives [(True,
    body)]; any other status gives [False] with the [message] of the
    error body, or "Unknown error occurred" when the body is empty or
    has no message; a call that raises, or a body that does not parse or
    is no object, gives [False] with the text of the exception. *)
Theorem enroll_reads_the_reply st email cid md :
  truthy (access_token (self st)) = true ->
  truthy (csrf_token (self st)) = true ->
  let rq := {| meth := POST;
               url := [Lit (base_url (self st));
                       Lit "/api/enrollment/v1/enrollment"];
               headers := [("Accept", [Lit "application/json"]);
                           ("Content-Type", [Lit "application/json"]);
                           ("Authorization",
                            [Lit "jwt "; Fmt (access_token (self st))]);
                           ("X-CSRFToken", [Fmt (csrf_token (self st))]);
                           ("Cookie", [Lit "csrftoken=";
                                       Fmt (csrf_token (self st))])];
               params := [];
               body := Json (VDict [("user", VStr email);
                                    ("course_details",
                                     VDict [("course_id", VStr cid)]);
                                    ("mode", VStr md)]) |} in
  enroll lms email cid md st
  = (Ok (reading (lms (sent st) rq)),
     {| self := self st; sent := sent st ++ [rq];
        enrolled := enrolled st ++ [(email, cid, md)] |}).
Proof.
  intros Ht Hc rq.
  unfold enroll, bind, note_enroll, try_except, enroll_body, bind.
  rewrite access_token_cached by exact Ht. simpl. rewrite Ht. simpl.
  rewrite csrf_token_cached by exact Hc.
  unfold get_self, http, lift, ret. simpl.
  assert (Hrq : enroll_request (self st) (access_token (self st))
                  (csrf_token (self st)) email cid md = rq).
  { unfold rq, enroll_request, csrf_headers, enrollment_data.
    rewrite Hc. reflexivity. }
  rewrite Hrq, <- verdict_reading. unfold verdict.
  destruct (lms (sent st) rq) as [r|e]; simpl; [|reflexivity].
  destruct (enroll_outcome r); reflexivity.
Qed.

Lemma verdict_success rp :
  fst (verdict rp) = true ->
  exists r body,
    rp = Answer r /\
    (status_code r =? 200) || (status_code r =? 201) = true /\
    json r = Some body /\
    snd (verdict rp) = Data body.
Proof.
  rewrite verdict_reading. destruct rp as [r|e]; simpl; [|discriminate].
  destruct ((status_code r =? 200) || (status_code r =? 201)) eqn:Hs.
  - destruct (json r) as [body|] eqn:Hj; simpl; [|discriminate].
    intros _. exists r, body. repeat split; assumption.
  - destruct (text r =? "")%string; simpl; [discriminate|].
    destruct (json r) as [[| | | | | |d]|]; discriminate.
Qed.

(** X13.  [enroll] never raises and sends at most three requests.  It
    returns [True] only when the last request it sent was answered with
    a 200 or a 201 whose body parsed, and then it returns that body. *)
Theorem enroll_success_is_confirmed st email cid md :
  exists out st',
    enroll lms email cid md st = (Ok out, st') /\
    (List.length (sent st') <= List.length (sent st) + 3)%nat /\
    (fst out = true ->
     exists before rq r body,
       sent st' = before ++ [rq] /\
       meth rq = POST /\
       lms before rq = Answer r /\
       (status_code r =? 200) || (status_code r =? 201) = true /\
       json r = Some body /\
       snd out = Data body).
Proof.
  unfold enroll, bind, note_enroll, try_except, enroll_body, bind.
  match goal with
  | |- context [_get_access_token lms ?s] =>
      destruct (_get_access_token lms s) as [r1 s1] eqn:E1
  end.
  destruct (access_token_returns _ _ _ _ E1)
    as (v & -> & _ & _ & _ & _ & _ & _ & Hs1).
  simpl in Hs1.
  assert (L1 : (List.length (sent s1) <= List.length (sent st) + 1)%nat).
  { rewrite Hs1. destruct (truthy (access_token (self st)));
      rewrite ?length_app; simpl; lia. }
  destruct (truthy v); simpl.
  - destruct (_get_csrf_token lms s1) as [r2 s2] eqn:E2.
    destruct (csrf_token_returns _ _ _ _ E2) as (-> & _ & _ & _ & Hs2).
    assert (L2 : (List.length (sent s2) <= List.length (sent s1) + 1)%nat).
    { destruct Hs2 as [-> | ->]; rewrite ?length_app; simpl; lia. }
    unfold get_self, http, lift.
    match goal with
    | |- context [lms (sent s2) ?q] => set (rq := q)
    end.
    exists (verdict (lms (sent s2) rq)). eexists.
    split.
    { unfold verdict. destruct (lms (sent s2) rq) as [r|e]; simpl;
        [destruct (enroll_outcome r)|]; reflexivity. }
    simpl. split; [rewrite length_app; simpl; lia|].
    intros Hok.
    destruct (verdict_success _ Hok) as (r & body & Hrp & Hst & Hj & Hd).
    exists (sent s2), rq, r, body. repeat split; try assumption.
  - unfold ret. do 2 eexists. split; [reflexivity|]. simpl.
    split; [lia | discriminate].
Qed.

End Outcomes.

Lemma enroll_fails_fast_witness :
  enroll down_lms "amal" "course-v1:ESL+A1+2024" "verified" fresh
  = (Ok (false, Data (VStr "Authentication failed")),
     {| self := self fresh;
        sent := sent fresh ++ [token_request (self fresh)];
        enrolled := enrolled fresh
                    ++ [("amal", "course-v1:ESL+A1+2024", "verified")] |}).
Proof.
  apply (enroll_fails_fast down_lms fresh); reflexivity.
Defined.

(** The instance once it holds both tokens. *)
Definition ready : state :=
  snd (_get_csrf_token expiring_lms signed_in).

Lemma enroll_reads_the_reply_witness :
  fst (enroll expiring_lms "amal" "course-v1:ESL+A1+2024" "verified" ready)
  = Ok (false, Data (VStr "Unknown error occurred")).
Proof.
  rewrite (enroll_reads_the_reply expiring_lms ready "amal"
             "course-v1:ESL+A1+2024" "verified" eq_refl eq_refl).
  reflexivity.
Defined.

End EnrollOutcomes.

(* ===================================================================== *)
(** ** More on the pricing resolver *)
(* ===================================================================== *)

Module PricingOrder.

Import Edx OpenEdxAPI PricingFacts.
Local Open Scope result_scope.

Lemma upper_ascii_idem c : upper_ascii (upper_ascii c) = upper_ascii c.
Proof.
  destruct c as [[] [] [] [] [] [] [] []]; reflexivity.
Qed.

Lemma upper_idem s : upper (upper s) = upper s.
Proof.
  induction s as [|c s IH]; simpl; [reflexivity|].
  rewrite upper_ascii_idem, IH. reflexivity.
Qed.

Section Order.
Variable lms : remote.
Variable float_of_str : string -> option float.

Lemma priceless_skipped ms :
  forallb (priceless float_of_str) ms = true -> forallb skipped ms = true.
Proof.
  induction ms as [|m ms IH]; simpl; [auto|].
  intros H. apply andb_prop in H as [Hm Hms].
  apply andb_prop in Hm as [-> _]. simpl. auto.
Qed.

Lemma scan_named_none src ms :
  forallb skipped ms = true -> scan_named float_of_str src ms = Ok None.
Proof.
  intros H. rewrite <- (app_nil_r ms).
  rewrite (scan_named_skip _ _ _ _ H). reflexivity.
Qed.

Lemma scan_positive_skip src pre rest :
  forallb (priceless float_of_str) pre = true ->
  scan_positive float_of_str src (pre ++ rest)
  = scan_positive float_of_str src rest.
Proof.
  induction pre as [|m pre IH]; simpl; intros H; [reflexivity|].
  apply andb_prop in H as [Hm Hpre].
  apply andb_prop in Hm as [_ Hp].
  destruct (price_of float_of_str m) as [p|e]; [|discriminate]. simpl.
  destruct (0 <? p)%float; [discriminate|]. apply IH, Hpre.
Qed.

(** The second loop decides when no mode is named. *)
Lemma two_pass_paid src pre m post p c :
  forallb (priceless float_of_str) pre = true ->
  skipped m = true ->
  forallb skipped post = true ->
  price_of float_of_str m = Ok p ->
  (0 <? p)%float = true ->
  currency_of m = Ok c ->
  two_pass float_of_str src (VList (pre ++ m :: post))
  = Ok (Some (price_info (VFloat p) c src)).
Proof.
  intros Hpre Hm Hpost Hp Hpos Hc. unfold two_pass. simpl.
  rewrite scan_named_none.
  - simpl. rewrite (scan_positive_skip _ _ _ Hpre). simpl.
    rewrite Hp. simpl. rewrite Hpos, Hc. reflexivity.
  - rewrite forallb_app. simpl.
    rewrite (priceless_skipped _ Hpre), Hm, Hpost. reflexivity.
Qed.

(** X14.  When no mode of the commerce response is named professional
    or verified, the first mode with a price above zero decides:
    [get_course_price] returns its price and upper-cased currency with
    the source commerce_api, and the course-modes endpoint is not
    asked. *)
Theorem first_paid_mode_price course_id st r st1 d pre m post p c :
  fetch_commerce lms course_id st = (Ok r, st1) ->
  status_code r = 200 ->
  json r = Some (VDict d) ->
  assoc "modes" d = Some (VList (pre ++ m :: post)) ->
  forallb (priceless float_of_str) pre = true ->
  skipped m = true ->
  forallb skipped post = true ->
  price_of float_of_str m = Ok p ->
  (0 <? p)%float = true ->
  currency_of m = Ok c ->
  get_course_price lms float_of_str course_id st
  = (Ok (VDict [("price", VFloat p); ("currency", VStr c);
                ("source", VStr "commerce_api")]), st1).
Proof.
  intros Hf Hs Hj Hm Hpre Hsk Hpost Hp Hpos Hc.
  unfold get_course_price, try_except, get_course_price_body, bind, lift.
  rewrite Hf. unfold commerce_quote, json_of. rewrite Hs, Hj. simpl.
  rewrite Hm, (two_pass_paid _ _ _ _ _ _ Hpre Hsk Hpost Hp Hpos Hc).
  reflexivity.
Qed.

(** X15.  When the commerce response yields nothing (it is not a 200,
    or all its modes are priceless), the course-modes endpoint is asked
    and its list goes through the same two loops: its first mode named
    professional or verified decides, with the source
    course_modes_api. *)
Theorem course_modes_fallback course_id st r1 st1 r2 st2 pre m post p c :
  fetch_commerce lms course_id st = (Ok r1, st1) ->
  commerce_has_no_offer float_of_str r1 = true ->
  fetch_modes lms course_id st1 = (Ok r2, st2) ->
  status_code r2 = 200 ->
  json r2 = Some (VList (pre ++ m :: post)) ->
  forallb skipped pre = true ->
  chosen m = true ->
  price_of float_of_str m = Ok p ->
  currency_of m = Ok c ->
  get_course_price lms float_of_str course_id st
  = (Ok (VDict [("price", VFloat p); ("currency", VStr c);
                ("source", VStr "course_modes_api")]), st2).
Proof.
  intros H1 Hq1 H2 Hs Hj Hpre Hm Hp Hc.
  unfold get_course_price, try_except, get_course_price_body, bind, lift.
  rewrite H1, (commerce_no_offer_quote _ _ Hq1), H2.
  unfold modes_quote, json_of. rewrite Hs, Hj. simpl.
  rewrite (two_pass_named _ _ _ _ _ _ _ Hpre Hm Hp Hc). reflexivity.
Qed.

Lemma currency_of_upper m c : currency_of m = Ok c -> upper c = c.
Proof.
  unfold currency_of.
  destruct (get m "currency" (VStr "USD")) as [v|e]; [|discriminate]. simpl.
  destruct v; try discriminate. simpl.
  intros H; injection H as <-. apply upper_idem.
Qed.

Lemma scan_named_shape src ms info :
  scan_named float_of_str src ms = Ok (Some info) ->
  exists f c, info = price_info (VFloat f) c src /\ upper c = c.
Proof.
  induction ms as [|m ms IH]; simpl; [discriminate|].
  destruct (get m "name" VNone) as [n|e]; [|discriminate]. simpl.
  destruct (named n); [|exact IH].
  destruct (price_of float_of_str m) as [f|e]; [|discriminate]. simpl.
  destruct (currency_of m) as [c|e] eqn:Hc; [|discriminate]. simpl.
  intros H; injection H as <-. exists f, c.
  split; [reflexivity | exact (currency_of_upper _ _ Hc)].
Qed.

Lemma scan_positive_shape src ms info :
  scan_positive float_of_str src ms = Ok (Some info) ->
  exists f c, info = price_info (VFloat f) c src /\ upper c = c.
Proof.
  induction ms as [|m ms IH]; simpl; [discriminate|].
  destruct (price_of float_of_str m) as [f|e]; [|discriminate]. simpl.
  destruct (0 <? f)%float; [|exact IH].
  destruct (currency_of m) as [c|e] eqn:Hc; [|discriminate]. simpl.
  intros H; injection H as <-. exists f, c.
  split; [reflexivity | exact (currency_of_upper _ _ Hc)].
Qed.

Lemma two_pass_shape src v info :
  two_pass float_of_str src v = Ok (Some info) ->
  exists f c, info = price_info (VFloat f) c src /\ upper c = c.
Proof.
  unfold two_pass. destruct (iter v) as [ms|e]; [|discriminate]. simpl.
  destruct (scan_named float_of_str src ms) as [[hit|]|e] eqn:E;
    [| |discriminate]; simpl.
  - intros H; injection H as <-. exact (scan_named_shape _ _ _ E).
  - apply scan_positive_shape.
Qed.

(** What [get_course_price] may return. *)
Definition well_priced (out : result value * state) : Prop :=
  exists p c s st',
    out = (Ok (VDict [("price", p); ("currency", VStr c); ("source", VStr s)]),
           st') /\
    upper c = c /\
    (((s = "commerce_api" \/ s = "course_modes_api") /\ exists f, p = VFloat f)
     \/
     ((s = "default" \/ s = "error") /\ p = VInt 0 /\ c = "USD")).

Lemma well_priced_found f c s st' :
  upper c = c -> s = "commerce_api" \/ s = "course_modes_api" ->
  well_priced (Ok (VDict (price_info (VFloat f) c s)), st').
Proof.
  intros Hc Hs. exists (VFloat f), c, s, st'.
  split; [reflexivity|]. split; [exact Hc|]. left. eauto.
Qed.

Lemma well_priced_fallback s st' :
  s = "default" \/ s = "error" ->
  well_priced (Ok (VDict (price_info (VInt 0) "USD" s)), st').
Proof.
  intros Hs. exists (VInt 0), "USD", s, st'.
  split; [reflexivity|]. split; [reflexivity|]. right. auto.
Qed.

Lemma get_course_price_well_priced course_id st :
  well_priced (get_course_price lms float_of_str course_id st).
Proof.
  unfold get_course_price, try_except, get_course_price_body, bind, lift, ret.
  destruct (fetch_commerce lms course_id st) as [[r1|e] st1];
    [|apply well_priced_fallback; auto].
  destruct (commerce_quote float_of_str r1) as [[info|]|e] eqn:Q1;
    [| |apply well_priced_fallback; auto].
  - unfold commerce_quote in Q1.
    destruct (status_code r1 =? 200); [|discriminate].
    destruct (json_of r1) as [data|e]; [|discriminate]. simpl in Q1.
    destruct (get data "modes" (VList [])) as [modes|e]; [|discriminate].
    simpl in Q1. destruct (two_pass_shape _ _ _ Q1) as (f & c & -> & Hc).
    apply well_priced_found; auto.
  - destruct (fetch_modes lms course_id st1) as [[r2|e] st2];
      [|apply well_priced_fallback; auto].
    destruct (modes_quote float_of_str r2) as [[info|]|e] eqn:Q2;
      [| |apply well_priced_fallback; auto].
    + unfold modes_quote in Q2.
      destruct (status_code r2 =? 200); [|discriminate].
      destruct (json_of r2) as [data|e]; [|discriminate]. simpl in Q2.
      destruct (two_pass_shape _ _ _ Q2) as (f & c & -> & Hc).
      apply well_priced_found; auto.
    + apply well_priced_fallback; auto.
Qed.

(** X16.  Whatever the LMS does, [get_course_price] returns a dict of
    exactly the three keys price, currency and source.  The source is
    commerce_api or course_modes_api with a float price and a currency
    in upper case, or it is default or error with the price 0 and the
    currency USD. *)
Theorem price_info_is_well_formed course_id st :
  exists p c s st',
    get_course_price lms float_of_str course_id st
    = (Ok (VDict [("price", p); ("currency", VStr c); ("source", VStr s)]),
       st') /\
    upper c = c /\
    (((s = "commerce_api" \/ s = "course_modes_api") /\ exists f, p = VFloat f)
     \/
     ((s = "default" \/ s = "error") /\ p = VInt 0 /\ c = "USD")).
Proof.
  destruct (get_course_price_well_priced course_id st)
    as (p & c & s & st' & Hrun & Hc & Hs).
  exists p, c, s, st'. repeat split; assumption.
Qed.

End Order.

(** Commerce lists audit at 0 and honor at 25 usd; no mode is named. *)
Definition honor_lms : remote :=
  priced_lms
    (Answer (json_response 200
       (VDict [("modes", VList [audit_mode;
                                mode_entry "honor" (VInt 25) "usd";
                                audit_mode])])))
    (Answer not_found).

Lemma first_paid_mode_price_witness :
  get_course_price honor_lms no_parse "course-v1:ESL+A1+2024" fresh
  = (Ok (VDict [("price", VFloat 25); ("currency", VStr "USD");
                ("source", VStr "commerce_api")]),
     snd (fetch_commerce honor_lms "course-v1:ESL+A1+2024" fresh)).
Proof.
  apply (first_paid_mode_price honor_lms no_parse "course-v1:ESL+A1+2024"
           fresh
           (json_response 200
              (VDict [("modes", VList [audit_mode;
                                       mode_entry "honor" (VInt 25) "usd";
                                       audit_mode])]))
           (snd (fetch_commerce honor_lms "course-v1:ESL+A1+2024" fresh))
           [("modes", VList [audit_mode; mode_entry "honor" (VInt 25) "usd";
                             audit_mode])]
           [audit_mode] (mode_entry "honor" (VInt 25) "usd") [audit_mode]
           25%float "USD"); reflexivity.
Defined.

(** Commerce is a 404; the course-modes endpoint lists verified at 30. *)
Definition modes_only_lms : remote :=
  priced_lms (Answer not_found)
    (Answer (json_response 200
       (VList [audit_mode; mode_entry "verified" (VFloat 30) "egp"]))).

Lemma course_modes_fallback_witness :
  get_course_price modes_only_lms no_parse "course-v1:ESL+A1+2024" fresh
  = (Ok (VDict [("price", VFloat 30); ("currency", VStr "EGP");
                ("source", VStr "course_modes_api")]),
     snd (fetch_modes modes_only_lms "course-v1:ESL+A1+2024"
            (snd (fetch_commerce modes_only_lms "course-v1:ESL+A1+2024"
                    fresh)))).
Proof.
  apply (course_modes_fallback modes_only_lms no_parse
           "course-v1:ESL+A1+2024" fresh not_found
           (snd (fetch_commerce modes_only_lms "course-v1:ESL+A1+2024" fresh))
           (json_response 200
              (VList [audit_mode; mode_entry "verified" (VFloat 30) "egp"]))
           (snd (fetch_modes modes_only_lms "course-v1:ESL+A1+2024"
                   (snd (fetch_commerce modes_only_lms
                           "course-v1:ESL+A1+2024" fresh))))
           [audit_mode] (mode_entry "verified" (VFloat 30) "egp") []
           30%float "EGP"); reflexivity.
Defined.

End PricingOrder.

(* ===================================================================== *)
(** ** More on the course listing *)
(* ===================================================================== *)

Module ListingLoop.

Import Edx OpenEdxAPI PricingFacts PricingOrder.
Local Open Scope result_scope.


Lemma assoc_set_other {A} k k' (v : A) d :
  (k =? k')%string = false -> assoc k' (assoc_set k v d) = assoc k' d.
Proof.
  intros H. induction d as [|[k0 v0] d IH]; simpl.
  - rewrite H. reflexivity.
  - destruct (k0 =? k)%string eqn:E; simpl.
    + apply String.eqb_eq in E. subst k0. rewrite H. reflexivity.
    + rewrite IH. reflexivity.
Qed.

Lemma assoc_set_has {A} k k' (v : A) d :
  assoc k' d <> None -> assoc k' (assoc_set k v d) <> None.
Proof.
  induction d as [|[k0 v0] d IH]; simpl; [congruence|].
  destruct (k0 =? k)%string eqn:E; simpl.
  - apply String.eqb_eq in E. subst k0.
    destruct (k =? k')%string; [discriminate | auto].
  - destruct (k0 =? k')%string; [discriminate | auto].
Qed.


Lemma update_info_has c f cur src k :
  has_key c k = true ->
  has_key (dict_update c (price_info (VFloat f) cur src)) k = true.
Proof.
  unfold has_key, dict_update, price_info. simpl. intros H.
  match goal with
  | |- match ?x with _ => _ end = true =>
      assert (Hx : x <> None); [|destruct x; congruence]
  end.
  do 3 apply assoc_set_has.
  destruct (assoc k c); congruence.
Qed.

Section Loop.
Variable lms : remote.
Variable float_of_str : string -> option float.

Lemma two_loops_shape src ms hit :
  scan_named float_of_str src ms = Ok hit \/
  scan_positive float_of_str src ms = Ok hit ->
  hit = None \/ exists f c, hit = Some (price_info (VFloat f) c src).
Proof.
  destruct hit as [info|]; [|auto]. intros [H|H]; right.
  - destruct (scan_named_shape _ _ _ _ H) as (f & c & -> & _). eauto.
  - destruct (scan_positive_shape _ _ _ _ H) as (f & c & -> & _). eauto.
Qed.


Lemma apply_hit_has c hit src k :
  hit = None \/ (exists f cur, hit = Some (price_info (VFloat f) cur src)) ->
  has_key c k = true -> has_key (apply_hit c hit) k = true.
Proof.
  intros [-> | (f & cur & ->)] Hk; simpl; [exact Hk|].
  apply update_info_has, Hk.
Qed.


Lemma price_from_has src container c c' :
  price_from float_of_str src container c = Ok c' ->
  has_key c "price" = true ->
  c' = c \/ exists f cur, c' = dict_update c (price_info (VFloat f) cur src).
Proof.
  unfold price_from. intros H Hp.
  destruct (iter container) as [ms|e]; [|discriminate]. simpl in H.
  destruct (scan_named float_of_str src ms) as [hit|e] eqn:E1;
    [|discriminate]. simpl in H.
  pose proof (two_loops_shape src ms hit (or_introl E1)) as S1.
  rewrite (apply_hit_has _ _ _ _ S1 Hp) in H. simpl in H. injection H as <-.
  destruct S1 as [-> | (f & cur & ->)]; simpl; eauto.
Qed.





Lemma price_from_keeps_price src container c c' :
  price_from float_of_str src container c = Ok c' ->
  has_key c "price" = true -> has_key c' "price" = true.
Proof.
  intros H Hp.
  destruct (price_from_has _ _ _ _ H Hp) as [-> | (f & cur & ->)];
    [exact Hp | apply update_info_has, Hp].
Qed.

(** X18.  The pricing requests the loop makes for one record.  A record
    without an id (or with an empty one) is returned as it is and
    nothing is asked, whether it has a price or not.  For a record with
    an id the commerce endpoint is asked first and the course-modes
    endpoint at most once after it, and the instance is not changed.
    For a record that already has a price, only the commerce endpoint
    is asked, the course-modes endpoint never; when the commerce
    endpoint does not answer 200 that record is returned as it is. *)
Theorem priced_record_asks_commerce_only hd c st r st' :
  price_course lms float_of_str hd (VDict c) st = (r, st') ->
  let cid := match assoc "id" c with Some v => v | None => VNone end in
  let rq := get_request (commerce_url (self st) cid) hd [] in
  let rq2 := get_request (modes_url (self st) cid) hd [] in
  self st' = self st /\
  enrolled st' = enrolled st /\
  if truthy cid then
    (sent st' = sent st ++ [rq] \/ sent st' = sent st ++ [rq; rq2]) /\
    (has_key c "price" = true ->
     sent st' = sent st ++ [rq] /\
     (forall rp, lms (sent st) rq = Answer rp -> status_code rp <> 200 ->
                 r = Ok (VDict c)))
  else r = Ok (VDict c) /\ st' = st.
Proof.
  intros H cid rq rq2. unfold price_course, bind, lift in H. simpl in H.
  fold cid in H.
  destruct (truthy cid); [|injection H as <- <-; auto].
  unfold get_self, http, ret in H. simpl in H. fold rq rq2 in H.
  destruct (lms (sent st) rq) as [r1|e] eqn:L.
  - destruct (status_code r1 =? 200) eqn:S.
    + destruct (commerce_data <~ json_of r1 ;;
                modes <~ get commerce_data "modes" (VList []) ;;
                price_from float_of_str "commerce_api" modes c)
        as [c1|e] eqn:E1.
      * assert (Hp1 : has_key c "price" = true -> has_key c1 "price" = true).
        { destruct (json_of r1) as [data|e]; [|discriminate]. simpl in E1.
          destruct (get data "modes" (VList [])) as [modes|e]; [|discriminate].
          simpl in E1. exact (price_from_keeps_price _ _ _ _ E1). }
        destruct (has_key c1 "price") eqn:P1; simpl in H.
        -- injection H as <- <-. simpl.
           repeat split; auto. intros rp Hrp Hne. injection Hrp as <-.
           apply Z.eqb_eq in S. contradiction.
        -- destruct (lms (sent st ++ [rq]) rq2) as [r2|e2];
             [destruct (status_code r2 =? 200);
              [destruct (modes_data <~ json_of r2 ;;
                         price_from float_of_str "course_modes_api"
                           modes_data c1)|]|];
             injection H as <- <-; simpl; rewrite <- app_assoc; simpl;
             (split; [reflexivity|]); (split; [reflexivity|]);
             (split; [right; reflexivity|]);
             intros Hp; apply Hp1 in Hp; discriminate.
      * injection H as <- <-. simpl.
        repeat split; auto. intros rp Hrp Hne. injection Hrp as <-.
        apply Z.eqb_eq in S. contradiction.
    + destruct (has_key c "price") eqn:P; simpl in H.
      * injection H as <- <-. simpl. repeat split; auto.
      * destruct (lms (sent st ++ [rq]) rq2) as [r2|e2];
          [destruct (status_code r2 =? 200);
           [destruct (modes_data <~ json_of r2 ;;
                      price_from float_of_str "course_modes_api"
                        modes_data c)|]|];
          injection H as <- <-; simpl; rewrite <- app_assoc; simpl;
          (split; [reflexivity|]); (split; [reflexivity|]);
          (split; [right; reflexivity | discriminate]).
  - injection H as <- <-. simpl. repeat split; auto. intros rp Hrp. discriminate.
Qed.

End Loop.


(** An LMS whose pricing endpoints are both 404. *)
Definition default_lms : remote :=
  priced_lms (Answer not_found) (Answer not_found).

(** A record the catalog already prices. *)
Definition priced_record : list (string * value) :=
  [("id", VStr "course-v1:ESL+A1+2024"); ("price", VInt 15)].

(** A record the catalog sent without an id. *)
Definition nameless_record : list (string * value) :=
  [("name", VStr "English A1")].

Lemma priced_record_asks_commerce_only_witness :
  (fst (price_course default_lms no_parse [] (VDict priced_record) fresh)
   = Ok (VDict priced_record) /\
   sent (snd (price_course default_lms no_parse [] (VDict priced_record) fresh))
   = sent fresh
     ++ [get_request (commerce_url (self fresh)
                        (VStr "course-v1:ESL+A1+2024")) [] []]) /\
  price_course default_lms no_parse [] (VDict nameless_record) fresh
  = (Ok (VDict nameless_record), fresh).
Proof.
  split.
  - destruct (priced_record_asks_commerce_only default_lms no_parse []
                priced_record fresh
                (fst (price_course default_lms no_parse [] (VDict priced_record)
                        fresh))
                (snd (price_course default_lms no_parse [] (VDict priced_record)
                        fresh))
                eq_refl) as (_ & _ & _ & Hp).
    destruct (Hp eq_refl) as [Hs Hr].
    split; [|exact Hs].
    apply (Hr not_found); [reflexivity | discriminate].
  - destruct (priced_record_asks_commerce_only default_lms no_parse []
                nameless_record fresh
                (fst (price_course default_lms no_parse [] (VDict nameless_record)
                        fresh))
                (snd (price_course default_lms no_parse [] (VDict nameless_record)
                        fresh))
                eq_refl) as (_ & _ & Hr & Hst).
    rewrite (surjective_pairing
               (price_course default_lms no_parse [] (VDict nameless_record)
                  fresh)).
    rewrite Hr, Hst. reflexivity.
Defined.

End ListingLoop.

(* ===================================================================== *)
(** ** Users, enrollments and course modes *)
(* ===================================================================== *)

Module AccountFacts.

Import Edx OpenEdxAPI CredentialFacts HeaderFacts PricingOrder.
Local Open Scope result_scope.

Section Accounts.
Variable lms : remote.
Variable float_of_str : string -> option float.

(** X19.  [authenticate_user] never raises and sends exactly one
    request, the password grant.  It leaves the instance as it was: the
    user's token is returned, never cached as the client's own.  It
    returns something other than [None] only when the request was
    answered with a 200 whose body parsed, and then it returns that
    body. *)
Theorem authenticate_user_keeps_the_client username password st :
  let rq := authenticate_request (self st) username password in
  exists v,
    authenticate_user lms username password st = (Ok v, after st [rq]) /\
    (v <> VNone ->
     exists r, lms (sent st) rq = Answer r /\
               status_code r = 200 /\ json r = Some v).
Proof.
  intros rq.
  unfold authenticate_user, try_except, bind, get_self, http, lift, ret, after.
  fold rq. destruct (lms (sent st) rq) as [r|e] eqn:L; simpl.
  - destruct (status_code r =? 200) eqn:S; simpl.
    + unfold json_of. destruct (json r) as [v|] eqn:J; simpl.
      * exists v. split; [reflexivity|]. intros _. exists r.
        apply Z.eqb_eq in S. auto.
      * exists VNone. split; [reflexivity | congruence].
    + exists VNone. split; [reflexivity | congruence].
  - exists VNone. split; [reflexivity | congruence].
Qed.

(** X20.  [get_user_enrollments] never raises.  It returns the empty
    list unless its request was answered with a status outside 400..599
    and a body that parsed, in which case it returns that body: a
    transport failure, a 4xx or 5xx and an unreadable body all look
    like a user without enrollments. *)
Theorem user_enrollments_hide_failures username st :
  exists v st',
    get_user_enrollments lms username st = (Ok v, st') /\
    (v <> VList [] ->
     exists before rq r,
       sent st' = before ++ [rq] /\
       lms before rq = Answer r /\
       (status_code r < 400 \/ 600 <= status_code r) /\
       json r = Some v).
Proof.
  unfold get_user_enrollments, try_except, bind, get_self.
  destruct (_get_access_token lms st) as [r1 st1] eqn:E1.
  destruct (access_token_returns _ _ _ _ E1) as (tok & -> & _).
  unfold http, lift, ret.
  match goal with
  | |- context [lms (sent st1) ?q] =>
      set (rq := q); destruct (lms (sent st1) rq) as [r|e] eqn:L; simpl
  end.
  - unfold raise_for_status.
    destruct ((400 <=? status_code r) && (status_code r <? 600)) eqn:S; simpl.
    + do 2 eexists. split; [reflexivity | congruence].
    + unfold json_of. destruct (json r) as [v|] eqn:J; simpl.
      * do 2 eexists. split; [reflexivity|]. intros _.
        exists (sent st1), rq, r. simpl. repeat split; auto.
        apply andb_false_iff in S as [S|S]; [left|right]; lia.
      * do 2 eexists. split; [reflexivity | congruence].
  - do 2 eexists. split; [reflexivity | congruence].
Qed.

Lemma prefix_empty s : String.prefix "" s = true.
Proof. destruct s; reflexivity. Qed.

Lemma course_key_prefixed course_id :
  String.prefix "course-v1:" (course_key course_id) = true.
Proof.
  unfold course_key.
  destruct (String.prefix "course-v1:" course_id) eqn:P; simpl;
    [exact P | apply prefix_empty].
Qed.

Lemma course_key_idem course_id :
  course_key (course_key course_id) = course_key course_id.
Proof.
  unfold course_key at 1. rewrite course_key_prefixed. reflexivity.
Qed.

(** X21.  [get_course_mode] asks about the course id with the prefix
    course-v1: put in front when it is missing, so asking with the
    prefixed id and asking with the bare id are the same call: same
    request, same result, same state. *)
Theorem course_mode_prefix_is_optional course_id st :
  get_course_mode lms float_of_str (course_key course_id) st
  = get_course_mode lms float_of_str course_id st /\
  String.prefix "course-v1:" (course_key course_id) = true /\
  (String.prefix "course-v1:" course_id = true ->
   course_key course_id = course_id).
Proof.
  repeat split.
  - unfold get_course_mode. rewrite course_key_idem. reflexivity.
  - apply course_key_prefixed.
  - intros P. unfold course_key. rewrite P. reflexivity.
Qed.

Lemma scan_slug_shape ms info :
  scan_slug float_of_str ms = Ok (Some info) ->
  exists name f c,
    info = mode_info name (VFloat f) c /\ named name = true /\ upper c = c.
Proof.
  induction ms as [|m ms IH]; simpl; [discriminate|].
  destruct (get m "mode_slug" VNone) as [n|e]; [|discriminate]. simpl.
  destruct (named n) eqn:N; [|exact IH].
  destruct (price_of float_of_str m) as [f|e]; [|discriminate]. simpl.
  destruct (currency_of m) as [c|e] eqn:Hc; [|discriminate]. simpl.
  intros H; injection H as <-. exists n, f, c.
  repeat split; [exact N | exact (currency_of_upper _ _ Hc)].
Qed.

Lemma scan_paid_shape ms info :
  scan_paid float_of_str ms = Ok (Some info) ->
  exists name f c,
    info = mode_info name (VFloat f) c /\ (0 <? f)%float = true /\ upper c = c.
Proof.
  induction ms as [|m ms IH]; simpl; [discriminate|].
  destruct (price_of float_of_str m) as [f|e]; [|discriminate]. simpl.
  destruct (0 <? f)%float eqn:P; [|exact IH].
  destruct (get m "name" VNone) as [n|e]; [|discriminate]. simpl.
  destruct (currency_of m) as [c|e] eqn:Hc; [|discriminate]. simpl.
  intros H; injection H as <-. exists n, f, c.
  repeat split; [exact P | exact (currency_of_upper _ _ Hc)].
Qed.

(** What [get_course_mode] may return. *)
Definition mode_answer (v : value) : Prop :=
  v = VNone \/
  exists name p c,
    v = VDict [("name", name); ("price", p); ("currency", VStr c)] /\
    upper c = c /\
    ((exists f, p = VFloat f /\ (named name = true \/ (0 <? f)%float = true))
     \/ (name = VStr "audit" /\ p = VInt 0 /\ c = "USD")).

Lemma mode_of_response_answer r v :
  mode_of_response float_of_str r = Ok v -> mode_answer v.
Proof.
  unfold mode_of_response.
  destruct (json_of r) as [data|e]; [|discriminate]. simpl.
  destruct (iter data) as [ms|e]; [|discriminate]. simpl.
  destruct (scan_slug float_of_str ms) as [[hit|]|e] eqn:E1;
    [| |discriminate]; simpl.
  - intros H; injection H as <-.
    destruct (scan_slug_shape _ _ E1) as (n & f & c & -> & Hn & Hc).
    right. exists n, (VFloat f), c. repeat split; eauto.
  - destruct (scan_paid float_of_str ms) as [[hit|]|e] eqn:E2;
      [| |discriminate]; simpl; intros H; injection H as <-.
    + destruct (scan_paid_shape _ _ E2) as (n & f & c & -> & Hp & Hc).
      right. exists n, (VFloat f), c. repeat split; eauto.
    + right. exists (VStr "audit"), (VInt 0), "USD". repeat split; auto.
Qed.

Lemma get_course_mode_answer course_id st :
  exists v st',
    get_course_mode lms float_of_str course_id st = (Ok v, st') /\
    mode_answer v.
Proof.
  unfold get_course_mode, try_except, bind, get_self.
  destruct (_get_auth_headers lms true st) as [[hd|e] st1];
    [|do 2 eexists; split; [reflexivity | left; reflexivity]].
  unfold http, lift, ret.
  match goal with
  | |- context [lms (sent st1) ?q] =>
      destruct (lms (sent st1) q) as [r|e]; simpl
  end; [|do 2 eexists; split; [reflexivity | left; reflexivity]].
  destruct (status_code r =? 200);
    [|do 2 eexists; split; [reflexivity | left; reflexivity]].
  destruct (mode_of_response float_of_str r) as [v|e] eqn:E;
    do 2 eexists; (split; [reflexivity|]).
  - exact (mode_of_response_answer _ _ E).
  - left; reflexivity.
Qed.

(** [_get_auth_headers] returns headers, whatever the LMS does. *)
Lemma auth_headers_returned st :
  exists hd st1, _get_auth_headers lms true st = (Ok hd, st1).
Proof.
  unfold _get_auth_headers, bind.
  destruct (_get_access_token lms st) as [r1 s1] eqn:E1.
  destruct (access_token_returns _ _ _ _ E1) as (v1 & -> & _).
  destruct (_get_access_token lms s1) as [r2 s2] eqn:E2.
  destruct (access_token_returns _ _ _ _ E2) as (v2 & -> & _).
  destruct (_get_csrf_token lms s2) as [r3 s3] eqn:E3.
  destruct (csrf_token_returns _ _ _ _ E3) as (-> & _).
  unfold ret. do 2 eexists. reflexivity.
Qed.

(** A mode the first loop of [get_course_mode] passes over: it has a
    [get] and its [mode_slug] is not professional or verified. *)
Definition other_slug (m : value) : bool :=
  match get m "mode_slug" VNone with
  | Ok s => negb (named s)
  | Raise _ => false
  end.

(** A mode its second loop passes over: the price converts and is not
    above zero. *)
Definition unpaid (m : value) : bool :=
  match price_of float_of_str m with
  | Ok f => negb (0 <? f)%float
  | Raise _ => false
  end.

Lemma scan_slug_skips pre rest :
  forallb other_slug pre = true ->
  scan_slug float_of_str (pre ++ rest) = scan_slug float_of_str rest.
Proof.
  induction pre as [|m pre IH]; simpl; [reflexivity|].
  intros H. apply andb_prop in H as [Hm Hpre]. unfold other_slug in Hm.
  destruct (get m "mode_slug" VNone) as [s|e]; [|discriminate]. simpl.
  apply negb_true_iff in Hm. rewrite Hm. exact (IH Hpre).
Qed.

Lemma scan_slug_none ms :
  forallb other_slug ms = true -> scan_slug float_of_str ms = Ok None.
Proof.
  intros H. rewrite <- (app_nil_r ms). rewrite scan_slug_skips by exact H.
  reflexivity.
Qed.

Lemma scan_paid_skips pre rest :
  forallb unpaid pre = true ->
  scan_paid float_of_str (pre ++ rest) = scan_paid float_of_str rest.
Proof.
  induction pre as [|m pre IH]; simpl; [reflexivity|].
  intros H. apply andb_prop in H as [Hm Hpre]. unfold unpaid in Hm.
  destruct (price_of float_of_str m) as [f|e]; [|discriminate]. simpl.
  apply negb_true_iff in Hm. rewrite Hm. exact (IH Hpre).
Qed.

Lemma scan_paid_none ms :
  forallb unpaid ms = true -> scan_paid float_of_str ms = Ok None.
Proof.
  intros H. rewrite <- (app_nil_r ms). rewrite scan_paid_skips by exact H.
  reflexivity.
Qed.

(** The order in which [get_course_mode] reads a list of modes: the
    first mode with a named slug, whatever its price and whatever comes
    before or after it; without one, the first mode with a price above
    zero; without one, audit. *)
Lemma mode_of_response_order r ms :
  json r = Some (VList ms) ->
  (forall pre m post s f c,
      ms = pre ++ m :: post ->
      forallb other_slug pre = true ->
      get m "mode_slug" VNone = Ok s -> named s = true ->
      price_of float_of_str m = Ok f -> currency_of m = Ok c ->
      mode_of_response float_of_str r = Ok (VDict (mode_info s (VFloat f) c))) /\
  (forall pre m post n f c,
      forallb other_slug ms = true ->
      ms = pre ++ m :: post ->
      forallb unpaid pre = true ->
      price_of float_of_str m = Ok f -> (0 <? f)%float = true ->
      get m "name" VNone = Ok n -> currency_of m = Ok c ->
      mode_of_response float_of_str r = Ok (VDict (mode_info n (VFloat f) c))) /\
  (forallb other_slug ms = true -> forallb unpaid ms = true ->
   mode_of_response float_of_str r
   = Ok (VDict (mode_info (VStr "audit") (VInt 0) "USD"))).
Proof.
  intros J. unfold mode_of_response, json_of. rewrite J. simpl.
  split; [|split].
  - intros pre m post s f c -> Hpre Hs Hn Hf Hc.
    rewrite scan_slug_skips by exact Hpre. simpl.
    rewrite Hs. simpl. rewrite Hn, Hf. simpl. rewrite Hc. reflexivity.
  - intros pre m post n f c Hall -> Hpre Hf Hpos Hn Hc.
    rewrite scan_slug_none by exact Hall. simpl.
    rewrite scan_paid_skips by exact Hpre. simpl.
    rewrite Hf. simpl. rewrite Hpos, Hn. simpl. rewrite Hc. reflexivity.
  - intros Hall Hfree.
    rewrite scan_slug_none by exact Hall. simpl.
    rewrite scan_paid_none by exact Hfree. reflexivity.
Qed.

(** One run of [get_course_mode]: the headers are built, one request is
    sent, and the reply to it decides. *)
Lemma get_course_mode_run course_id st hd st1 :
  _get_auth_headers lms true st = (Ok hd, st1) ->
  let rq := get_request (course_modes_url (self st) (course_key course_id))
              hd [] in
  get_course_mode lms float_of_str course_id st
  = (Ok (match lms (sent st1) rq with
         | Answer r =>
             if status_code r =? 200 then
               match mode_of_response float_of_str r with
               | Ok v => v
               | Raise _ => VNone
               end
             else VNone
         | Failure _ => VNone
         end),
     after st1 [rq]).
Proof.
  intros E rq.
  unfold get_course_mode, try_except, bind, get_self. rewrite E.
  unfold http, lift, ret, after. fold rq.
  destruct (lms (sent st1) rq) as [r|e]; simpl; [|reflexivity].
  destruct (status_code r =? 200); [|reflexivity].
  destruct (mode_of_response float_of_str r); reflexivity.
Qed.

(** X22.  [get_course_mode] never raises and sends one request after
    its headers are built.  It returns [None], or a dict of exactly the
    keys name, price and currency with the currency in upper case.  A
    failed call and a status other than 200 give [None].  On a 200 whose
    body is a list of modes the order is: the first mode whose slug is
    professional or verified, with its slug as the name and its price
    whatever it is, even when a mode with a price comes before it; when
    no mode has such a slug, the first mode with a price above zero,
    under its name; when there is none either, audit at 0 USD. *)
Theorem course_mode_is_well_formed course_id st :
  exists v hd st1,
    _get_auth_headers lms true st = (Ok hd, st1) /\
    let rq := get_request (course_modes_url (self st) (course_key course_id))
                hd [] in
    get_course_mode lms float_of_str course_id st = (Ok v, after st1 [rq]) /\
    (v = VNone \/
     exists name p c,
       v = VDict [("name", name); ("price", p); ("currency", VStr c)] /\
       upper c = c /\
       ((exists f, p = VFloat f /\
                   (named name = true \/ (0 <? f)%float = true))
        \/ (name = VStr "audit" /\ p = VInt 0 /\ c = "USD"))) /\
    (forall e, lms (sent st1) rq = Failure e -> v = VNone) /\
    (forall r, lms (sent st1) rq = Answer r -> status_code r <> 200 ->
               v = VNone) /\
    (forall r ms,
        lms (sent st1) rq = Answer r -> status_code r = 200 ->
        json r = Some (VList ms) ->
        (forall pre m post s f c,
            ms = pre ++ m :: post ->
            forallb other_slug pre = true ->
            get m "mode_slug" VNone = Ok s -> named s = true ->
            price_of float_of_str m = Ok f -> currency_of m = Ok c ->
            v = VDict [("name", s); ("price", VFloat f);
                       ("currency", VStr c)]) /\
        (forall pre m post n f c,
            forallb other_slug ms = true ->
            ms = pre ++ m :: post ->
            forallb unpaid pre = true ->
            price_of float_of_str m = Ok f -> (0 <? f)%float = true ->
            get m "name" VNone = Ok n -> currency_of m = Ok c ->
            v = VDict [("name", n); ("price", VFloat f);
                       ("currency", VStr c)]) /\
        (forallb other_slug ms = true -> forallb unpaid ms = true ->
         v = VDict [("name", VStr "audit"); ("price", VInt 0);
                    ("currency", VStr "USD")])).
Proof.
  destruct (auth_headers_returned st) as (hd & st1 & E).
  pose proof (get_course_mode_run course_id st hd st1 E) as Hrun.
  cbv zeta in Hrun.
  set (rq := get_request (course_modes_url (self st) (course_key course_id))
               hd []) in *.
  destruct (get_course_mode_answer course_id st) as (v0 & st0 & Hrun0 & Hv0).
  rewrite Hrun in Hrun0.
  apply (f_equal (fun x => match fst x with Ok v => v | Raise _ => VNone end))
    in Hrun0. simpl in Hrun0.
  eexists. exists hd, st1. split; [exact E|]. cbv zeta. fold rq.
  split; [exact Hrun|].
  split; [rewrite Hrun0; exact Hv0|].
  split; [intros e L; rewrite L; reflexivity|].
  split.
  { intros r L Hs. rewrite L. apply Z.eqb_neq in Hs. rewrite Hs. reflexivity. }
  intros r ms L Hs J. rewrite L. apply Z.eqb_eq in Hs. rewrite Hs.
  destruct (mode_of_response_order r ms J) as (H1 & H2 & H3).
  split; [|split].
  - intros pre m post s f c Hms Hpre Hg Hn Hf Hc.
    rewrite (H1 pre m post s f c Hms Hpre Hg Hn Hf Hc). reflexivity.
  - intros pre m post n f c Hall Hms Hpre Hf Hpos Hn Hc.
    rewrite (H2 pre m post n f c Hall Hms Hpre Hf Hpos Hn Hc). reflexivity.
  - intros Hall Hfree. rewrite (H3 Hall Hfree). reflexivity.
Qed.

End Accounts.

(** The course-modes endpoint lists honor at 10 usd, then verified
    without a price. *)
Definition slug_modes : list value :=
  [VDict [("mode_slug", VStr "honor"); ("name", VStr "Honor");
          ("price", VInt 10); ("currency", VStr "usd")];
   VDict [("mode_slug", VStr "verified"); ("name", VStr "Verified");
          ("currency", VStr "eur")]].

Definition slug_lms : remote :=
  fun _ _ => Answer (PricingFacts.json_response 200 (VList slug_modes)).

(** The slug decides before the price does: verified at 0.0 is returned,
    not honor at 10. *)
Lemma course_mode_is_well_formed_witness :
  fst (get_course_mode slug_lms PricingFacts.no_parse "ESL+A1+2024" PricingFacts.fresh)
  = Ok (VDict [("name", VStr "verified"); ("price", VFloat 0);
               ("currency", VStr "EUR")]).
Proof.
  destruct (course_mode_is_well_formed slug_lms PricingFacts.no_parse "ESL+A1+2024"
              PricingFacts.fresh)
    as (v & hd & st1 & _ & Hrun & _ & _ & _ & Hlist).
  rewrite Hrun. simpl. f_equal.
  destruct (Hlist (PricingFacts.json_response 200 (VList slug_modes)) slug_modes
              eq_refl eq_refl eq_refl) as (Hslug & _).
  exact (Hslug [VDict [("mode_slug", VStr "honor"); ("name", VStr "Honor");
                       ("price", VInt 10); ("currency", VStr "usd")]]
           (VDict [("mode_slug", VStr "verified"); ("name", VStr "Verified");
                   ("currency", VStr "eur")])
           [] (VStr "verified") 0%float "EUR"
           eq_refl eq_refl eq_refl eq_refl eq_refl eq_refl).
Defined.

End AccountFacts.

(* ===================================================================== *)
(** ** Properties of [get_course_details] *)
(* ===================================================================== *)

Module DetailFacts.

Import Edx OpenEdxAPI CredentialFacts HeaderFacts PricingOrder ListingLoop.
Local Open Scope result_scope.

(** The keys a course returned by [get_course_details] has. *)
Definition required_keys : list string :=
  ["id"; "name"; "short_description"; "overview"; "prerequisites"; "org";
   "number"; "start_display"; "pacing"; "effort"; "media"; "price";
   "currency"; "mobile_available"; "mode"; "source"].

Lemma assoc_set_same {A} k (v : A) d : assoc k (assoc_set k v d) = Some v.
Proof.
  induction d as [|[k0 v0] d IH]; simpl.
  - rewrite String.eqb_refl. reflexivity.
  - destruct (k0 =? k)%string eqn:E; simpl.
    + rewrite String.eqb_refl. reflexivity.
    + rewrite E. exact IH.
Qed.

Lemma dict_update_keeps d other k :
  has_key d k = true -> has_key (dict_update d other) k = true.
Proof.
  unfold dict_update. revert d.
  induction other as [|[k0 v0] other IH]; simpl; intros d H; [exact H|].
  apply IH. unfold has_key in *.
  pose proof (assoc_set_has k0 k v0 d) as Hs.
  destruct (assoc k d); [|discriminate].
  destruct (assoc k (assoc_set k0 v0 d)); [reflexivity|].
  exfalso. apply Hs; congruence.
Qed.

Lemma dict_update_adds d other k :
  In k (map fst other) -> has_key (dict_update d other) k = true.
Proof.
  unfold dict_update. revert d.
  induction other as [|[k0 v0] other IH]; simpl; intros d H; [contradiction|].
  destruct H as [-> | H]; [|apply IH, H].
  apply (dict_update_keeps _ other). unfold has_key.
  rewrite assoc_set_same. reflexivity.
Qed.

Lemma dict_update_skips d other k :
  ~ In k (map fst other) -> assoc k (dict_update d other) = assoc k d.
Proof.
  unfold dict_update. revert d.
  induction other as [|[k0 v0] other IH]; simpl; intros d H; [reflexivity|].
  rewrite IH by tauto. apply assoc_set_other.
  apply String.eqb_neq. tauto.
Qed.

Lemma filled_dict d ds :
  exists fields, filled (VDict d) ds = Ok fields /\ map fst fields = map fst ds.
Proof.
  induction ds as [|[k v] ds (fields & Hf & Hk)]; simpl.
  - exists []. auto.
  - rewrite Hf. simpl. eexists. split; [reflexivity|]. simpl. rewrite Hk.
    reflexivity.
Qed.

Section Details.
Variable lms : remote.
Variable float_of_str : string -> option float.

(** X23.  A course that neither endpoint knows is [None], not an
    error: when the detail endpoint does not answer 200 the legacy
    endpoint is asked, with the same headers, and when it does not
    answer 200 either [get_course_details] returns [None]; no pricing
    request is made. *)
Theorem course_details_not_found course_id st hd st1 r1 r2 :
  let primary := get_request (details_url (self st) course_id) hd [] in
  let legacy := get_request (legacy_url (self st) course_id) hd [] in
  _get_auth_headers lms true st = (Ok hd, st1) ->
  lms (sent st1) primary = Answer r1 ->
  status_code r1 <> 200 ->
  lms (sent st1 ++ [primary]) legacy = Answer r2 ->
  status_code r2 <> 200 ->
  get_course_details lms float_of_str course_id st
  = (Ok VNone, after st1 [primary; legacy]).
Proof.
  intros primary legacy Hh L1 S1 L2 S2.
  apply Z.eqb_neq in S1, S2.
  unfold get_course_details, try_except, bind, get_self. rewrite Hh.
  unfold http. fold primary. rewrite L1, S1. simpl.
  fold legacy. rewrite L2, S2. unfold ret, after. simpl.
  rewrite <- app_assoc. reflexivity.
Qed.

(** X24.  A course that is found is still reported as [None] when the
    lookup of its mode fails: with a 200 and a JSON object from the
    detail endpoint and a price resolved, a [get_course_mode] that
    returns [None] makes [get_course_details] return [None]. *)
Theorem course_details_need_a_mode course_id st hd st1 r c p st2 st3 :
  let primary := get_request (details_url (self st) course_id) hd [] in
  _get_auth_headers lms true st = (Ok hd, st1) ->
  lms (sent st1) primary = Answer r ->
  status_code r = 200 ->
  json r = Some (VDict c) ->
  get_course_price lms float_of_str course_id (after st1 [primary])
  = (Ok (VDict p), st2) ->
  get_course_mode lms float_of_str course_id st2 = (Ok VNone, st3) ->
  get_course_details lms float_of_str course_id st = (Ok VNone, st3).
Proof.
  intros primary Hh L S J Hp Hm.
  apply Z.eqb_eq in S.
  unfold get_course_details, try_except, bind, get_self. rewrite Hh.
  unfold http. fold primary. rewrite L, S.
  unfold details_of, bind, lift, json_of. rewrite J.
  fold (after st1 [primary]). rewrite Hp. simpl. rewrite Hm.
  unfold with_required.
  destruct (filled_dict (dict_update c p) defaults) as (fields & -> & _).
  reflexivity.
Qed.

(** What [details_of] returns when it returns. *)
Lemma required_after_update course_id d1 fields name :
  map fst fields = map fst defaults ->
  has_key d1 "source" = true ->
  let d := dict_update d1
             ([("id", VStr course_id)] ++ fields ++ [("mode", name)]) in
  assoc "id" d = Some (VStr course_id) /\
  forallb (has_key d) required_keys = true.
Proof.
  intros Hk Hsrc d.
  assert (Hkeys : map fst ([("id", VStr course_id)] ++ fields ++ [("mode", name)])
                  = "id" :: map fst defaults ++ ["mode"]).
  { simpl. rewrite map_app, Hk. reflexivity. }
  split.
  - unfold d.
    change (dict_update d1
              ([("id", VStr course_id)] ++ fields ++ [("mode", name)]))
      with (dict_update (assoc_set "id" (VStr course_id) d1)
              (fields ++ [("mode", name)])).
    rewrite dict_update_skips.
    + apply assoc_set_same.
    + rewrite map_app, Hk. simpl. intuition discriminate.
  - apply forallb_forall. intros k Hin.
    destruct (string_dec k "source") as [-> | Hne].
    + apply dict_update_keeps, Hsrc.
    + apply dict_update_adds. rewrite Hkeys.
      unfold required_keys in Hin. simpl in Hin. simpl.
      intuition congruence.
Qed.

Lemma details_of_complete course_id r st v st' :
  details_of lms float_of_str course_id r st = (Ok v, st') ->
  exists d,
    v = VDict d /\
    assoc "id" d = Some (VStr course_id) /\
    forallb (has_key d) required_keys = true.
Proof.
  unfold details_of, bind, lift.
  destruct (json_of r) as [course|e]; [|discriminate].
  destruct (get_course_price_well_priced lms float_of_str course_id st)
    as (p & c & s & s2 & -> & _).
  destruct course as [| | | | | |d0]; try discriminate.
  unfold update at 1.
  destruct (get_course_mode lms float_of_str course_id s2)
    as [[mode|e] s3]; [|discriminate].
  unfold with_required.
  match goal with
  | |- context [filled (VDict ?x) defaults] => set (d1 := x)
  end.
  destruct (filled_dict d1 defaults) as (fields & Hf & Hk). rewrite Hf.
  destruct (get mode "name" (VStr "Not specified")) as [name|e];
    [|discriminate].
  assert (Hsrc : has_key d1 "source" = true).
  { unfold d1. apply dict_update_adds. simpl. tauto. }
  pose proof (required_after_update course_id d1 fields name Hk Hsrc) as [Hid Hall].
  intros H; injection H as <- _.
  eexists. split; [reflexivity|]. split; [exact Hid | exact Hall].
Qed.

(** X25.  A course [get_course_details] returns is complete: it is a
    dict whose [id] is the id asked for, and it has every key the pages
    read: name, short_description, overview, prerequisites, org, number,
    start_display, pacing, effort, media, price, currency,
    mobile_available, mode and source. *)
Theorem course_details_are_complete course_id st d st' :
  get_course_details lms float_of_str course_id st = (Ok (VDict d), st') ->
  assoc "id" d = Some (VStr course_id) /\
  forallb (has_key d) required_keys = true.
Proof.
  unfold get_course_details, try_except, bind, get_self.
  destruct (_get_auth_headers lms true st) as [[hd|e] st1]; [|discriminate].
  unfold http.
  match goal with
  | |- context [lms (sent st1) ?q] =>
      destruct (lms (sent st1) q) as [r1|e]; [|discriminate]
  end.
  destruct (status_code r1 =? 200).
  - match goal with
    | |- context [details_of lms float_of_str course_id r1 ?s] =>
        destruct (details_of lms float_of_str course_id r1 s)
          as [[v|e] s'] eqn:E; [|discriminate]
    end.
    intros H; injection H as -> _.
    destruct (details_of_complete _ _ _ _ _ E) as (d' & Hd & Hid & Hall).
    injection Hd as <-. auto.
  - simpl.
    match goal with
    | |- context [lms ?h ?q] =>
        destruct (lms h q) as [r2|e]; [|discriminate]
    end.
    destruct (status_code r2 =? 200); [|discriminate].
    match goal with
    | |- context [details_of lms float_of_str course_id r2 ?s] =>
        destruct (details_of lms float_of_str course_id r2 s)
          as [[v|e] s'] eqn:E; [|discriminate]
    end.
    intros H; injection H as -> _.
    destruct (details_of_complete _ _ _ _ _ E) as (d' & Hd & Hid & Hall).
    injection Hd as <-. auto.
Qed.

End Details.

(** An LMS that prices like [PricingFacts.verified_lms] and answers the
    detail, legacy and course-modes endpoints as given. *)
Definition details_lms (detail legacy modes : reply) : remote :=
  fun before rq =>
    match url rq with
    | [_; Lit path; _] =>
        if (path =? "/api/courses/v1/courses/")%string then detail
        else if (path =? "/api/mobile/v0.5/course_info/")%string then legacy
        else Answer PricingFacts.not_found
    | [_; Lit path; _; _] =>
        if (path =? "/api/course_modes/v1/courses/")%string then modes
        else PricingFacts.verified_lms before rq
    | _ => PricingFacts.verified_lms before rq
    end.

Definition unknown_lms : remote :=
  details_lms (Answer PricingFacts.not_found) (Answer PricingFacts.not_found)
    (Answer PricingFacts.not_found).

Definition catalog_entry : response :=
  PricingFacts.json_response 200
    (VDict [("name", VStr "English A1"); ("org", VStr "ESL")]).

(** The course is known, its modes are not. *)
Definition modeless_lms : remote :=
  details_lms (Answer catalog_entry) (Answer PricingFacts.not_found)
    (Answer PricingFacts.not_found).

(** The course is known and has a verified mode. *)
Definition complete_lms : remote :=
  details_lms (Answer catalog_entry) (Answer PricingFacts.not_found)
    (Answer (PricingFacts.json_response 200
       (VList [VDict [("mode_slug", VStr "verified"); ("price", VInt 49);
                      ("currency", VStr "eur")]]))).

(** The headers a fresh instance builds against these LMS. *)
Definition built_headers : list (string * fstring) :=
  [("Accept", [Lit "application/json"]);
   ("Content-Type", [Lit "application/json"]);
   ("User-Agent", [Lit "EDXStore/1.0"]);
   ("Authorization", [Lit "jwt "; Fmt (VStr "tok-1")]);
   ("X-CSRFToken", [Fmt (VStr "k3y")]);
   ("Cookie", [Lit "csrftoken="; Fmt (VStr "k3y")])].

Definition asked : string := "course-v1:ESL+A1+2024".

Lemma course_details_not_found_witness :
  get_course_details unknown_lms PricingFacts.no_parse asked fresh
  = (Ok VNone,
     after (snd (_get_auth_headers unknown_lms true fresh))
       [get_request (details_url (self fresh) asked) built_headers [];
        get_request (legacy_url (self fresh) asked) built_headers []]).
Proof.
  apply (course_details_not_found unknown_lms PricingFacts.no_parse asked
           fresh built_headers (snd (_get_auth_headers unknown_lms true fresh))
           PricingFacts.not_found PricingFacts.not_found);
    first [reflexivity | discriminate].
Defined.

Lemma course_details_need_a_mode_witness :
  fst (get_course_details modeless_lms PricingFacts.no_parse asked fresh)
  = Ok VNone.
Proof.
  rewrite (course_details_need_a_mode modeless_lms PricingFacts.no_parse asked
             fresh built_headers
             (snd (_get_auth_headers modeless_lms true fresh))
             catalog_entry
             [("name", VStr "English A1"); ("org", VStr "ESL")]
             (price_info (VFloat 49.5) "EUR" "commerce_api")
             (snd (get_course_price modeless_lms PricingFacts.no_parse asked
                     (after (snd (_get_auth_headers modeless_lms true fresh))
                        [get_request (details_url (self fresh) asked)
                           built_headers []])))
             (snd (get_course_mode modeless_lms PricingFacts.no_parse asked
                     (snd (get_course_price modeless_lms PricingFacts.no_parse
                             asked
                             (after (snd (_get_auth_headers modeless_lms true
                                            fresh))
                                [get_request (details_url (self fresh) asked)
                                   built_headers []])))))
             eq_refl eq_refl eq_refl eq_refl eq_refl eq_refl).
  reflexivity.
Defined.

(** What [get_course_details] returns against [complete_lms]. *)
Definition complete_course : list (string * value) :=
  [("name", VStr "English A1"); ("org", VStr "ESL");
   ("price", VFloat 49.5); ("currency", VStr "EUR");
   ("source", VStr "commerce_api"); ("id", VStr asked);
   ("short_description", VStr "No description available.");
   ("overview", VStr "No overview available.");
   ("prerequisites", VStr "No prerequisites.");
   ("number", VStr "Course Number");
   ("start_display", VStr "Not specified");
   ("pacing", VStr "Self-paced"); ("effort", VStr "Not specified");
   ("media", VDict []); ("mobile_available", VBool true);
   ("mode", VStr "verified")].

Lemma course_details_are_complete_witness :
  assoc "id" complete_course = Some (VStr asked) /\
  forallb (has_key complete_course) required_keys = true.
Proof.
  apply (course_details_are_complete complete_lms PricingFacts.no_parse asked
           fresh complete_course
           (snd (get_course_details complete_lms PricingFacts.no_parse asked
                   fresh))).
  reflexivity.
Defined.

End DetailFacts.

(* ===================================================================== *)
(** ** More on the webhook and on checkout *)
(* ===================================================================== *)

Module SettlementFacts.

Import Store Edx OpenEdxAPI Payment.

Section Events.
Variable construct_event :
  string -> option string -> option string -> result value.
Variable payment_intent_create : intent_request -> result value.
Variable pk_of : value -> option Z.
Variable lms : remote.

(** The client a request creates, before it has done anything. *)
Definition idle (cfg : config) : state :=
  init (OPENEDX_URL cfg) (OPENEDX_CLIENT_ID cfg) (OPENEDX_CLIENT_SECRET cfg).

(** X26.  A verified event of any type other than
    payment_intent.succeeded is acknowledged with a 200 and nothing
    else happens: the store is as before, nothing is sent to the LMS and
    nobody is enrolled. *)
Theorem other_events_are_acknowledged cfg payload sig_header d event ty :
  construct_event payload sig_header (STRIPE_WEBHOOK_SECRET cfg) = Ok event ->
  getitem event "type" = Ok ty ->
  is_succeeded ty = false ->
  webhook construct_event pk_of lms cfg payload sig_header d
  = (json_reply 200 (VDict [("status", VStr "success")]), d, idle cfg) /\
  sent (idle cfg) = [] /\ enrolled (idle cfg) = [].
Proof.
  intros Hev Hty Hno. unfold webhook, handle_event.
  rewrite Hev, Hty, Hno. repeat split.
Qed.

(** X27.  A succeeded payment whose metadata names no cart of the store
    is answered with a 404, before any enrollment: the store is as
    before and nothing is sent. *)
Theorem unknown_cart_is_not_settled cfg payload sig_header d event
    cart_key user_key :
  construct_event payload sig_header (STRIPE_WEBHOOK_SECRET cfg) = Ok event ->
  getitem event "type" = Ok (VStr "payment_intent.succeeded") ->
  settlement_keys event = Ok (cart_key, user_key) ->
  cart_get pk_of d cart_key = None ->
  webhook construct_event pk_of lms cfg payload sig_header d
  = (json_reply 404 (VDict [("error", VStr "Cart not found")]), d, idle cfg).
Proof.
  intros Hev Hty Hkeys Hcart. unfold webhook, handle_event.
  rewrite Hev, Hty. simpl. rewrite Hkeys, Hcart. reflexivity.
Qed.

(** X28.  A succeeded payment whose metadata names a cart but no user
    of the store: when the cart has lines the handler fails on the
    first one and answers 500, the cart keeps its lines and nobody is
    enrolled; when the cart has no line it is cleared and the answer is
    200. *)
Theorem unknown_user_leaves_the_cart cfg payload sig_header d event
    cart_key user_key c :
  construct_event payload sig_header (STRIPE_WEBHOOK_SECRET cfg) = Ok event ->
  getitem event "type" = Ok (VStr "payment_intent.succeeded") ->
  settlement_keys event = Ok (cart_key, user_key) ->
  cart_get pk_of d cart_key = Some c ->
  user_get pk_of d user_key = None ->
  webhook construct_event pk_of lms cfg payload sig_header d
  = match items d c with
    | [] => (json_reply 200 (VDict [("status", VStr "success")]),
             clear d c, idle cfg)
    | _ :: _ => ({| status := 500; content := Error AttributeError |},
                 d, idle cfg)
    end.
Proof.
  intros Hev Hty Hkeys Hcart Huser. unfold webhook, handle_event.
  rewrite Hev, Hty. simpl. rewrite Hkeys, Hcart, Huser.
  destruct (items d c); reflexivity.
Qed.

Lemma cart_get_clear d c key :
  cart_get pk_of (clear d c) key = cart_get pk_of d key.
Proof. reflexivity. Qed.

Lemma user_get_clear d c key :
  user_get pk_of (clear d c) key = user_get pk_of d key.
Proof. reflexivity. Qed.

(** X29.  A second delivery of a settled event is harmless: on the
    store the first delivery left, the same event is answered with a
    200 again, enrolls nobody, sends nothing and leaves the store as it
    is. *)
Theorem redelivery_enrolls_nobody cfg payload sig_header d event
    cart_key user_key c u :
  construct_event payload sig_header (STRIPE_WEBHOOK_SECRET cfg) = Ok event ->
  getitem event "type" = Ok (VStr "payment_intent.succeeded") ->
  settlement_keys event = Ok (cart_key, user_key) ->
  cart_get pk_of d cart_key = Some c ->
  user_get pk_of d user_key = Some u ->
  let first := webhook construct_event pk_of lms cfg payload sig_header d in
  let second := webhook construct_event pk_of lms cfg payload sig_header
                  (snd (fst first)) in
  second = (json_reply 200 (VDict [("status", VStr "success")]),
            snd (fst first), idle cfg).
Proof.
  intros Hev Hty Hkeys Hcart Huser first second.
  assert (Hfirst : snd (fst first) = clear d c).
  { unfold first, webhook, handle_event.
    rewrite Hev, Hty. simpl. rewrite Hkeys, Hcart, Huser.
    match goal with
    | |- context [enroll_items lms (Some u) ?its ?s] =>
        destruct (WebhookFacts.enroll_items_all lms u its s) as (st' & -> & _)
    end.
    reflexivity. }
  unfold second. rewrite Hfirst.
  unfold webhook, handle_event.
  rewrite Hev, Hty. simpl.
  rewrite Hkeys, cart_get_clear, user_get_clear, Hcart, Huser.
  rewrite WebhookFacts.items_clear. simpl.
  rewrite CartInvariant.clear_twice. reflexivity.
Qed.

(** X30.  For a cart with lines, [create_payment_intent] asks the
    processor for exactly one intent: the amount [int(total * 100)],
    the configured currency and key, and the ids of the user and of the
    cart as metadata.  The answer is a 200 with the client secret, or a
    500 when the processor raises.  When no line has a price the amount
    is 0. *)
Theorem intent_for_a_cart_with_lines cfg d u c cents :
  shopping_cart d u = Some c ->
  items d c <> [] ->
  amount_of (total d c) = Ok cents ->
  let rq := {| api_key := STRIPE_SECRET_KEY cfg;
               amount := cents;
               intent_currency := STRIPE_CURRENCY cfg;
               metadata := [("user_id", VInt (user_id u));
                            ("cart_id", VInt (cart_id c))] |} in
  create_payment_intent payment_intent_create cfg d u
  = (match payment_intent_create rq with
     | Ok secret => json_reply 200 (VDict [("clientSecret", secret)])
     | Raise e => {| status := 500; content := Error e |}
     end, [rq]) /\
  (prices (items d c) = [] -> cents = 0).
Proof.
  intros Hc Hne Ha rq. unfold total in Ha. split.
  - unfold create_payment_intent. rewrite Hc.
    destruct (items d c) as [|i l] eqn:Hi; [congruence|].
    rewrite Ha. fold rq.
    destruct (payment_intent_create rq); reflexivity.
  - intros Hp. rewrite Hp in Ha. injection Ha as <-. reflexivity.
Qed.

End Events.

(** *** Runs *)

Definition event_of (ty cart_key user_key : string) : value :=
  VDict [("type", VStr ty);
         ("data", VDict [("object",
            VDict [("metadata", VDict [("user_id", VStr user_key);
                                       ("cart_id", VStr cart_key)])])])].

(** A verification that accepts everything and yields the given event. *)
Definition delivering (event : value)
  : string -> option string -> option string -> result value :=
  fun _ _ _ => Ok event.

Definition cfg0 : config := WebhookFacts.sample_config.
Definition db0 : db := WebhookFacts.two_line_db.

Lemma other_events_are_acknowledged_witness :
  webhook (delivering (event_of "charge.refunded" "7" "3"))
    WebhookFacts.sample_pk_of EnrollFacts.expiring_lms cfg0 "payload"
    (Some "good") db0
  = (json_reply 200 (VDict [("status", VStr "success")]), db0, idle cfg0) /\
  sent (idle cfg0) = [] /\ enrolled (idle cfg0) = [].
Proof.
  apply (other_events_are_acknowledged
           (delivering (event_of "charge.refunded" "7" "3"))
           WebhookFacts.sample_pk_of EnrollFacts.expiring_lms cfg0 "payload"
           (Some "good") db0 (event_of "charge.refunded" "7" "3")
           (VStr "charge.refunded")); reflexivity.
Defined.

Lemma unknown_cart_is_not_settled_witness :
  webhook (delivering (event_of "payment_intent.succeeded" "9" "3"))
    WebhookFacts.sample_pk_of EnrollFacts.expiring_lms cfg0 "payload"
    (Some "good") db0
  = (json_reply 404 (VDict [("error", VStr "Cart not found")]), db0, idle cfg0).
Proof.
  apply (unknown_cart_is_not_settled
           (delivering (event_of "payment_intent.succeeded" "9" "3"))
           WebhookFacts.sample_pk_of EnrollFacts.expiring_lms cfg0 "payload"
           (Some "good") db0 (event_of "payment_intent.succeeded" "9" "3")
           (VStr "9") (VStr "3")); reflexivity.
Defined.

(** Cart 7 exists, user 4 does not. *)
Lemma unknown_user_leaves_the_cart_witness :
  webhook (delivering (event_of "payment_intent.succeeded" "7" "4"))
    WebhookFacts.sample_pk_of EnrollFacts.expiring_lms cfg0 "payload"
    (Some "good") db0
  = match items db0 WebhookFacts.the_cart with
    | [] => (json_reply 200 (VDict [("status", VStr "success")]),
             clear db0 WebhookFacts.the_cart, idle cfg0)
    | _ :: _ => ({| status := 500; content := Error AttributeError |},
                 db0, idle cfg0)
    end.
Proof.
  apply (unknown_user_leaves_the_cart
           (delivering (event_of "payment_intent.succeeded" "7" "4"))
           WebhookFacts.sample_pk_of EnrollFacts.expiring_lms cfg0 "payload"
           (Some "good") db0 (event_of "payment_intent.succeeded" "7" "4")
           (VStr "7") (VStr "4") WebhookFacts.the_cart); reflexivity.
Defined.

Lemma redelivery_enrolls_nobody_witness :
  let first := webhook (delivering (event_of "payment_intent.succeeded" "7" "3"))
                 WebhookFacts.sample_pk_of EnrollFacts.expiring_lms cfg0
                 "payload" (Some "good") db0 in
  webhook (delivering (event_of "payment_intent.succeeded" "7" "3"))
    WebhookFacts.sample_pk_of EnrollFacts.expiring_lms cfg0 "payload"
    (Some "good") (snd (fst first))
  = (json_reply 200 (VDict [("status", VStr "success")]),
     snd (fst first), idle cfg0).
Proof.
  apply (redelivery_enrolls_nobody
           (delivering (event_of "payment_intent.succeeded" "7" "3"))
           WebhookFacts.sample_pk_of EnrollFacts.expiring_lms cfg0 "payload"
           (Some "good") db0 (event_of "payment_intent.succeeded" "7" "3")
           (VStr "7") (VStr "3") WebhookFacts.the_cart WebhookFacts.the_user);
    reflexivity.
Defined.

(** A cart whose only line has no price. *)
Definition free_db : db :=
  {| users := [CheckoutFacts.the_user];
     carts := [CheckoutFacts.the_cart];
     cart_items := [{| item_id := 1; item_cart_id := 7;
                       course_id := "course-v1:ESL+A1+2024";
                       mode := "audit"; price := None;
                       currency := "USD"; course := VNone |}] |}.

Lemma intent_for_a_cart_with_lines_witness :
  create_payment_intent CheckoutFacts.accepting CheckoutFacts.checkout_config
    free_db CheckoutFacts.the_user
  = (json_reply 200 (VDict [("clientSecret", VStr "pi_1_secret_2")]),
     [{| api_key := Some "sk_test"; amount := 0; intent_currency := "usd";
         metadata := [("user_id", VInt 3); ("cart_id", VInt 7)] |}]).
Proof.
  refine (proj1 (intent_for_a_cart_with_lines CheckoutFacts.accepting
                   CheckoutFacts.checkout_config free_db CheckoutFacts.the_user
                   CheckoutFacts.the_cart 0 _ _ _)).
  - reflexivity.
  - discriminate.
  - reflexivity.
Defined.

End SettlementFacts.
